(** * browser-agent: the confidence-driven exploration loop

    A shallow embedding of the session model ([src/core/session.py]), the
    confidence model ([src/learning/confidence_scorer.py]), the pattern
    memory ([src/learning/memory_store.py]), the decision call
    ([src/intelligence/llm_client.py]), the browser agent
    ([src/core/browser_agent.py]) and the orchestrator
    ([src/core/orchestrator.py]), followed by the properties the
    specification states about them and further properties of the code.

    Conventions of the embedding:
    - a Python [int] is a [Z];
    - a Python [float] is read as an exact rational ([Q]); rounding of
      binary64 arithmetic is not modelled, and equalities between floats
      are stated up to [Qeq];
    - a Python [str] is a [string], [None]-able fields are [option]s;
    - a [dict] with string keys is a [gmap string _], a [set] is a [gset];
    - code that may raise returns a [result]; code that mutates an object
      threads the state that holds the object. *)

From Stdlib Require Import ZArith QArith Qminmax Lqa Lia Ascii.
From stdpp Require Import gmap strings list sorting.

Set Warnings "-register-all".

(** ** Python runtime: exceptions, values, builtins *)

(** The exception classes the modelled code raises or catches.  All of them
    derive from [Exception].  [IllTyped] is not a Python exception: it marks
    a value that does not fit the annotated type of a dataclass field, for
    which the typed records below have no inhabitant. *)
Inductive exn : Type :=
| ZeroDivisionError
| KeyError (key : string)
| TypeError (msg : string)
| AttributeError (msg : string)
| ValueError (msg : string)
| JSONDecodeError (msg : string)
| FileNotFoundError (path : string)
| OSError (msg : string)
| ProviderError (msg : string)
| IllTyped (field : string).

(** [str(e)]. *)
Definition exn_str (e : exn) : string :=
  match e with
  | ZeroDivisionError => "division by zero"
  | KeyError k => "'" +:+ k +:+ "'"
  | TypeError m | AttributeError m | ValueError m | JSONDecodeError m
  | OSError m | ProviderError m => m
  | FileNotFoundError p => "[Errno 2] No such file or directory: '" +:+ p +:+ "'"
  | IllTyped f => f
  end.

Inductive result (A : Type) : Type :=
| Ok (a : A)
| Raise (e : exn).
Arguments Ok {A} a.
Arguments Raise {A} e.

#[global] Instance result_ret : MRet result := fun A a => Ok a.
#[global] Instance result_bind : MBind result := fun A B f m =>
  match m with
  | Ok a => f a
  | Raise e => Raise e
  end.

(** [for x in xs: ys.append(f(x))], stopping at the first exception. *)
Fixpoint mapM_result {A B : Type} (f : A -> result B) (xs : list A)
  : result (list B) :=
  match xs with
  | [] => Ok []
  | x :: xs' => y ← f x; ys ← mapM_result f xs'; Ok (y :: ys)
  end.

(** The values [json.dump] writes and [json.load] reads back. *)
Inductive json : Type :=
| JNull
| JBool (b : bool)
| JInt (z : Z)
| JFloat (q : Q)
| JStr (s : string)
| JList (l : list json)
| JDict (d : gmap string json).

(** A dict display [{k1: v1, ..., kn: vn}] with distinct keys. *)
Definition dict {V : Type} (items : list (string * V)) : gmap string V :=
  list_to_map items.

(** [d[k]]. *)
Definition subscript {V : Type} (d : gmap string V) (k : string) : result V :=
  match d !! k with
  | Some v => Ok v
  | None => Raise (KeyError k)
  end.

(** [a / b] on two ints. *)
Definition truediv (a b : Z) : result Q :=
  if decide (b = 0%Z) then Raise ZeroDivisionError
  else Ok (inject_Z a / inject_Z b)%Q.

(** [min(a, b)]: the first argument unless the second is strictly smaller. *)
Definition py_min (a b : Q) : Q :=
  if Qlt_le_dec b a then b else a.

(** [xs[-n:]] for a positive [n]. *)
Definition last_n {A : Type} (n : nat) (xs : list A) : list A :=
  drop (length xs - n) xs.

(** [len(xs)]. *)
Definition len {A : Type} (xs : list A) : Z := Z.of_nat (length xs).

(** [sum(1 for x in xs if p(x))]. *)
Definition count_if {A : Type} (p : A -> bool) (xs : list A) : Z :=
  len (List.filter p xs).

(** [len(set(xs))] for strings. *)
Definition len_set (xs : list string) : Z :=
  Z.of_nat (size (list_to_set xs : gset string)).

(** The files of one directory: file name to parsed JSON document. *)
Abbreviation directory := (gmap string json).

(** ** [src/core/session.py] *)

(** Reading a field of a keyword dictionary at its annotated type. *)
Definition as_str (field : string) (v : json) : result string :=
  match v with JStr s => Ok s | _ => Raise (IllTyped field) end.

Definition as_opt_str (field : string) (v : json) : result (option string) :=
  match v with
  | JNull => Ok None
  | JStr s => Ok (Some s)
  | _ => Raise (IllTyped field)
  end.

Definition as_bool (field : string) (v : json) : result bool :=
  match v with JBool b => Ok b | _ => Raise (IllTyped field) end.

Definition as_int (field : string) (v : json) : result Z :=
  match v with JInt z => Ok z | _ => Raise (IllTyped field) end.

Definition as_float (field : string) (v : json) : result Q :=
  match v with
  | JFloat q => Ok q
  | JInt z => Ok (inject_Z z)
  | _ => Raise (IllTyped field)
  end.

Definition as_dict (field : string) (v : json) : result (gmap string json) :=
  match v with JDict d => Ok d | _ => Raise (IllTyped field) end.

Definition as_list (field : string) (v : json) : result (list json) :=
  match v with JList l => Ok l | _ => Raise (IllTyped field) end.

Definition of_opt_str (o : option string) : json :=
  match o with Some s => JStr s | None => JNull end.

(** Binding the keywords of [data] to the parameters of a dataclass
    [__init__]: a keyword that names no field is a [TypeError], and so is a
    missing field without a default. *)
Definition check_keywords (fields : list string) (data : gmap string json)
  : result unit :=
  if decide (dom data ⊆ list_to_set fields)
  then Ok ()
  else Raise (TypeError "__init__() got an unexpected keyword argument").

Definition required {A : Type} (conv : string -> json -> result A)
    (data : gmap string json) (field : string) : result A :=
  match data !! field with
  | Some v => conv field v
  | None => Raise (TypeError "__init__() missing 1 required positional argument")
  end.

Definition optional {A : Type} (conv : string -> json -> result A)
    (data : gmap string json) (field : string) (default : A) : result A :=
  match data !! field with
  | Some v => conv field v
  | None => Ok default
  end.

Module ActionRecord.

Record t : Type := mk {
  timestamp : string;
  action_type : string;
  selector : option string;
  value : option string;
  reasoning : string;
  success : bool;
  page_url : string;
  screenshot_path : option string
}.

Definition fields : list string :=
  ["timestamp"; "action_type"; "selector"; "value"; "reasoning";
   "success"; "page_url"; "screenshot_path"].

Definition to_dict (self : t) : gmap string json :=
  dict [("timestamp", JStr (timestamp self));
        ("action_type", JStr (action_type self));
        ("selector", of_opt_str (selector self));
        ("value", of_opt_str (value self));
        ("reasoning", JStr (reasoning self));
        ("success", JBool (success self));
        ("page_url", JStr (page_url self));
        ("screenshot_path", of_opt_str (screenshot_path self))].

Definition from_dict (data : json) : result t :=
  match data with
  | JDict d =>
      _ ← check_keywords fields d;
      ts ← required as_str d "timestamp";
      ty ← required as_str d "action_type";
      sel ← required as_opt_str d "selector";
      val ← required as_opt_str d "value";
      why ← required as_str d "reasoning";
      ok ← required as_bool d "success";
      url ← required as_str d "page_url";
      shot ← optional as_opt_str d "screenshot_path" None;
      Ok (mk ts ty sel val why ok url shot)
  | _ => Raise (TypeError "argument after ** must be a mapping")
  end.

End ActionRecord.

Module Session.

Record t : Type := mk {
  session_id : string;
  target_url : string;
  created_at : string;
  status : string;
  actions : list ActionRecord.t;
  confidence_score : Q;
  total_elements_found : Z;
  elements_explored : Z;
  metadata : gmap string json
}.

Definition fields : list string :=
  ["session_id"; "target_url"; "created_at"; "status"; "actions";
   "confidence_score"; "total_elements_found"; "elements_explored";
   "metadata"].

(** [Session.create(url)], given the fresh identifier and the clock. *)
Definition create (uuid8 now url : string) : t :=
  mk uuid8 url now "active" [] 0%Q 0%Z 0%Z ∅.

Definition add_action (self : t) (action : ActionRecord.t) : t :=
  mk (session_id self) (target_url self) (created_at self) (status self)
     (actions self ++ [action]) (confidence_score self)
     (total_elements_found self) (elements_explored self) (metadata self).

Definition to_dict (self : t) : gmap string json :=
  dict [("session_id", JStr (session_id self));
        ("target_url", JStr (target_url self));
        ("created_at", JStr (created_at self));
        ("status", JStr (status self));
        ("actions",
          JList ((fun a => JDict (ActionRecord.to_dict a)) <$> actions self));
        ("confidence_score", JFloat (confidence_score self));
        ("total_elements_found", JInt (total_elements_found self));
        ("elements_explored", JInt (elements_explored self));
        ("metadata", JDict (metadata self))].

Definition from_dict (data : json) : result t :=
  match data with
  | JDict d =>
      (* data.pop("actions", []) *)
      raw ← optional as_list d "actions" [];
      let d := delete "actions" d in
      acts ← mapM_result ActionRecord.from_dict raw;
      (* cls(actions=actions, **data) *)
      _ ← check_keywords fields d;
      sid ← required as_str d "session_id";
      url ← required as_str d "target_url";
      at_ ← required as_str d "created_at";
      st ← optional as_str d "status" "active";
      score ← optional as_float d "confidence_score" 0%Q;
      found ← optional as_int d "total_elements_found" 0%Z;
      explored ← optional as_int d "elements_explored" 0%Z;
      meta ← optional as_dict d "metadata" ∅;
      Ok (mk sid url at_ st acts score found explored meta)
  | _ => Raise (AttributeError "object has no attribute 'pop'")
  end.

Definition file_name (session_id : string) : string :=
  session_id +:+ ".json".

(** The identifiers for which [f"{session_id}.json"] names a file of the
    sessions directory itself: no path separator and no NUL in it, and a
    name of at most 255 bytes.  Other identifiers make the path lead
    elsewhere, or make [open] fail in another way. *)
Definition is_file_name (session_id : string) : bool :=
  bool_decide
    (Forall (fun c : ascii => c <> "/"%char /\ c <> "000"%char)
       (String.list_ascii_of_string session_id) /\
     (String.length (file_name session_id) <= 255)%nat).

(** [save]: the directory after the write ([json.dump] of [to_dict]). *)
Definition save (self : t) (sessions_dir : directory) : directory :=
  <[file_name (session_id self) := JDict (to_dict self)]> sessions_dir.

(** [load]: [open] fails when no file of that name exists. *)
Definition load (session_id : string) (sessions_dir : directory) : result t :=
  match sessions_dir !! file_name session_id with
  | Some doc => from_dict doc
  | None => Raise (FileNotFoundError (file_name session_id))
  end.

Definition success_rate (self : t) : result Q :=
  if decide (actions self = []) then Ok 0%Q
  else
    let successful := count_if ActionRecord.success (actions self) in
    truediv successful (len (actions self)).

(** A parsed [datetime]: seconds on the time line and whether it carries a
    UTC offset.  Subtracting a naive from an aware one is a [TypeError]. *)
Record datetime : Type := Datetime {
  seconds : Q;
  aware : bool
}.

Definition datetime_sub (a b : datetime) : result Q :=
  if bool_decide (aware a = aware b) then Ok (seconds a - seconds b)%Q
  else Raise (TypeError "can't subtract offset-naive and offset-aware datetimes").

Section WithClock.

(** [datetime.fromisoformat], a [ValueError] on a malformed string. *)
Variable fromisoformat : string -> result datetime.

(** [len(self.actions) < 2] is the case of no action or one; otherwise
    [actions[0]] and [actions[-1]] exist. *)
Definition duration_seconds (self : t) : result Q :=
  match actions self with
  | [] | [_] => Ok 0%Q
  | a0 :: rest =>
      first ← fromisoformat (ActionRecord.timestamp a0);
      last ← fromisoformat (ActionRecord.timestamp (List.last rest a0));
      datetime_sub last first
  end.

End WithClock.

End Session.

(** ** State and exceptions

    A method that reads or mutates an object runs in [M S]: it takes the
    state [S] holding the object and returns its outcome together with the
    state it leaves, also when it raises. *)

Definition M (S A : Type) : Type := S -> result A * S.

#[global] Instance M_ret {S : Type} : MRet (M S) := fun A a s => (Ok a, s).
#[global] Instance M_bind {S : Type} : MBind (M S) := fun A B f m s =>
  match m s with
  | (Ok a, s') => f a s'
  | (Raise e, s') => (Raise e, s')
  end.

Definition lift {S A : Type} (r : result A) : M S A := fun s => (r, s).
Definition gets {S A : Type} (f : S -> A) : M S A := fun s => (Ok (f s), s).
Definition modify {S : Type} (f : S -> S) : M S unit := fun s => (Ok (), f s).

(** ** [src/learning/confidence_scorer.py] *)

Module ConfidenceMetrics.

Record t : Type := mk {
  coverage_score : Q;
  success_rate : Q;
  pattern_stability : Q;
  exploration_depth : Q
}.

Definition weights : gmap string Q :=
  dict [("coverage", 0.30%Q);
        ("success_rate", 0.25%Q);
        ("pattern_stability", 0.25%Q);
        ("exploration_depth", 0.20%Q)].

Definition weighted_score (self : t) : result Q :=
  w_cov ← subscript weights "coverage";
  w_suc ← subscript weights "success_rate";
  w_pat ← subscript weights "pattern_stability";
  w_exp ← subscript weights "exploration_depth";
  Ok (coverage_score self * w_cov
      + success_rate self * w_suc
      + pattern_stability self * w_pat
      + exploration_depth self * w_exp)%Q.

End ConfidenceMetrics.

Module ConfidenceScorer.

Record t : Type := mk {
  threshold : Q;
  _visited_selectors : gset string;
  _successful_patterns : list (string * string)
}.

Definition default_threshold : Q := 0.85%Q.

(** [ConfidenceScorer(threshold)]; [None] stands for the omitted argument. *)
Definition __init__ (threshold : option Q) : t :=
  mk (default default_threshold threshold) ∅ [].

(** The objects a scoring step can reach: the scorer itself and the
    session it is handed. *)
Record objects : Type := Objects {
  self_ : t;
  session_ : Session.t
}.

Definition _calculate_pattern_stability (session : Session.t) : result Q :=
  if decide (len (Session.actions session) < 5)%Z then Ok 0.3%Q
  else
    let recent_actions := last_n 10 (Session.actions session) in
    recent_success_rate ←
      truediv (count_if ActionRecord.success recent_actions)
              (len recent_actions);
    let action_types := ActionRecord.action_type <$> Session.actions session in
    ratio ← truediv (len_set action_types) 4;
    let variety_bonus := py_min ratio 0.3%Q in
    Ok (py_min (recent_success_rate + variety_bonus)%Q 1%Q).

(** [a.selector] is truthy: neither [None] nor the empty string. *)
Definition truthy_selector (a : ActionRecord.t) : option string :=
  match ActionRecord.selector a with
  | Some s => if decide (s = "") then None else Some s
  | None => None
  end.

Definition _calculate_exploration_depth (session : Session.t) : result Q :=
  if decide (Session.actions session = []) then Ok 0%Q
  else
    let unique_urls := ActionRecord.page_url <$> Session.actions session in
    r_url ← truediv (len_set unique_urls) 5;
    let url_score := py_min r_url 0.5%Q in
    let unique_selectors := omap truthy_selector (Session.actions session) in
    r_sel ← truediv (len_set unique_selectors) 20;
    let selector_score := py_min r_sel 0.5%Q in
    Ok (url_score + selector_score)%Q.

Definition update : M objects ConfidenceMetrics.t :=
  session ← gets session_;
  coverage ←
    (if decide (Session.total_elements_found session > 0)%Z
     then lift (truediv (Session.elements_explored session)
                        (Session.total_elements_found session))
     else mret 0%Q);
  success_rate ← lift (Session.success_rate session);
  pattern_stability ← lift (_calculate_pattern_stability session);
  exploration_depth ← lift (_calculate_exploration_depth session);
  mret (ConfidenceMetrics.mk (py_min coverage 1%Q) success_rate
          pattern_stability exploration_depth).

Definition MIN_PAGES_REQUIRED : Z := 4.

Definition is_learning_complete (self : t) (metrics : ConfidenceMetrics.t)
    (unique_pages : Z) : result bool :=
  if decide (unique_pages < MIN_PAGES_REQUIRED)%Z then Ok false
  else
    score ← ConfidenceMetrics.weighted_score metrics;
    let is_complete := Qle_bool (threshold self) score in
    Ok is_complete.

Definition record_interaction (selector : string) (success : bool)
  : M objects unit :=
  _ ← modify (fun o =>
        Objects (mk (threshold (self_ o))
                    ({[selector]} ∪ _visited_selectors (self_ o))
                    (_successful_patterns (self_ o)))
                (session_ o));
  if success
  then modify (fun o =>
        Objects (mk (threshold (self_ o))
                    (_visited_selectors (self_ o))
                    (_successful_patterns (self_ o) ++ [(selector, "success")]))
                (session_ o))
  else mret ().

End ConfidenceScorer.

(** ** [src/learning/memory_store.py] *)

(** [f"{z:04d}"]: decimal digits, sign first, padded with zeros to width 4. *)
Definition digit_char (d : Z) : ascii :=
  ascii_of_nat (48 + Z.to_nat d).

Fixpoint decimal_go (fuel : nat) (n : Z) (acc : string) : string :=
  let acc' := String (digit_char (n mod 10)) acc in
  match fuel with
  | O => acc'
  | S fuel' => if decide (n / 10 = 0)%Z then acc' else decimal_go fuel' (n / 10) acc'
  end.

(** The decimal digits of a non-negative [n]. *)
Definition decimal (n : Z) : string :=
  decimal_go (Z.to_nat (Z.log2 n)) n "".

Fixpoint zeros (k : nat) : string :=
  match k with
  | O => ""
  | S k' => String "0" (zeros k')
  end.

Definition zfill (width : nat) (s : string) : string :=
  zeros (width - String.length s) +:+ s.

Definition fmt_04d (z : Z) : string :=
  if decide (z < 0)%Z then "-" +:+ zfill 3 (decimal (- z))
  else zfill 4 (decimal z).

(** The moment of a call: what [datetime.now().isoformat()] returns and
    whether [open(filepath, "w")] succeeds. *)
Record env : Type := Env {
  now : string;
  writable : bool
}.

Module LearnedPattern.

Record t : Type := mk {
  pattern_id : string;
  domain : string;
  element_type : string;
  selector_pattern : string;
  action_sequence : list string;
  success_count : Z;
  failure_count : Z;
  last_used : string;
  metadata : gmap string json
}.

Definition fields : list string :=
  ["pattern_id"; "domain"; "element_type"; "selector_pattern";
   "action_sequence"; "success_count"; "failure_count"; "last_used";
   "metadata"].

Definition set_success_count (n : Z) (p : t) : t :=
  mk (pattern_id p) (domain p) (element_type p) (selector_pattern p)
     (action_sequence p) n (failure_count p) (last_used p) (metadata p).

Definition set_failure_count (n : Z) (p : t) : t :=
  mk (pattern_id p) (domain p) (element_type p) (selector_pattern p)
     (action_sequence p) (success_count p) n (last_used p) (metadata p).

Definition set_last_used (s : string) (p : t) : t :=
  mk (pattern_id p) (domain p) (element_type p) (selector_pattern p)
     (action_sequence p) (success_count p) (failure_count p) s (metadata p).

Definition reliability (self : t) : result Q :=
  let total := (success_count self + failure_count self)%Z in
  if decide (total = 0%Z) then Ok 0.5%Q
  else truediv (success_count self) total.

Definition to_dict (self : t) : gmap string json :=
  dict [("pattern_id", JStr (pattern_id self));
        ("domain", JStr (domain self));
        ("element_type", JStr (element_type self));
        ("selector_pattern", JStr (selector_pattern self));
        ("action_sequence", JList (JStr <$> action_sequence self));
        ("success_count", JInt (success_count self));
        ("failure_count", JInt (failure_count self));
        ("last_used", JStr (last_used self));
        ("metadata", JDict (metadata self))].

Definition as_str_list (field : string) (v : json) : result (list string) :=
  l ← as_list field v; mapM_result (as_str field) l.

(** [from_dict]; the clock fills the default of [last_used]. *)
Definition from_dict (clock : string) (data : json) : result t :=
  match data with
  | JDict d =>
      _ ← check_keywords fields d;
      pid ← required as_str d "pattern_id";
      dom_ ← required as_str d "domain";
      ety ← required as_str d "element_type";
      sel ← required as_str d "selector_pattern";
      seq_ ← required as_str_list d "action_sequence";
      ok ← optional as_int d "success_count" 0%Z;
      ko ← optional as_int d "failure_count" 0%Z;
      used ← optional as_str d "last_used" clock;
      meta ← optional as_dict d "metadata" ∅;
      Ok (mk pid dom_ ety sel seq_ ok ko used meta)
  | _ => Raise (TypeError "argument after ** must be a mapping")
  end.

End LearnedPattern.

Module MemoryStore.

(** The store object together with the directory it persists to. *)
Record t : Type := mk {
  patterns_dir : directory;
  _patterns : gmap string LearnedPattern.t
}.

Definition set_patterns
    (f : gmap string LearnedPattern.t -> gmap string LearnedPattern.t)
    (self : t) : t :=
  mk (patterns_dir self) (f (_patterns self)).

Definition set_dir (f : directory -> directory) (self : t) : t :=
  mk (f (patterns_dir self)) (_patterns self).

Definition file_name (pattern_id : string) : string :=
  pattern_id +:+ ".json".

(** [glob("*.json")]. *)
Definition is_json_file (name : string) : bool :=
  bool_decide (5 <= String.length name /\
               String.substring (String.length name - 5) 5 name = ".json").

(** [_load_patterns]: a record that does not load is skipped. *)
Definition _load_patterns (clock : string) (dir : directory)
  : gmap string LearnedPattern.t :=
  map_fold (fun name doc acc =>
              if is_json_file name then
                match LearnedPattern.from_dict clock doc with
                | Ok pattern => <[LearnedPattern.pattern_id pattern := pattern]> acc
                | Raise _ => acc
                end
              else acc)
           ∅ dir.

Definition __init__ (clock : string) (dir : directory) : t :=
  mk dir (_load_patterns clock dir).

Definition save_pattern (pattern : LearnedPattern.t) (e : env) : M t unit :=
  _ ← modify (set_patterns (<[LearnedPattern.pattern_id pattern := pattern]>));
  if writable e
  then modify (set_dir (<[file_name (LearnedPattern.pattern_id pattern)
                           := JDict (LearnedPattern.to_dict pattern)]>))
  else lift (Raise (OSError "cannot open file for writing")).

(** The order of [dict.values()] is not modelled: the records come in the
    order of the finite map. *)
Definition get_patterns_for_domain (domain : string)
  : M t (list LearnedPattern.t) :=
  ps ← gets _patterns;
  mret (List.filter (fun p => bool_decide (LearnedPattern.domain p = domain))
                    (snd <$> map_to_list ps)).

Definition record_success (pattern_id : string) (e : env) : M t unit :=
  ps ← gets _patterns;
  match ps !! pattern_id with
  | Some p =>
      let p := LearnedPattern.set_success_count
                 (LearnedPattern.success_count p + 1) p in
      let p := LearnedPattern.set_last_used (now e) p in
      _ ← modify (set_patterns (<[pattern_id := p]>));
      save_pattern p e
  | None => mret ()
  end.

Definition record_failure (pattern_id : string) (e : env) : M t unit :=
  ps ← gets _patterns;
  match ps !! pattern_id with
  | Some p =>
      let p := LearnedPattern.set_failure_count
                 (LearnedPattern.failure_count p + 1) p in
      _ ← modify (set_patterns (<[pattern_id := p]>));
      save_pattern p e
  | None => mret ()
  end.

Section WithProcess.

(** The builtin [hash] on [str] of the running process. *)
Variable hash : string -> Z.

Definition pattern_id_of (domain selector : string) : string :=
  domain +:+ "_" +:+ fmt_04d (hash selector mod 10000).

Definition add_pattern_from_action
    (domain element_type selector action_type : string) (success : bool)
    (e : env) : M t string :=
  let pattern_id := pattern_id_of domain selector in
  ps ← gets _patterns;
  let present := ps !! pattern_id in
  let pattern :=
    match present with
    | Some p => p
    | None =>
        LearnedPattern.mk pattern_id domain element_type selector
          [action_type] 0 0 (now e) ∅
    end in
  let pattern :=
    if success
    then LearnedPattern.set_success_count
           (LearnedPattern.success_count pattern + 1) pattern
    else LearnedPattern.set_failure_count
           (LearnedPattern.failure_count pattern + 1) pattern in
  let pattern := LearnedPattern.set_last_used (now e) pattern in
  (* the record found in the index is mutated in place *)
  _ ← match present with
      | Some _ => modify (set_patterns (<[pattern_id := pattern]>))
      | None => mret ()
      end;
  _ ← save_pattern pattern e;
  mret pattern_id.

End WithProcess.

(** [xs[:n]]; a negative [n] counts from the end. *)
Definition first_n {A : Type} (n : Z) (xs : list A) : list A :=
  if decide (n < 0)%Z then take (length xs - Z.to_nat (- n)) xs
  else take (Z.to_nat n) xs.

Definition newline : string := String (ascii_of_nat 10) "".

(** [sep.join(lines)]. *)
Fixpoint join (sep : string) (lines : list string) : string :=
  match lines with
  | [] => ""
  | [l] => l
  | l :: ls => l +:+ sep +:+ join sep ls
  end.

(** [patterns.sort(key=..., reverse=True)] on records paired with their
    keys. *)
Definition by_reliability_desc (a b : Q * LearnedPattern.t) : Prop :=
  Qle_bool (fst b) (fst a) = true.

#[global] Instance by_reliability_desc_dec a b
  : Decision (by_reliability_desc a b).
Proof. unfold by_reliability_desc. apply _. Defined.

Section WithFormat.

(** [f"{r:.0%}"], the percent rendering of a float. *)
Variable fmt_percent : Q -> string.

Definition get_context_for_llm (domain : string) (max_patterns : Z)
  : M t string :=
  patterns ← get_patterns_for_domain domain;
  if decide (patterns = []) then
    mret "No previously learned patterns for this domain."
  else
    keyed ← lift (mapM_result
                    (fun p => r ← LearnedPattern.reliability p; Ok (r, p))
                    patterns);
    let sorted := merge_sort by_reliability_desc keyed in
    let context_lines :=
      ("## Previously Learned Patterns" +:+ newline)
      :: ((fun rp : Q * LearnedPattern.t =>
             "- " +:+ LearnedPattern.element_type (snd rp) +:+ ": "
             +:+ LearnedPattern.selector_pattern (snd rp)
             +:+ " (reliability: " +:+ fmt_percent (fst rp) +:+ ")")
          <$> first_n max_patterns sorted) in
    mret (join newline context_lines).

End WithFormat.

(** The public operations of a store, and a run of them.  Each one comes
    with the moment it is performed at.  An operation that raises leaves
    the store in the state it had reached; the run goes on from there. *)
Inductive operation : Type :=
| SavePattern (pattern : LearnedPattern.t)
| GetPatternsForDomain (domain : string)
| RecordSuccess (pattern_id : string)
| RecordFailure (pattern_id : string)
| GetContextForLlm (domain : string) (max_patterns : Z)
| AddPatternFromAction (domain element_type selector action_type : string)
    (success : bool).

Section WithRuntime.

Variable hash : string -> Z.
Variable fmt_percent : Q -> string.

Definition perform (op : operation) (e : env) (self : t) : t :=
  match op with
  | SavePattern pattern => snd (save_pattern pattern e self)
  | GetPatternsForDomain domain => snd (get_patterns_for_domain domain self)
  | RecordSuccess pattern_id => snd (record_success pattern_id e self)
  | RecordFailure pattern_id => snd (record_failure pattern_id e self)
  | GetContextForLlm domain max_patterns =>
      snd (get_context_for_llm fmt_percent domain max_patterns self)
  | AddPatternFromAction domain element_type selector action_type success =>
      snd (add_pattern_from_action hash domain element_type selector
             action_type success e self)
  end.

Fixpoint run (ops : list (operation * env)) (self : t) : t :=
  match ops with
  | [] => self
  | (op, e) :: ops' => run ops' (perform op e self)
  end.

End WithRuntime.

End MemoryStore.

(** ** [src/intelligence/llm_client.py] *)

Module Action.

Record t : Type := mk {
  type : string;
  selector : option string;
  value : option string;
  reasoning : string;
  confidence : Q;
  observations : string;
  next_targets : option (list string)
}.

(** A dataclass does not check its annotations: the object [cls(...)]
    builds holds in each field the value it was given, of whatever JSON
    type.  [t] above is an action whose fields fit their annotations, as
    the orchestrator takes it. *)
Record raw : Type := Raw {
  raw_type : json;
  raw_selector : json;
  raw_value : json;
  raw_reasoning : json;
  raw_confidence : json;
  raw_observations : json;
  raw_next_targets : json
}.

(** [type(v).__name__] of a parsed JSON value. *)
Definition type_name (v : json) : string :=
  match v with
  | JNull => "NoneType"
  | JBool _ => "bool"
  | JInt _ => "int"
  | JFloat _ => "float"
  | JStr _ => "str"
  | JList _ => "list"
  | JDict _ => "dict"
  end.

(** [data.get(key, default)] on a dict. *)
Definition get (data : gmap string json) (key : string) (default : json)
  : json :=
  match data !! key with
  | Some v => v
  | None => default
  end.

(** [from_dict]: every field is read with [data.get], whatever its value;
    a reply that is not a dict has no [get]. *)
Definition from_dict (data : json) : result raw :=
  match data with
  | JDict d =>
      Ok (Raw (get d "action" (JStr "wait"))
              (get d "selector" JNull)
              (get d "value" JNull)
              (get d "reasoning" (JStr ""))
              (get d "confidence" (JFloat 0.5))
              (get d "observations" (JStr ""))
              (get d "next_exploration_targets" JNull))
  | _ =>
      Raise (AttributeError ("'" +:+ type_name data
                             +:+ "' object has no attribute 'get'"))
  end.

End Action.

Module LLMClient.

(** [v[:100]] (CPython 3.11): strings and lists are sliced, a dict takes
    the slice for an unhashable key, the other values have no subscript. *)
Definition slice_100 (v : json) : result json :=
  match v with
  | JStr s => Ok (JStr (String.substring 0 100 s))
  | JList l => Ok (JList (take 100 l))
  | JDict _ => Raise (TypeError "unhashable type: 'slice'")
  | _ => Raise (TypeError ("'" +:+ Action.type_name v
                           +:+ "' object is not subscriptable"))
  end.

Section WithProvider.

(** The configured provider and the two SDK calls, whose outcome (the
    text of the reply, [None] when the reply carries no text, or an
    exception) belongs to the network. *)
Variable llm_provider : string.
Variable _call_anthropic _call_openai
  : string -> string -> option string -> result (option string).

(** CPython library: group 1 of the first match of the fenced-block
    pattern, [str.strip], [json.loads], and the match of
    [\{[\s\S]*\}]. *)
Variable fenced_block : string -> option string.
Variable strip : string -> string.
Variable json_loads : string -> result json.
Variable braced_object : string -> option string.

Definition _call_llm (system_prompt user_prompt : string)
    (screenshot_base64 : option string) : result (option string) :=
  if decide (llm_provider = "anthropic") then
    _call_anthropic system_prompt user_prompt screenshot_base64
  else if decide (llm_provider = "openai") then
    _call_openai system_prompt user_prompt screenshot_base64
  else Raise (ValueError ("Unknown provider: " +:+ llm_provider)).

Definition _parse_json_response (response : option string) : result json :=
  match response with
  | None => Raise (TypeError "expected string or bytes-like object")
  | Some response =>
      let json_str :=
        match fenced_block response with
        | Some inner => strip inner
        | None => strip response
        end in
      match json_loads json_str with
      | Raise (JSONDecodeError _) =>
          match braced_object response with
          | Some obj => json_loads obj
          | None =>
              Raise (ValueError ("Could not parse JSON from response: "
                                 +:+ String.substring 0 200 response))
          end
      | r => r
      end
  end.

(** The action substituted for a failed decision:
    [Action(type="wait", selector=None, value="1", reasoning=...,
    confidence=0.0)], the other two fields at their defaults. *)
Definition fallback (e : exn) : Action.raw :=
  Action.Raw (JStr "wait") JNull (JStr "1")
    (JStr ("Error occurred: " +:+ exn_str e +:+ ". Waiting before retry."))
    (JFloat 0.0) (JStr "") JNull.

(** The body of the [try]: the call, the parse, the object, and the log
    line, which slices [action.reasoning]. *)
Definition attempt (system_prompt user_prompt : string)
    (screenshot_base64 : option string) : result Action.raw :=
  response_text ← _call_llm system_prompt user_prompt screenshot_base64;
  action_data ← _parse_json_response response_text;
  action ← Action.from_dict action_data;
  _ ← slice_100 (Action.raw_reasoning action);
  Ok action.

(** [except Exception as e] catches whatever the body raises. *)
Definition decide_action (system_prompt user_prompt : string)
    (screenshot_base64 : option string) : result Action.raw :=
  match attempt system_prompt user_prompt screenshot_base64 with
  | Ok action => Ok action
  | Raise e => Ok (fallback e)
  end.

End WithProvider.

End LLMClient.

(** ** [src/core/orchestrator.py]: the scoring step of [_learning_loop] *)

Module Orchestrator.

Definition set_confidence_score (q : Q) (s : Session.t) : Session.t :=
  Session.mk (Session.session_id s) (Session.target_url s)
    (Session.created_at s) (Session.status s) (Session.actions s) q
    (Session.total_elements_found s) (Session.elements_explored s)
    (Session.metadata s).

(** [metrics = self.scorer.update(session)] followed by
    [session.confidence_score = metrics.weighted_score]. *)
Definition scoring_step : M ConfidenceScorer.objects ConfidenceMetrics.t :=
  metrics ← ConfidenceScorer.update;
  score ← lift (ConfidenceMetrics.weighted_score metrics);
  _ ← modify (fun o =>
        ConfidenceScorer.Objects (ConfidenceScorer.self_ o)
          (set_confidence_score score (ConfidenceScorer.session_ o)));
  mret metrics.

End Orchestrator.

(** ** CPython 3.11: the builtin [hash] on [str]

    [hash(s)] is SipHash-1-3 of the bytes of [s] (one byte per character
    for a string of code points below 256) under the 128-bit secret of the
    process.  The secret is drawn at interpreter start-up: at random, or
    from [PYTHONHASHSEED] when that is set. *)

Module CPython.

Local Open Scope Z_scope.

Definition u64 (x : Z) : Z := (x mod 2 ^ 64)%Z.

Definition rotl (x b : Z) : Z :=
  Z.lor (u64 (Z.shiftl x b)) (Z.shiftr x (64 - b)).

Definition sip_state : Type := Z * Z * Z * Z.

(** [HALF_ROUND(a, b, c, d, s, t)]. *)
Definition half_round (a b c d s t : Z) : sip_state :=
  let a := u64 (a + b) in
  let c := u64 (c + d) in
  let b := Z.lxor (rotl b s) a in
  let d := Z.lxor (rotl d t) c in
  let a := rotl a 32 in
  (a, b, c, d).

(** [SINGLE_ROUND(v0, v1, v2, v3)]. *)
Definition single_round (v : sip_state) : sip_state :=
  let '(v0, v1, v2, v3) := v in
  let '(v0, v1, v2, v3) := half_round v0 v1 v2 v3 13 16 in
  let '(v2, v1, v0, v3) := half_round v2 v1 v0 v3 17 21 in
  (v0, v1, v2, v3).

(** Little-endian value of a run of bytes. *)
Fixpoint le_bytes (bs : list Z) : Z :=
  match bs with
  | [] => 0
  | b :: bs' => b + 256 * le_bytes bs'
  end.

Definition compress (m : Z) (v : sip_state) : sip_state :=
  let '(v0, v1, v2, v3) := v in
  let '(v0, v1, v2, v3) := single_round (v0, v1, v2, Z.lxor v3 m) in
  (Z.lxor v0 m, v1, v2, v3).

(** The full 8-byte words, then the bytes left over. *)
Fixpoint absorb (data : list Z) (v : sip_state) : sip_state * list Z :=
  match data with
  | b0 :: b1 :: b2 :: b3 :: b4 :: b5 :: b6 :: b7 :: rest =>
      absorb rest (compress (le_bytes [b0; b1; b2; b3; b4; b5; b6; b7]) v)
  | tail => (v, tail)
  end.

Definition siphash13 (k0 k1 : Z) (data : list Z) : Z :=
  let v := (Z.lxor k0 0x736f6d6570736575, Z.lxor k1 0x646f72616e646f6d,
            Z.lxor k0 0x6c7967656e657261, Z.lxor k1 0x7465646279746573) in
  let '(v, tail) := absorb data v in
  let b := Z.lor (u64 (Z.shiftl (Z.of_nat (List.length data)) 56)) (le_bytes tail) in
  let '(v0, v1, v2, v3) := compress b v in
  let v := (v0, v1, Z.lxor v2 0xff, v3) in
  let '(v0, v1, v2, v3) := single_round (single_round (single_round v)) in
  Z.lxor (Z.lxor v0 v1) (Z.lxor v2 v3).

Definition bytes_of (s : string) : list Z :=
  (fun c => Z.of_nat (nat_of_ascii c)) <$> String.list_ascii_of_string s.

(** [_Py_HashBytes]: zero for the empty string, the signed reading of the
    64-bit digest otherwise, with -1 reserved for errors. *)
Definition str_hash (secret : Z * Z) (s : string) : Z :=
  if decide (s = "") then 0
  else
    let h := siphash13 (fst secret) (snd secret) (bytes_of s) in
    let x := if decide (h < 2 ^ 63)%Z then h else (h - 2 ^ 64)%Z in
    if decide (x = -1)%Z then (-2)%Z else x.

(** [lcg_urandom]: the bytes derived from a non-zero [PYTHONHASHSEED]. *)
Fixpoint lcg_urandom (x : Z) (size : nat) : list Z :=
  match size with
  | O => []
  | S size' =>
      let x := ((x * 214013 + 2531011) mod 2 ^ 32)%Z in
      Z.land (Z.shiftr x 16) 0xff :: lcg_urandom x size'
  end.

(** The SipHash key of a process started with [PYTHONHASHSEED=seed]. *)
Definition secret_of_seed (seed : Z) : Z * Z :=
  if decide (seed = 0)%Z then (0, 0)%Z
  else
    let buffer := lcg_urandom seed 24 in
    (le_bytes (take 8 buffer), le_bytes (take 8 (drop 8 buffer))).

End CPython.

(** ** Exceptions by class, and effects on the outside world

    The browser and the orchestrator meet exceptions of classes beyond
    those above (Playwright errors, [RuntimeError], [UnboundLocalError]).
    Here an exception is its class name and [str(e)]; every one of them
    derives from [Exception].  An effectful call transforms a world [W]
    (the page, the network, the clock), which it leaves in the state it
    reached also when it raises. *)

Record error : Type := Error {
  error_class : string;
  error_str : string
}.

Definition exn_class (e : exn) : string :=
  match e with
  | ZeroDivisionError => "ZeroDivisionError"
  | KeyError _ => "KeyError"
  | TypeError _ => "TypeError"
  | AttributeError _ => "AttributeError"
  | ValueError _ => "ValueError"
  | JSONDecodeError _ => "JSONDecodeError"
  | FileNotFoundError _ => "FileNotFoundError"
  | OSError _ => "OSError"
  | ProviderError _ => "ProviderError"
  | IllTyped _ => "IllTyped"
  end.

Definition of_exn (e : exn) : error := Error (exn_class e) (exn_str e).

Inductive outcome (A : Type) : Type :=
| Return (a : A)
| Throw (e : error).
Arguments Return {A} a.
Arguments Throw {A} e.

Definition of_result {A : Type} (r : result A) : outcome A :=
  match r with
  | Ok a => Return a
  | Raise e => Throw (of_exn e)
  end.

Definition IO (W A : Type) : Type := W -> outcome A * W.

#[global] Instance IO_ret {W : Type} : MRet (IO W) := fun A a w => (Return a, w).
#[global] Instance IO_bind {W : Type} : MBind (IO W) := fun A B f m w =>
  match m w with
  | (Return a, w') => f a w'
  | (Throw e, w') => (Throw e, w')
  end.

Definition throw {W A : Type} (e : error) : IO W A := fun w => (Throw e, w).

(** [try: body except Exception as e: handler(e)]. *)
Definition try_except {W A : Type} (body : IO W A) (handler : error -> IO W A)
  : IO W A :=
  fun w =>
    match body w with
    | (Return a, w') => (Return a, w')
    | (Throw e, w') => handler e w'
    end.

(** [for _ in range(n): body]. *)
Fixpoint repeat_io {W : Type} (n : nat) (body : IO W unit) : IO W unit :=
  match n with
  | O => mret ()
  | S n' => _ ← body; repeat_io n' body
  end.

(** [str(n)] for an int. *)
Definition str_int (z : Z) : string :=
  if decide (z < 0)%Z then "-" +:+ decimal (- z) else decimal z.

(** A string that is truthy: neither [None] nor empty. *)
Definition truthy (o : option string) : option string :=
  match o with
  | Some s => if decide (s = "") then None else Some s
  | None => None
  end.

(** [f"{x}"] for an optional string. *)
Definition str_opt (o : option string) : string :=
  match o with Some s => s | None => "None" end.

(** [len(s)] and [s[:n]] on a string, for [n >= 0]. *)
Definition str_len (s : string) : Z := Z.of_nat (String.length s).

Definition str_take (n : Z) (s : string) : string :=
  String.substring 0 (Z.to_nat n) s.

(** [s.replace(old, new)] for a non-empty [old]: occurrences are replaced
    from the left, without overlap. *)
Fixpoint replace_go (fuel : nat) (old new s : string) : string :=
  match fuel with
  | O => s
  | S fuel' =>
      match s with
      | EmptyString => EmptyString
      | String c s' =>
          if String.prefix old s
          then new +:+ replace_go fuel' old new
                        (String.substring (String.length old)
                           (String.length s - String.length old) s)
          else String c (replace_go fuel' old new s')
      end
  end.

Definition str_replace (old new s : string) : string :=
  replace_go (String.length s) old new s.

(** [old in s]. *)
Fixpoint contains (old s : string) : bool :=
  String.prefix old s ||
  match s with
  | EmptyString => false
  | String _ s' => contains old s'
  end.

(** ** [src/core/browser_agent.py] *)

Module Element.

Record t : Type := mk {
  tag : string;
  selector : string;
  text : string;
  element_type : string;
  attributes : gmap string string;
  bounds : option (gmap string Q)
}.

Definition text_preview (self : t) : string :=
  if decide (50 < str_len (text self))%Z
  then str_take 50 (text self) +:+ "..."
  else text self.

Definition __str__ (self : t) : string :=
  "[" +:+ element_type self +:+ "] " +:+ tag self +:+ ": " +:+ text_preview self.

End Element.

Module PageState.

Record t : Type := mk {
  url : string;
  title : string;
  dom_tree : string;
  interactive_elements : list Element.t;
  screenshot_base64 : string;
  screenshot_path : option string;
  viewport_width : Z;
  viewport_height : Z;
  timestamp : string
}.

End PageState.

Module ActionResult.

Record t : Type := mk {
  success : bool;
  message : string;
  new_url : option string;
  error : option string
}.

(** [ActionResult(success=..., message=..., new_url=..., error=...)];
    [message] has no default, so a call without it is a [TypeError]. *)
Definition __init__ {W : Type} (success : bool) (message : option string)
    (new_url error : option string) : IO W t :=
  match message with
  | Some m => mret (mk success m new_url error)
  | None =>
      throw (Error "TypeError"
               "ActionResult.__init__() missing 1 required positional argument: 'message'")
  end.

End ActionResult.

Module BrowserAgent.

(** What [slider_info] holds. *)
Record slider_info : Type := SliderInfo {
  current : Z;
  min : Z;
  max : Z;
  isRange : bool
}.

(** [x or default] for an attribute value, then [int(...)]. *)
Definition int_or (py_int : string -> outcome Z) (attr : option string)
    (default : Z) : outcome Z :=
  match truthy attr with
  | Some s => py_int s
  | None => Return default
  end.

(** The steps left after the first key press on a slider: the distance over
    the step detected, capped at 300. *)
Definition remaining_steps (current target new_val : Z) : Z :=
  let step_size := Z.abs (new_val - current) in
  let step_size := if decide (step_size = 0)%Z then 1%Z else step_size in
  let remaining_diff := Z.abs (target - new_val) in
  Z.min (remaining_diff / step_size) 300.

(** [_get_simplified_dom], after the page has produced the text. *)
Definition truncate_dom (dom : string) : string :=
  if decide (15000 < str_len dom)%Z
  then str_take 15000 dom +:+ String (ascii_of_nat 10) "<!-- truncated -->"
  else dom.

Section WithPage.

(** The world, the element handles of Playwright, and the calls made on
    the page and on a handle. *)
Variable W : Type.
Variable handle : Type.
Variable launched : W -> bool.
Variable wait_for_selector : string -> string -> IO W (option handle).
Variable click : string -> IO W unit.
Variable fill : string -> string -> IO W unit.
Variable hover : string -> IO W unit.
Variable goto : string -> IO W unit.
Variable scroll_by : Z -> IO W unit.
Variable page_url : IO W string.
Variable sleep : Q -> IO W unit.
Variable is_slider : handle -> IO W bool.
Variable get_slider_info : handle -> IO W slider_info.
Variable set_range_value : handle -> string -> IO W unit.
Variable focus : handle -> IO W unit.
Variable get_attribute : handle -> string -> IO W (option string).
Variable press : handle -> string -> IO W unit.
Variable tag_name : handle -> IO W string.

(** [int(s)], [float(s)] and [f"{x}"] of a float. *)
Variable py_int : string -> outcome Z.
Variable py_float : string -> outcome Q.
Variable str_float : Q -> string.

Variable action_delay_ms : Z.

Definition lift_outcome {A : Type} (o : outcome A) : IO W A := fun w => (o, w).

(** The Radix slider: one key press to detect the step, then the rest. *)
Definition move_slider (element : handle) (target_value : Z)
  : IO W (option string) :=
  _ ← focus element;
  _ ← sleep 0.1%Q;
  attr ← get_attribute element "aria-valuenow";
  current ← lift_outcome (int_or py_int attr 0);
  let target := target_value in
  if decide (current = target) then mret (Some (str_int current))
  else
    let direction := if decide (target > current)%Z then "ArrowRight"
                     else "ArrowLeft" in
    _ ← press element direction;
    _ ← sleep 0.05%Q;
    attr ← get_attribute element "aria-valuenow";
    new_val ← lift_outcome (int_or py_int attr current);
    _ ← repeat_io (Z.to_nat (remaining_steps current target new_val))
          (_ ← press element direction; sleep 0.015%Q);
    get_attribute element "aria-valuenow".

Definition type_into (selector : option string) (value : option string)
  : IO W ActionResult.t :=
  match truthy selector, value with
  | Some sel, Some val =>
      element ← wait_for_selector sel "attached";
      match element with
      | None =>
          ActionResult.__init__ false None None
            (Some ("Element not found: " +:+ sel))
      | Some element =>
          slider ← is_slider element;
          if (slider : bool) then
            info ← get_slider_info element;
            target_value ← lift_outcome (py_int val);
            if isRange info then
              _ ← set_range_value element (str_int target_value);
              (* [final] is not bound on this path *)
              throw (Error "UnboundLocalError"
                       "cannot access local variable 'final' where it is not associated with a value")
            else
              final ← move_slider element target_value;
              ActionResult.__init__ true
                (Some ("Set slider to " +:+ str_opt final +:+ " (target: "
                       +:+ val +:+ ")")) None None
          else
            _ ← fill sel val;
            ActionResult.__init__ true
              (Some ("Typed '" +:+ val +:+ "' into " +:+ sel)) None None
      end
  | _, _ =>
      ActionResult.__init__ false None None
        (Some "Selector and value are required for type")
  end.

Definition dispatch (action_type : string) (selector value : option string)
  : IO W ActionResult.t :=
  if decide (action_type = "click") then
    match truthy selector with
    | None =>
        ActionResult.__init__ false None None
          (Some "Selector is required for click")
    | Some sel =>
        _ ← wait_for_selector sel "visible";
        _ ← click sel;
        _ ← sleep (inject_Z action_delay_ms / 1000)%Q;
        url ← page_url;
        ActionResult.__init__ true (Some ("Clicked " +:+ sel)) (Some url) None
    end
  else if decide (action_type = "type") then type_into selector value
  else if decide (action_type = "scroll") then
    let direction := default "down" (truthy value) in
    let amount := if decide (direction = "down") then 300%Z else (-300)%Z in
    _ ← scroll_by amount;
    ActionResult.__init__ true (Some ("Scrolled " +:+ direction)) None None
  else if decide (action_type = "hover") then
    match truthy selector with
    | None =>
        ActionResult.__init__ false (Some "Hover requires a selector") None None
    | Some sel =>
        _ ← hover sel;
        ActionResult.__init__ true (Some ("Hovered over " +:+ sel)) None None
    end
  else if decide (action_type = "wait") then
    wait_time ← match truthy value with
                | Some v => lift_outcome (py_float v)
                | None => mret 1.0%Q
                end;
    _ ← sleep wait_time;
    ActionResult.__init__ true
      (Some ("Waited " +:+ str_float wait_time +:+ "s")) None None
  else if decide (action_type = "navigate") then
    match truthy value with
    | None =>
        ActionResult.__init__ false (Some "Navigate requires a URL") None None
    | Some url =>
        _ ← goto url;
        now_at ← page_url;
        ActionResult.__init__ true (Some ("Navigated to " +:+ url))
          (Some now_at) None
    end
  else
    ActionResult.__init__ false
      (Some ("Unknown action type: " +:+ action_type)) None None.

Definition execute_action (action_type : string) (selector value : option string)
  : IO W ActionResult.t :=
  fun w =>
    if launched w then
      let selector :=
        match truthy selector with
        | Some sel =>
            if contains ":contains(" sel
            then Some (str_replace ":contains(" ":has-text(" sel)
            else selector
        | None => selector
        end in
      try_except (dispatch action_type selector value)
        (fun e =>
           ActionResult.__init__ false
             (Some ("Action failed: " +:+ action_type)) None
             (Some (error_str e))) w
    else (Throw (Error "RuntimeError" "Browser not launched."), w).

(** [_build_selector(handle, attrs, index)]. *)
Definition _build_selector (element : handle) (attrs : gmap string string)
    (index : Z) : IO W string :=
  match truthy (attrs !! "id") with
  | Some id => mret ("#" +:+ id)
  | None =>
      match truthy (attrs !! "name") with
      | Some name =>
          tag ← tag_name element;
          mret (tag +:+ "[name='" +:+ name +:+ "']")
      | None =>
          match truthy (attrs !! "data-testid") with
          | Some testid => mret ("[data-testid='" +:+ testid +:+ "']")
          | None =>
              match truthy (attrs !! "aria-label") with
              | Some label => mret ("[aria-label='" +:+ label +:+ "']")
              | None =>
                  tag ← tag_name element;
                  mret (tag +:+ ":nth-of-type(" +:+ str_int (index + 1) +:+ ")")
              end
          end
      end
  end.

End WithPage.

(** The attributes [_extract_interactive_elements] reads from the page. *)
Definition extracted_attributes : list string :=
  ["id"; "name"; "class"; "type"; "aria-label"; "href"].

End BrowserAgent.

(** ** A page that records the calls made on it

    A stand-in for Playwright used in the examples: the world is the list
    of calls made so far, every call succeeds, the element "#volume" is a
    range input, and only "42" parses as an int. *)

Module RecordingPage.

Definition world : Type := list string.

Definition call {A : Type} (name : string) (a : A) : IO world A :=
  fun w => (Return a, w ++ [name]).

Definition wait_for_selector (sel state : string) : IO world (option string) :=
  call ("wait_for_selector " +:+ sel +:+ " " +:+ state) (Some sel).

Definition on_selector (name sel : string) : IO world unit :=
  call (name +:+ " " +:+ sel) ().

Definition fill (sel val : string) : IO world unit :=
  call ("fill " +:+ sel +:+ " " +:+ val) ().

Definition scroll_by (amount : Z) : IO world unit :=
  call ("scroll_by " +:+ str_int amount) ().

Definition page_url : IO world string := call "url" "https://example.com/".

Definition sleep (seconds : Q) : IO world unit := call "sleep" ().

Definition is_slider (element : string) : IO world bool :=
  call ("is_slider " +:+ element) (bool_decide (element = "#volume")).

Definition get_slider_info (element : string)
  : IO world BrowserAgent.slider_info :=
  call ("slider_info " +:+ element) (BrowserAgent.SliderInfo 10 0 100 true).

Definition set_range_value (element val : string) : IO world unit :=
  call ("set_value " +:+ element +:+ " " +:+ val) ().

Definition get_attribute (element name : string) : IO world (option string) :=
  call ("get_attribute " +:+ element +:+ " " +:+ name) None.

Definition press (element key : string) : IO world unit :=
  call ("press " +:+ element +:+ " " +:+ key) ().

Definition tag_name (element : string) : IO world string :=
  call ("tag_name " +:+ element) "button".

Definition py_int (s : string) : outcome Z :=
  if decide (s = "42") then Return 42%Z
  else Throw (Error "ValueError" "invalid literal for int() with base 10").

Definition py_float (s : string) : outcome Q :=
  Throw (Error "ValueError" "could not convert string to float").

Definition execute_action (launched : bool)
  : string -> option string -> option string -> IO world ActionResult.t :=
  BrowserAgent.execute_action world string (fun _ => launched)
    wait_for_selector (on_selector "click") fill (on_selector "hover")
    (on_selector "goto") scroll_by page_url sleep is_slider get_slider_info
    set_range_value (on_selector "focus") get_attribute press py_int py_float
    (fun _ => "1.0") 500.

Definition _build_selector
  : string -> gmap string string -> Z -> IO world string :=
  BrowserAgent._build_selector world string tag_name.

End RecordingPage.

(** ** [src/core/orchestrator.py]: [learn] and [_learning_loop] *)

Module LearningResult.

Record t : Type := mk {
  session : Session.t;
  metrics : ConfidenceMetrics.t;
  success : bool;
  message : string;
  report : string
}.

End LearningResult.

Module Learn.

(** [try: body finally: cleanup]. *)
Definition try_finally {W A : Type} (body : IO W A) (cleanup : IO W unit)
  : IO W A :=
  fun w =>
    match body w with
    | (o, w') =>
        match cleanup w' with
        | (Return _, w'') => (o, w'')
        | (Throw e, w'') => (Throw e, w'')
        end
    end.

Section WithWorld.

(** The world outside the process. *)
Variable W : Type.

(** What an orchestrator holds during a run: the world, the session of the
    run, the pattern memory, the scorer and the directory of sessions. *)
Record state : Type := State {
  world : W;
  session : Session.t;
  memory : MemoryStore.t;
  scorer : ConfidenceScorer.t;
  sessions_dir : directory
}.

Definition set_world (w : W) (st : state) : state :=
  State w (session st) (memory st) (scorer st) (sessions_dir st).

Definition set_session (s : Session.t) (st : state) : state :=
  State (world st) s (memory st) (scorer st) (sessions_dir st).

Definition set_memory (m : MemoryStore.t) (st : state) : state :=
  State (world st) (session st) m (scorer st) (sessions_dir st).

Definition set_sessions_dir (d : directory) (st : state) : state :=
  State (world st) (session st) (memory st) (scorer st) d.

(** A call on the outside world. *)
Definition on_world {A : Type} (m : IO W A) : IO state A :=
  fun st => match m (world st) with (o, w') => (o, set_world w' st) end.

(** A method of the pattern memory. *)
Definition on_memory {A : Type} (m : M MemoryStore.t A) : IO state A :=
  fun st =>
    match m (memory st) with (r, mem') => (of_result r, set_memory mem' st) end.

(** A method of the scorer handed the session. *)
Definition on_scoring {A : Type} (m : M ConfidenceScorer.objects A)
  : IO state A :=
  fun st =>
    match m (ConfidenceScorer.Objects (scorer st) (session st)) with
    | (r, o') =>
        (of_result r,
         State (world st) (ConfidenceScorer.session_ o') (memory st)
           (ConfidenceScorer.self_ o') (sessions_dir st))
    end.

Definition get_session : IO state Session.t :=
  fun st => (Return (session st), st).

Definition update_session (f : Session.t -> Session.t) : IO state unit :=
  fun st => (Return (), set_session (f (session st)) st).

Definition set_elements_explored (n : Z) (s : Session.t) : Session.t :=
  Session.mk (Session.session_id s) (Session.target_url s)
    (Session.created_at s) (Session.status s) (Session.actions s)
    (Session.confidence_score s) (Session.total_elements_found s) n
    (Session.metadata s).

Definition set_total_elements_found (n : Z) (s : Session.t) : Session.t :=
  Session.mk (Session.session_id s) (Session.target_url s)
    (Session.created_at s) (Session.status s) (Session.actions s)
    (Session.confidence_score s) n (Session.elements_explored s)
    (Session.metadata s).

Definition set_status (status : string) (s : Session.t) : Session.t :=
  Session.mk (Session.session_id s) (Session.target_url s)
    (Session.created_at s) status (Session.actions s)
    (Session.confidence_score s) (Session.total_elements_found s)
    (Session.elements_explored s) (Session.metadata s).

Definition set_metadata (k : string) (v : json) (s : Session.t) : Session.t :=
  Session.mk (Session.session_id s) (Session.target_url s)
    (Session.created_at s) (Session.status s) (Session.actions s)
    (Session.confidence_score s) (Session.total_elements_found s)
    (Session.elements_explored s) (<[k := v]> (Session.metadata s)).

(** The collaborators: the decision call of the LLM client, the browser,
    the clock, whether the next write of a pattern file succeeds,
    [asyncio.sleep], and the hash of the process. *)
Variable llm_decide : string -> string -> string -> IO W Action.t.
Variable execute_action
  : string -> option string -> option string -> IO W ActionResult.t.
Variable get_page_state : IO W PageState.t.
Variable clock : IO W string.
Variable disk : IO W bool.
Variable sleep : Q -> IO W unit.
Variable hash : string -> Z.

(** [SYSTEM_PROMPT] and the text [_build_exploration_prompt] makes of the
    session, the page state and the explored selectors. *)
Variable SYSTEM_PROMPT : string.
Variable build_prompt : Session.t -> PageState.t -> gset string -> string.

Variable max_iterations : Z.
Variable action_delay_ms : Z.

(** How one iteration ends: with a [break], or ready for the next one. *)
Inductive control : Type :=
| Break (metrics : ConfidenceMetrics.t)
| Continue (page_state : PageState.t) (explored_selectors : gset string)
    (metrics : ConfidenceMetrics.t).

(** The body of the [for] loop. *)
Definition iteration (domain : string) (page_state : PageState.t)
    (explored_selectors : gset string) (metrics : ConfidenceMetrics.t)
  : IO state control :=
  session ← get_session;
  let user_prompt := build_prompt session page_state explored_selectors in
  action ← on_world (llm_decide SYSTEM_PROMPT user_prompt
                       (PageState.screenshot_base64 page_state));
  if decide (Action.type action = "complete") then mret (Break metrics)
  else
    result ← on_world (execute_action (Action.type action)
                         (Action.selector action) (Action.value action));
    timestamp ← on_world clock;
    let action_record :=
      ActionRecord.mk timestamp (Action.type action) (Action.selector action)
        (Action.value action) (Action.reasoning action)
        (ActionResult.success result) (PageState.url page_state)
        (PageState.screenshot_path page_state) in
    _ ← update_session (fun s => Session.add_action s action_record);
    let explored_selectors :=
      match truthy (Action.selector action) with
      | Some sel => {[sel]} ∪ explored_selectors
      | None => explored_selectors
      end in
    _ ← match truthy (Action.selector action) with
        | Some sel =>
            _ ← update_session
                  (set_elements_explored (Z.of_nat (size explored_selectors)));
            now_ ← on_world clock;
            ok ← on_world disk;
            _ ← on_memory (MemoryStore.add_pattern_from_action hash domain
                             (Action.type action) sel (Action.type action)
                             (ActionResult.success result) (Env now_ ok));
            mret ()
        | None => mret ()
        end;
    metrics ← on_scoring Orchestrator.scoring_step;
    session ← get_session;
    let unique_urls := ActionRecord.page_url <$> Session.actions session in
    complete ← (fun st =>
                  (of_result (ConfidenceScorer.is_learning_complete
                                (scorer st) metrics (len_set unique_urls)), st));
    if (complete : bool) then mret (Break metrics)
    else
      page_state ←
        try_except
          (new_state ← on_world get_page_state;
           let new_count := len (PageState.interactive_elements new_state) in
           _ ← update_session (fun s =>
                 if decide (new_count > Session.total_elements_found s)%Z
                 then set_total_elements_found new_count s else s);
           mret new_state)
          (fun _ => mret page_state);
      _ ← on_world (sleep (inject_Z action_delay_ms / 1000)%Q);
      mret (Continue page_state explored_selectors metrics).

(** [for iteration in range(...)], with the iterations left as fuel. *)
Fixpoint iterate (fuel : nat) (domain : string) (page_state : PageState.t)
    (explored_selectors : gset string) (metrics : ConfidenceMetrics.t)
  : IO state ConfidenceMetrics.t :=
  match fuel with
  | O => mret metrics
  | S fuel' =>
      c ← iteration domain page_state explored_selectors metrics;
      match c with
      | Break metrics => mret metrics
      | Continue page_state explored_selectors metrics =>
          iterate fuel' domain page_state explored_selectors metrics
      end
  end.

Definition _learning_loop (initial_state : PageState.t) (domain : string)
  : IO state ConfidenceMetrics.t :=
  iterate (Z.to_nat max_iterations) domain initial_state ∅
    (ConfidenceMetrics.mk 0 0 0 0).

(** The rest of what [learn] uses: a fresh identifier,
    [urlparse(url).netloc], which raises [ValueError] on a URL it cannot
    split, whether the next write of a session file succeeds, the browser,
    the email service, and the summary report. *)
Variable uuid8 : IO W string.
Variable netloc : string -> outcome string.
Variable session_disk : IO W bool.
Variable launch : IO W unit.
Variable navigate : string -> IO W PageState.t.
Variable close : IO W unit.
Variable send_learning_complete
  : Session.t -> ConfidenceMetrics.t -> string -> IO W bool.
Variable send_error_alert : Session.t -> string -> IO W bool.
Variable _generate_summary_report
  : Session.t -> ConfidenceMetrics.t -> outcome string.

(** [session.save(self.config.sessions_dir)]: [open] raises when the file
    cannot be written. *)
Definition write_session : IO state unit :=
  fun st =>
    (Return (),
     set_sessions_dir (Session.save (session st) (sessions_dir st)) st).

Definition save_session : IO state unit :=
  ok ← on_world session_disk;
  if (ok : bool) then write_session
  else throw (of_exn (OSError "cannot open file for writing")).

Definition learn (url : string) : IO state LearningResult.t :=
  id ← on_world uuid8;
  now_ ← on_world clock;
  _ ← update_session (fun _ => Session.create id now_ url);
  domain ← (fun st => (netloc url, st));
  try_finally
    (try_except
       (_ ← on_world launch;
        page_state ← on_world (navigate url);
        _ ← update_session
              (set_total_elements_found
                 (len (PageState.interactive_elements page_state)));
        _ ← update_session
              (set_metadata "initial_title" (JStr (PageState.title page_state)));
        metrics ← _learning_loop page_state domain;
        _ ← update_session (set_status "completed");
        score ← (fun st =>
                   (of_result (ConfidenceMetrics.weighted_score metrics), st));
        _ ← update_session (Orchestrator.set_confidence_score score);
        _ ← save_session;
        (* is_learning_complete(metrics): unique_pages takes its default, 1 *)
        complete ← (fun st =>
                      (of_result (ConfidenceScorer.is_learning_complete
                                    (scorer st) metrics 1), st));
        session ← get_session;
        report ← (if (complete : bool)
                  then fun st => (_generate_summary_report session metrics, st)
                  else mret "");
        _ ← on_world (send_learning_complete session metrics report);
        mret (LearningResult.mk session metrics true
                "Learning completed successfully" report))
       (fun e =>
          _ ← update_session (set_status "failed");
          _ ← save_session;
          session ← get_session;
          _ ← on_world (send_error_alert session (error_str e));
          mret (LearningResult.mk session (ConfidenceMetrics.mk 0 0 0 0) false
                  ("Learning failed: " +:+ error_str e) "")))
    (on_world close).

(** [resume]: the saved session is loaded for its URL only. *)
Definition resume (session_id : string) : IO state LearningResult.t :=
  saved ← (fun st => (of_result (Session.load session_id (sessions_dir st)), st));
  learn (Session.target_url saved).

End WithWorld.

End Learn.

(** ** A scripted run

    Stand-ins for the LLM, the browser, the clock and the disk, used in the
    examples: the world is the list of decisions the LLM has still to give
    (it answers "complete" once the list is used up), hovering is the one
    action that fails, the page never changes and, unless said otherwise,
    every write succeeds. *)

Module Scripted.

Definition world : Type := list Action.t.

Definition decision (type : string) (selector : option string) : Action.t :=
  Action.mk type selector None "" 1 "" None.

Definition llm_decide (system_prompt user_prompt screenshot : string)
  : IO world Action.t :=
  fun w =>
    match w with
    | action :: rest => (Return action, rest)
    | [] => (Return (decision "complete" None), [])
    end.

Definition execute_action (type : string) (selector value : option string)
  : IO world ActionResult.t :=
  mret (ActionResult.mk (bool_decide (type <> "hover")) type None None).

Definition page : PageState.t :=
  PageState.mk "https://example.com/" "Example" "<html></html>" [] "" None
    1280 720 "2024-06-30T12:00:00".

Definition get_page_state : IO world PageState.t := mret page.

Definition clock : IO world string := mret "2024-06-30T12:00:00".

Definition disk : IO world bool := mret true.

Definition sleep (seconds : Q) : IO world unit := mret ().

Definition hash (s : string) : Z := Z.of_nat (String.length s).

Definition build_prompt (session : Session.t) (page_state : PageState.t)
    (explored_selectors : gset string) : string := "".

Definition uuid8 : IO world string := mret "1b9d6bcd".

Definition netloc (url : string) : outcome string :=
  if decide (url = "http://[")
  then Throw (Error "ValueError" "Invalid IPv6 URL")
  else Return "example.com".

Definition session_disk : IO world bool := mret true.

Definition launch : IO world unit := mret ().

Definition navigate (url : string) : IO world PageState.t := mret page.

Definition close : IO world unit := mret ().

Definition send_learning_complete (session : Session.t)
    (metrics : ConfidenceMetrics.t) (report : string) : IO world bool :=
  mret true.

Definition send_error_alert (session : Session.t) (error : string)
  : IO world bool := mret true.

Definition _generate_summary_report (session : Session.t)
    (metrics : ConfidenceMetrics.t) : outcome string := Return "summary".

Definition _learning_loop (max_iterations : Z)
  : PageState.t -> string -> IO (Learn.state world) ConfidenceMetrics.t :=
  Learn._learning_loop world llm_decide execute_action get_page_state clock
    disk sleep hash "" build_prompt max_iterations 500.

Definition learn (max_iterations : Z)
  : string -> IO (Learn.state world) LearningResult.t :=
  Learn.learn world llm_decide execute_action get_page_state clock disk sleep
    hash "" build_prompt max_iterations 500 uuid8 netloc session_disk launch
    navigate close send_learning_complete send_error_alert
    _generate_summary_report.

(** The same run with a patterns directory that cannot be written, and
    with a browser that does not start. *)
Definition read_only : IO world bool := mret false.

Definition learn_read_only_patterns (max_iterations : Z)
  : string -> IO (Learn.state world) LearningResult.t :=
  Learn.learn world llm_decide execute_action get_page_state clock read_only
    sleep hash "" build_prompt max_iterations 500 uuid8 netloc session_disk
    launch navigate close send_learning_complete send_error_alert
    _generate_summary_report.

Definition no_browser : IO world unit :=
  throw (Error "Error" "Executable doesn't exist").

Definition learn_without_browser (max_iterations : Z)
  : string -> IO (Learn.state world) LearningResult.t :=
  Learn.learn world llm_decide execute_action get_page_state clock disk sleep
    hash "" build_prompt max_iterations 500 uuid8 netloc session_disk
    no_browser navigate close send_learning_complete send_error_alert
    _generate_summary_report.

Definition resume (max_iterations : Z)
  : string -> IO (Learn.state world) LearningResult.t :=
  Learn.resume world llm_decide execute_action get_page_state clock disk sleep
    hash "" build_prompt max_iterations 500 uuid8 netloc session_disk launch
    navigate close send_learning_complete send_error_alert
    _generate_summary_report.

(** An orchestrator about to start, with the given script and session
    directory. *)
Definition start (script : world) (sessions_dir : directory)
  : Learn.state world :=
  Learn.State world script (Session.create "" "" "") (MemoryStore.mk ∅ ∅)
    (ConfidenceScorer.__init__ None) sessions_dir.

End Scripted.

(** ** The pattern-stability rule in the words of the specification

    "If fewer than 5 total actions exist, return 0.3.  Otherwise take the
    most recent 10 actions, compute their success ratio, add a variety
    bonus equal to min(distinct action kinds overall / 4, 0.3), sum and cap
    at 1.0." *)

Module Spec.

(** The [n] most recent entries of a chronological list. *)
Definition most_recent {A : Type} (n : nat) (xs : list A) : list A :=
  reverse (take n (reverse xs)).

(** Successes over total. *)
Definition success_ratio (xs : list ActionRecord.t) : Q :=
  (inject_Z (Z.of_nat (length (List.filter ActionRecord.success xs)))
   / inject_Z (Z.of_nat (length xs)))%Q.

(** How many different action kinds occur. *)
Definition distinct_action_kinds (xs : list ActionRecord.t) : nat :=
  length (remove_dups (ActionRecord.action_type <$> xs)).

Definition pattern_stability (actions : list ActionRecord.t) : Q :=
  if decide (length actions < 5)%nat then (3 # 10)%Q
  else
    Qmin (success_ratio (most_recent 10 actions)
          + Qmin (inject_Z (Z.of_nat (distinct_action_kinds actions)) / 4)
                 (3 # 10))%Q
         1%Q.

End Spec.

(** ** Auxiliary notions used by the statements *)

(** Every identifier known before is known after, in the index and on
    disk. *)
Definition grows (before after : MemoryStore.t) : Prop :=
  dom (MemoryStore._patterns before) ⊆ dom (MemoryStore._patterns after) /\
  dom (MemoryStore.patterns_dir before) ⊆ dom (MemoryStore.patterns_dir after).

(** Reading a run of decimal digits back, most significant first. *)
Fixpoint parse_decimal (s : string) (acc : Z) : Z :=
  match s with
  | EmptyString => acc
  | String c s' =>
      parse_decimal s' (10 * acc + (Z.of_nat (nat_of_ascii c) - 48))%Z
  end.

(** The index is keyed by the identifier each record carries. *)
Definition keyed (s : MemoryStore.t) : Prop :=
  forall id p, MemoryStore._patterns s !! id = Some p ->
               LearnedPattern.pattern_id p = id.

(** The directory holds one file per record of the index, named after the
    record and holding its [to_dict], and nothing else. *)
Definition persisted (s : MemoryStore.t) : Prop :=
  forall name doc,
    MemoryStore.patterns_dir s !! name = Some doc <->
    exists p,
      MemoryStore._patterns s !! LearnedPattern.pattern_id p = Some p /\
      name = MemoryStore.file_name (LearnedPattern.pattern_id p) /\
      doc = JDict (LearnedPattern.to_dict p).

Definition synced (s : MemoryStore.t) : Prop := keyed s /\ persisted s.

(** The record [add_pattern_from_action] stores: the one found with one
    more outcome, or a new one. *)
Definition recorded (found : option LearnedPattern.t)
    (id domain element_type selector action_type : string) (success : bool)
    (e : env) : LearnedPattern.t :=
  let p := default (LearnedPattern.mk id domain element_type selector
                      [action_type] 0 0 (now e) ∅) found in
  LearnedPattern.set_last_used (now e)
    (if success
     then LearnedPattern.set_success_count (LearnedPattern.success_count p + 1) p
     else LearnedPattern.set_failure_count (LearnedPattern.failure_count p + 1) p).

(** The non-empty selectors of a run of actions, in order. *)
Definition selectors_of (new : list ActionRecord.t) : list string :=
  omap (fun a => truthy (ActionRecord.selector a)) new.

(** What a run of the learning loop leaves alone or only lets grow: the
    identity, status and metadata of the session, the scorer and the
    directory of sessions stay; the count of elements found does not go
    down; the pattern memory loses no record and no file. *)
Definition frame {W : Type} (st st' : Learn.state W) : Prop :=
  Session.session_id (Learn.session W st')
  = Session.session_id (Learn.session W st) /\
  Session.target_url (Learn.session W st')
  = Session.target_url (Learn.session W st) /\
  Session.created_at (Learn.session W st')
  = Session.created_at (Learn.session W st) /\
  Session.status (Learn.session W st') = Session.status (Learn.session W st) /\
  Session.metadata (Learn.session W st')
  = Session.metadata (Learn.session W st) /\
  Learn.scorer W st' = Learn.scorer W st /\
  Learn.sessions_dir W st' = Learn.sessions_dir W st /\
  (Session.total_elements_found (Learn.session W st)
   <= Session.total_elements_found (Learn.session W st'))%Z /\
  grows (Learn.memory W st) (Learn.memory W st').

(** The state [st'] is [st] after recording the actions [new], with
    [explored] the selectors explored before them. *)
Definition ran {W : Type} (explored : gset string) (st : Learn.state W)
    (new : list ActionRecord.t) (st' : Learn.state W) : Prop :=
  frame st st' /\
  Session.actions (Learn.session W st')
  = Session.actions (Learn.session W st) ++ new /\
  Session.elements_explored (Learn.session W st')
  = match selectors_of new with
    | [] => Session.elements_explored (Learn.session W st)
    | _ => Z.of_nat (size (list_to_set (selectors_of new) ∪ explored))
    end.

(** The session carries the composite score of the metrics. *)
Definition scored {W : Type} (metrics : ConfidenceMetrics.t)
    (st : Learn.state W) : Prop :=
  ConfidenceMetrics.weighted_score metrics
  = Ok (Session.confidence_score (Learn.session W st)).

(** [post P m st]: the outcome of [m] from [st] and the state it leaves
    satisfy [P]. *)
Definition post {S A : Type} (P : outcome A -> S -> Prop) (m : IO S A)
    (st : S) : Prop :=
  P (fst (m st)) (snd (m st)).



(** * Properties *)

(** ** Builtins *)

Lemma truediv_ok (a b : Z) :
  b <> 0%Z -> truediv a b = Ok (inject_Z a / inject_Z b)%Q.
Proof. intros Hb. unfold truediv. destruct (decide (b = 0%Z)); [done | reflexivity]. Qed.

Lemma py_min_Qmin (a b : Q) : (py_min a b == Qmin a b)%Q.
Proof.
  unfold py_min. destruct (Qlt_le_dec b a) as [Hlt | Hle].
  - symmetry. apply Q.min_r. apply Qlt_le_weak, Hlt.
  - symmetry. apply Q.min_l. exact Hle.
Qed.

Lemma py_min_le_r (a b : Q) : (py_min a b <= b)%Q.
Proof. rewrite py_min_Qmin. apply Q.le_min_r. Qed.

Lemma py_min_le_l (a b : Q) : (py_min a b <= a)%Q.
Proof. rewrite py_min_Qmin. apply Q.le_min_l. Qed.

Lemma py_min_glb (a b c : Q) : (c <= a -> c <= b -> c <= py_min a b)%Q.
Proof. intros Ha Hb. unfold py_min. destruct (Qlt_le_dec b a); assumption. Qed.

Lemma len_nonneg {A : Type} (xs : list A) : (0 <= len xs)%Z.
Proof. unfold len. lia. Qed.

Lemma count_if_bounds {A : Type} (p : A -> bool) (xs : list A) :
  (0 <= count_if p xs <= len xs)%Z.
Proof.
  unfold count_if, len. split; [lia |].
  apply Nat2Z.inj_le. induction xs as [| x xs IH]; simpl; [lia |].
  destruct (p x); simpl; lia.
Qed.

(** A quotient of a count by the length it is taken from lies in [0, 1]. *)
Lemma ratio_bounds (a b : Z) :
  (0 <= a <= b)%Z -> (0 < b)%Z ->
  (0 <= inject_Z a / inject_Z b <= 1)%Q.
Proof.
  intros [Ha Hab] Hb.
  assert (Hb' : (0 < inject_Z b)%Q) by (unfold Qlt; simpl; lia).
  split.
  - apply Qle_shift_div_l; [exact Hb' |]. rewrite Qmult_0_l.
    unfold Qle; simpl; lia.
  - apply Qle_shift_div_r; [exact Hb' |]. rewrite Qmult_1_l.
    unfold Qle; simpl; lia.
Qed.

(** ** The composite score *)

Lemma weighted_score_value (m : ConfidenceMetrics.t) :
  ConfidenceMetrics.weighted_score m
  = Ok (ConfidenceMetrics.coverage_score m * 0.30
        + ConfidenceMetrics.success_rate m * 0.25
        + ConfidenceMetrics.pattern_stability m * 0.25
        + ConfidenceMetrics.exploration_depth m * 0.20)%Q.
Proof. reflexivity. Qed.

(** C1: with the four sub-scores in [0, 1], the composite score is the
    linear combination 0.30 coverage + 0.25 success_rate
    + 0.25 pattern_stability + 0.20 exploration_depth, and it lies in
    [0, 1]. *)
Theorem weighted_score_linear_bounded (m : ConfidenceMetrics.t) :
  (0 <= ConfidenceMetrics.coverage_score m <= 1)%Q ->
  (0 <= ConfidenceMetrics.success_rate m <= 1)%Q ->
  (0 <= ConfidenceMetrics.pattern_stability m <= 1)%Q ->
  (0 <= ConfidenceMetrics.exploration_depth m <= 1)%Q ->
  exists score : Q,
    ConfidenceMetrics.weighted_score m = Ok score /\
    (score == (30 # 100) * ConfidenceMetrics.coverage_score m
              + (25 # 100) * ConfidenceMetrics.success_rate m
              + (25 # 100) * ConfidenceMetrics.pattern_stability m
              + (20 # 100) * ConfidenceMetrics.exploration_depth m)%Q /\
    (0 <= score <= 1)%Q.
Proof.
  intros Hc Hs Hp He. rewrite weighted_score_value.
  eexists. split; [reflexivity |].
  destruct m as [c s p e]. simpl in *.
  change (0.30)%Q with (30 # 100)%Q. change (0.25)%Q with (25 # 100)%Q.
  change (0.20)%Q with (20 # 100)%Q.
  split; [ring | split; lra].
Qed.

(** The worked example of the specification: 0.8, 0.9, 0.7, 0.6 gives 0.76. *)
Lemma weighted_score_linear_bounded_witness :
  exists score : Q,
    ConfidenceMetrics.weighted_score
      (ConfidenceMetrics.mk (8 # 10) (9 # 10) (7 # 10) (6 # 10)) = Ok score /\
    (score == (30 # 100) * (8 # 10) + (25 # 100) * (9 # 10)
              + (25 # 100) * (7 # 10) + (20 # 100) * (6 # 10))%Q /\
    (0 <= score <= 1)%Q.
Proof.
  apply (weighted_score_linear_bounded
           (ConfidenceMetrics.mk (8 # 10) (9 # 10) (7 # 10) (6 # 10)));
    simpl; split; discriminate.
Defined.

(** ** The stopping rule *)

(** C2: below four distinct pages the stopping rule answers false whatever
    the score; from four pages on it answers true exactly when the
    composite score reaches the threshold given at construction, 0.85 when
    none is given. *)
Theorem is_learning_complete_rule
    (self : ConfidenceScorer.t) (metrics : ConfidenceMetrics.t)
    (unique_pages : Z) :
  ((unique_pages < 4)%Z ->
     ConfidenceScorer.is_learning_complete self metrics unique_pages
     = Ok false) /\
  ((4 <= unique_pages)%Z ->
     exists (score : Q) (answer : bool),
       ConfidenceMetrics.weighted_score metrics = Ok score /\
       ConfidenceScorer.is_learning_complete self metrics unique_pages
       = Ok answer /\
       (answer = true <-> (ConfidenceScorer.threshold self <= score)%Q)) /\
  ConfidenceScorer.threshold (ConfidenceScorer.__init__ None) = (85 # 100)%Q /\
  (forall t : Q,
     ConfidenceScorer.threshold (ConfidenceScorer.__init__ (Some t)) = t).
Proof.
  unfold ConfidenceScorer.is_learning_complete,
    ConfidenceScorer.MIN_PAGES_REQUIRED.
  repeat split.
  - intros Hlt. destruct (decide (unique_pages < 4)%Z); [reflexivity | lia].
  - intros Hge. destruct (decide (unique_pages < 4)%Z); [lia |].
    rewrite weighted_score_value. eexists. eexists.
    split; [reflexivity |]. split; [reflexivity |]. apply Qle_bool_iff.
Qed.

(** A score of 0.99 on one page is not complete; the end-to-end scenario of
    the specification (score 0.915 on four pages) is. *)
Lemma is_learning_complete_rule_witness :
  ConfidenceScorer.is_learning_complete (ConfidenceScorer.__init__ None)
    (ConfidenceMetrics.mk (99 # 100) (99 # 100) (99 # 100) (99 # 100)) 1
  = Ok false /\
  exists answer : bool,
    ConfidenceScorer.is_learning_complete (ConfidenceScorer.__init__ None)
      (ConfidenceMetrics.mk (8 # 10) (9 # 10) 1 1) 4 = Ok answer /\
    answer = true.
Proof.
  split.
  - apply (is_learning_complete_rule (ConfidenceScorer.__init__ None)
             (ConfidenceMetrics.mk (99 # 100) (99 # 100) (99 # 100) (99 # 100))
             1).
    lia.
  - destruct (is_learning_complete_rule (ConfidenceScorer.__init__ None)
                (ConfidenceMetrics.mk (8 # 10) (9 # 10) 1 1) 4)
      as (_ & Hge & _).
    destruct (Hge ltac:(lia)) as (score & answer & Hscore & Hanswer & Hiff).
    exists answer. split; [exact Hanswer |].
    apply Hiff. rewrite weighted_score_value in Hscore.
    injection Hscore as <-. vm_compute. discriminate.
Defined.

(** ** Reliability of a learned pattern *)

(** C6: reliability is successes over successes plus failures once an
    outcome is recorded, one half before any is; three successes and one
    failure give 0.75. *)
Theorem reliability_ratio (p : LearnedPattern.t) :
  ((LearnedPattern.success_count p + LearnedPattern.failure_count p <> 0)%Z ->
     exists r : Q,
       LearnedPattern.reliability p = Ok r /\
       (r == inject_Z (LearnedPattern.success_count p)
             / inject_Z (LearnedPattern.success_count p
                         + LearnedPattern.failure_count p))%Q) /\
  ((LearnedPattern.success_count p + LearnedPattern.failure_count p = 0)%Z ->
     LearnedPattern.reliability p = Ok 0.5%Q) /\
  (LearnedPattern.success_count p = 3%Z ->
   LearnedPattern.failure_count p = 1%Z ->
     exists r : Q, LearnedPattern.reliability p = Ok r /\ (r == 75 # 100)%Q).
Proof.
  unfold LearnedPattern.reliability. repeat split.
  - intros Hne. destruct (decide _) as [Heq | _]; [contradiction |].
    rewrite truediv_ok by exact Hne. eexists. split; reflexivity.
  - intros Heq. destruct (decide _) as [_ | Hne]; [reflexivity | contradiction].
  - intros -> ->. simpl. eexists. split; reflexivity.
Qed.

Lemma reliability_ratio_witness :
  exists r : Q,
    LearnedPattern.reliability
      (LearnedPattern.mk "example.com_2615" "example.com" "click" "#submit"
         ["click"] 3 1 "2024-01-01T00:00:00" ∅) = Ok r /\
    (r == 75 # 100)%Q.
Proof.
  apply (reliability_ratio
           (LearnedPattern.mk "example.com_2615" "example.com" "click"
              "#submit" ["click"] 3 1 "2024-01-01T00:00:00" ∅));
    reflexivity.
Defined.

(** ** Success rate of a session *)

Lemma success_rate_value (s : Session.t) :
  Session.actions s <> [] ->
  Session.success_rate s
  = Ok (inject_Z (count_if ActionRecord.success (Session.actions s))
        / inject_Z (len (Session.actions s)))%Q.
Proof.
  intros Hne. unfold Session.success_rate.
  destruct (decide (Session.actions s = [])); [contradiction |].
  apply truediv_ok. unfold len. destruct (Session.actions s); [done | simpl; lia].
Qed.

Lemma success_rate_bounds (s : Session.t) :
  exists r : Q, Session.success_rate s = Ok r /\ (0 <= r <= 1)%Q.
Proof.
  destruct (decide (Session.actions s = [])) as [Hnil | Hne].
  - unfold Session.success_rate. rewrite decide_True by exact Hnil.
    eexists. split; [reflexivity | split; discriminate].
  - rewrite success_rate_value by exact Hne. eexists. split; [reflexivity |].
    apply ratio_bounds; [apply count_if_bounds |].
    unfold len. destruct (Session.actions s); [done | simpl; lia].
Qed.

(** C9: the success rate is the number of successful actions over the
    number of actions, and exactly 0.0, not an error, for a session without
    actions. *)
Theorem success_rate_ratio (s : Session.t) :
  exists r : Q,
    Session.success_rate s = Ok r /\
    (Session.actions s = [] -> r = 0%Q) /\
    (Session.actions s <> [] ->
       (r == inject_Z (Z.of_nat (length (List.filter ActionRecord.success
                                           (Session.actions s))))
             / inject_Z (Z.of_nat (length (Session.actions s))))%Q).
Proof.
  destruct (decide (Session.actions s = [])) as [Hnil | Hne].
  - unfold Session.success_rate. rewrite decide_True by exact Hnil.
    eexists. split; [reflexivity |]. split; [reflexivity | contradiction].
  - rewrite success_rate_value by exact Hne. eexists. split; [reflexivity |].
    split; [contradiction | reflexivity].
Qed.

Lemma success_rate_ratio_witness :
  Session.success_rate (Session.create "1a2b3c4d" "2024-01-01T00:00:00"
                          "https://example.com") = Ok 0%Q /\
  exists r : Q,
    Session.success_rate
      (Session.add_action
         (Session.create "1a2b3c4d" "2024-01-01T00:00:00" "https://example.com")
         (ActionRecord.mk "2024-01-01T00:00:00" "click" (Some "#button") None
            "Testing" true "https://example.com" None)) = Ok r /\
    (r == 1)%Q.
Proof.
  split.
  - destruct (success_rate_ratio
                (Session.create "1a2b3c4d" "2024-01-01T00:00:00"
                   "https://example.com")) as (r & Hr & Hnil & _).
    rewrite Hr. f_equal. apply Hnil. reflexivity.
  - destruct (success_rate_ratio
                (Session.add_action
                   (Session.create "1a2b3c4d" "2024-01-01T00:00:00"
                      "https://example.com")
                   (ActionRecord.mk "2024-01-01T00:00:00" "click"
                      (Some "#button") None "Testing" true
                      "https://example.com" None))) as (r & Hr & _ & Hne).
    exists r. split; [exact Hr |]. rewrite Hne by discriminate. reflexivity.
Defined.

(** ** Pattern stability *)

Lemma last_n_most_recent {A : Type} (n : nat) (xs : list A) :
  last_n n xs = Spec.most_recent n xs.
Proof.
  unfold last_n, Spec.most_recent.
  rewrite take_reverse, reverse_involutive. reflexivity.
Qed.

Lemma length_last_n {A : Type} (n : nat) (xs : list A) :
  length (last_n n xs) = Nat.min n (length xs).
Proof. unfold last_n. rewrite length_drop. lia. Qed.

Lemma len_set_distinct (xs : list string) :
  len_set xs = Z.of_nat (length (remove_dups xs)).
Proof.
  unfold len_set. f_equal.
  rewrite <- (size_list_to_set (C := gset string) (remove_dups xs))
    by apply NoDup_remove_dups.
  f_equal. apply set_eq. intros x.
  rewrite !elem_of_list_to_set, elem_of_remove_dups. reflexivity.
Qed.

Lemma Qmin_py_min_compat (a a' b : Q) :
  (a == a')%Q -> (py_min a b == Qmin a' b)%Q.
Proof.
  intros Ha. rewrite py_min_Qmin.
  destruct (Qlt_le_dec b a) as [Hlt | Hle].
  - rewrite Q.min_r by (apply Qlt_le_weak; exact Hlt).
    rewrite Q.min_r by (rewrite <- Ha; apply Qlt_le_weak; exact Hlt).
    reflexivity.
  - rewrite Q.min_l by exact Hle.
    rewrite Q.min_l by (rewrite <- Ha; exact Hle).
    exact Ha.
Qed.

Lemma pattern_stability_value (session : Session.t) :
  (5 <= length (Session.actions session))%nat ->
  ConfidenceScorer._calculate_pattern_stability session
  = Ok (py_min
          (inject_Z (count_if ActionRecord.success
                       (last_n 10 (Session.actions session)))
           / inject_Z (len (last_n 10 (Session.actions session)))
           + py_min
               (inject_Z (len_set (ActionRecord.action_type
                                     <$> Session.actions session))
                / inject_Z 4)
               0.3)
          1)%Q.
Proof.
  intros Hlen. unfold ConfidenceScorer._calculate_pattern_stability.
  destruct (decide (len (Session.actions session) < 5)%Z) as [Hlt | _].
  { unfold len in Hlt. lia. }
  cbv zeta.
  rewrite (truediv_ok _ (len (last_n 10 (Session.actions session)))).
  2:{ unfold len. rewrite length_last_n. lia. }
  reflexivity.
Qed.

(** C4: pattern stability is 0.3 below five actions; from five actions on
    it is the success ratio of the ten most recent actions plus
    min(distinct action kinds of the whole session / 4, 0.3), capped
    at 1.0. *)
Theorem pattern_stability_rule (session : Session.t) :
  exists r : Q,
    ConfidenceScorer._calculate_pattern_stability session = Ok r /\
    ((length (Session.actions session) < 5)%nat -> r = 0.3%Q) /\
    ((5 <= length (Session.actions session))%nat ->
       (r == Qmin (Spec.success_ratio
                     (Spec.most_recent 10 (Session.actions session))
                   + Qmin (inject_Z (Z.of_nat (Spec.distinct_action_kinds
                                                 (Session.actions session)))
                           / 4)
                          (3 # 10))
                  1)%Q) /\
    (r == Spec.pattern_stability (Session.actions session))%Q.
Proof.
  unfold Spec.pattern_stability.
  destruct (decide (length (Session.actions session) < 5)%nat) as [Hlt | Hge].
  - exists 0.3%Q. unfold ConfidenceScorer._calculate_pattern_stability.
    rewrite decide_True by (unfold len; lia).
    split; [reflexivity |]. split; [reflexivity |].
    split; [intros; lia | reflexivity].
  - assert (Hlen : (5 <= length (Session.actions session))%nat) by lia.
    rewrite (pattern_stability_value session Hlen).
    eexists. split; [reflexivity |]. split; [intros; lia |].
    assert (Heq :
      (py_min
         (inject_Z (count_if ActionRecord.success
                      (last_n 10 (Session.actions session)))
          / inject_Z (len (last_n 10 (Session.actions session)))
          + py_min
              (inject_Z (len_set (ActionRecord.action_type
                                    <$> Session.actions session))
               / inject_Z 4)
              0.3)
         1
       == Qmin (Spec.success_ratio
                  (Spec.most_recent 10 (Session.actions session))
                + Qmin (inject_Z (Z.of_nat (Spec.distinct_action_kinds
                                              (Session.actions session)))
                        / 4)
                       (3 # 10))
               1)%Q).
    { apply Qmin_py_min_compat. apply Qplus_comp.
      - rewrite last_n_most_recent. reflexivity.
      - apply Qmin_py_min_compat. rewrite len_set_distinct. reflexivity. }
    split; [intros _; exact Heq | exact Heq].
Qed.

(** Six successful clicks: ratio 1, one kind of action, bonus 0.25, capped
    at 1; and a session of two actions scores 0.3. *)
Lemma pattern_stability_rule_witness :
  let click := ActionRecord.mk "2024-01-01T00:00:00" "click" (Some "#button")
                 None "Testing" true "https://example.com" None in
  let session n := Session.mk "1a2b3c4d" "https://example.com"
                     "2024-01-01T00:00:00" "active" (replicate n click)
                     0 0 0 ∅ in
  ConfidenceScorer._calculate_pattern_stability (session 2%nat) = Ok 0.3%Q /\
  exists r : Q,
    ConfidenceScorer._calculate_pattern_stability (session 6%nat) = Ok r /\
    (r == 1)%Q.
Proof.
  intros click session. split.
  - destruct (pattern_stability_rule (session 2%nat)) as (r & Hr & Hlt & _).
    rewrite Hr. f_equal. apply Hlt. simpl. lia.
  - destruct (pattern_stability_rule (session 6%nat)) as (r & Hr & _ & Hge & _).
    exists r. split; [exact Hr |]. rewrite Hge by (simpl; lia).
    vm_compute. reflexivity.
Defined.

(** ** Persisting a session *)

Lemma mapM_result_fmap {A B : Type} (f : A -> B) (g : B -> result A)
    (xs : list A) :
  (forall x, g (f x) = Ok x) -> mapM_result g (f <$> xs) = Ok xs.
Proof.
  intros Hgf. induction xs as [| x xs IH]; [reflexivity |].
  cbn [fmap list_fmap mapM_result]. rewrite Hgf. cbn [mbind result_bind].
  rewrite IH. reflexivity.
Qed.

Lemma action_record_roundtrip (a : ActionRecord.t) :
  ActionRecord.from_dict (JDict (ActionRecord.to_dict a)) = Ok a.
Proof.
  destruct a as [ts ty [sel |] [val |] why ok url [shot |]];
    vm_compute; reflexivity.
Qed.

Lemma session_dict_roundtrip (s : Session.t) :
  Session.from_dict (JDict (Session.to_dict s)) = Ok s.
Proof.
  destruct s as [sid url at_ st acts score found explored meta].
  unfold Session.from_dict.
  set (d := Session.to_dict _).
  assert (Hacts : optional as_list d "actions" []
                  = Ok ((fun a => JDict (ActionRecord.to_dict a)) <$> acts))
    by reflexivity.
  rewrite Hacts. cbn [mbind result_bind].
  rewrite (mapM_result_fmap _ _ acts action_record_roundtrip).
  cbn [mbind result_bind].
  set (d' := delete "actions" d).
  assert (Hkw : check_keywords Session.fields d' = Ok ())
    by (vm_compute; reflexivity).
  rewrite Hkw. cbn [mbind result_bind].
  assert (H1 : required as_str d' "session_id" = Ok sid) by reflexivity.
  assert (H2 : required as_str d' "target_url" = Ok url) by reflexivity.
  assert (H3 : required as_str d' "created_at" = Ok at_) by reflexivity.
  assert (H4 : optional as_str d' "status" "active" = Ok st) by reflexivity.
  assert (H5 : optional as_float d' "confidence_score" 0%Q = Ok score)
    by reflexivity.
  assert (H6 : optional as_int d' "total_elements_found" 0%Z = Ok found)
    by reflexivity.
  assert (H7 : optional as_int d' "elements_explored" 0%Z = Ok explored)
    by reflexivity.
  assert (H8 : optional as_dict d' "metadata" ∅ = Ok meta) by reflexivity.
  rewrite H1, H2, H3, H4, H5, H6, H7, H8. reflexivity.
Qed.

(** C5: a session written with [save] and read back with [load] under its
    own identifier is the session that was written, whatever its status,
    actions (optional fields absent or present), counters and metadata;
    the same holds of [to_dict] followed by [from_dict]. *)
Theorem session_save_load_roundtrip (s : Session.t) (sessions_dir : directory) :
  Session.load (Session.session_id s) (Session.save s sessions_dir) = Ok s /\
  Session.from_dict (JDict (Session.to_dict s)) = Ok s.
Proof.
  split; [| apply session_dict_roundtrip].
  unfold Session.load, Session.save. rewrite lookup_insert_eq.
  apply session_dict_roundtrip.
Qed.

(** ** The decision call *)

Section DecideAction.

Variable llm_provider : string.
Variable _call_anthropic _call_openai
  : string -> string -> option string -> result (option string).
Variable fenced_block : string -> option string.
Variable strip : string -> string.
Variable json_loads : string -> result json.
Variable braced_object : string -> option string.

Let parse_json_response :=
  LLMClient._parse_json_response fenced_block strip json_loads braced_object.
Let attempt :=
  LLMClient.attempt llm_provider _call_anthropic _call_openai
    fenced_block strip json_loads braced_object.
Let decide :=
  LLMClient.decide_action llm_provider _call_anthropic _call_openai
    fenced_block strip json_loads braced_object.

(** A reply in which no JSON can be found is a [ValueError]. *)
Lemma parse_unparsable (response msg : string) :
  fenced_block response = None ->
  json_loads (strip response) = Raise (JSONDecodeError msg) ->
  braced_object response = None ->
  parse_json_response (Some response)
  = Raise (ValueError ("Could not parse JSON from response: "
                       +:+ String.substring 0 200 response)).
Proof.
  intros Hfence Hloads Hbrace. unfold parse_json_response.
  unfold LLMClient._parse_json_response.
  rewrite Hfence, Hloads, Hbrace. reflexivity.
Qed.




End DecideAction.


(** ** The scoring step *)

Lemma pattern_stability_returns (session : Session.t) :
  exists r : Q, ConfidenceScorer._calculate_pattern_stability session = Ok r.
Proof.
  destruct (decide (length (Session.actions session) < 5)%nat) as [Hlt | Hge].
  - exists 0.3%Q. unfold ConfidenceScorer._calculate_pattern_stability.
    rewrite decide_True by (unfold len; lia). reflexivity.
  - rewrite pattern_stability_value by lia. eauto.
Qed.

Lemma exploration_depth_returns (session : Session.t) :
  exists r : Q, ConfidenceScorer._calculate_exploration_depth session = Ok r.
Proof.
  unfold ConfidenceScorer._calculate_exploration_depth.
  destruct (decide (Session.actions session = [])); eauto.
Qed.

Lemma update_returns (o : ConfidenceScorer.objects) :
  exists metrics : ConfidenceMetrics.t,
    ConfidenceScorer.update o = (Ok metrics, o).
Proof.
  destruct (success_rate_bounds (ConfidenceScorer.session_ o)) as (sr & Hsr & _).
  destruct (pattern_stability_returns (ConfidenceScorer.session_ o)) as [ps Hps].
  destruct (exploration_depth_returns (ConfidenceScorer.session_ o)) as [ed Hed].
  unfold ConfidenceScorer.update, mbind, M_bind, gets, lift, mret, M_ret.
  cbn beta iota.
  destruct (decide (Session.total_elements_found (ConfidenceScorer.session_ o) > 0)%Z)
    as [Hpos | Hneg].
  - rewrite truediv_ok by lia. rewrite Hsr, Hps, Hed. eexists. reflexivity.
  - rewrite Hsr, Hps, Hed. eexists. reflexivity.
Qed.

(** C10: [update] returns metrics and leaves the session it reads as it was,
    field by field, together with the scorer; the composite score reaches
    the session only through the assignment the orchestrator makes after
    the call, which changes [confidence_score] and nothing else. *)
Theorem update_leaves_session_unchanged
    (self : ConfidenceScorer.t) (session : Session.t) :
  exists (metrics : ConfidenceMetrics.t) (after : ConfidenceScorer.objects),
    ConfidenceScorer.update (ConfidenceScorer.Objects self session)
    = (Ok metrics, after) /\
    ConfidenceScorer.session_ after = session /\
    ConfidenceScorer.self_ after = self /\
    Session.status (ConfidenceScorer.session_ after) = Session.status session /\
    Session.actions (ConfidenceScorer.session_ after)
    = Session.actions session /\
    Session.confidence_score (ConfidenceScorer.session_ after)
    = Session.confidence_score session /\
    Session.total_elements_found (ConfidenceScorer.session_ after)
    = Session.total_elements_found session /\
    Session.elements_explored (ConfidenceScorer.session_ after)
    = Session.elements_explored session /\
    Session.metadata (ConfidenceScorer.session_ after)
    = Session.metadata session /\
    exists score : Q,
      ConfidenceMetrics.weighted_score metrics = Ok score /\
      Orchestrator.scoring_step (ConfidenceScorer.Objects self session)
      = (Ok metrics,
         ConfidenceScorer.Objects self
           (Orchestrator.set_confidence_score score session)).
Proof.
  destruct (update_returns (ConfidenceScorer.Objects self session))
    as [metrics Hupdate].
  exists metrics, (ConfidenceScorer.Objects self session).
  split; [exact Hupdate |]. repeat (split; [reflexivity |]).
  eexists. split; [apply weighted_score_value |].
  unfold Orchestrator.scoring_step, mbind, M_bind.
  rewrite Hupdate. reflexivity.
Qed.

(** By contrast [record_interaction] does write: to the scorer, and still
    not to the session. *)
Lemma record_interaction_writes_scorer (selector : string) (success : bool)
    (self : ConfidenceScorer.t) (session : Session.t) :
  let after :=
    snd (ConfidenceScorer.record_interaction selector success
           (ConfidenceScorer.Objects self session)) in
  selector ∈ ConfidenceScorer._visited_selectors (ConfidenceScorer.self_ after) /\
  ConfidenceScorer.session_ after = session.
Proof.
  unfold ConfidenceScorer.record_interaction, mbind, M_bind, modify, mret, M_ret.
  destruct success; cbn; split; try reflexivity; set_solver.
Qed.

(** ** The pattern store only grows *)

Lemma grows_refl (s : MemoryStore.t) : grows s s.
Proof. split; reflexivity. Qed.

Lemma grows_trans (s1 s2 s3 : MemoryStore.t) :
  grows s1 s2 -> grows s2 s3 -> grows s1 s3.
Proof. intros [H1 H1'] [H2 H2']. split; etrans; eassumption. Qed.

Lemma grows_set_patterns (s : MemoryStore.t) (k : string)
    (p : LearnedPattern.t) :
  grows s (MemoryStore.set_patterns (<[k := p]>) s).
Proof.
  split; simpl; [| reflexivity]. rewrite dom_insert. set_solver.
Qed.

Lemma grows_set_dir (s : MemoryStore.t) (k : string) (doc : json) :
  grows s (MemoryStore.set_dir (<[k := doc]>) s).
Proof.
  split; simpl; [reflexivity |]. rewrite dom_insert. set_solver.
Qed.

Lemma save_pattern_grows (p : LearnedPattern.t) (e : env) (s : MemoryStore.t) :
  grows s (snd (MemoryStore.save_pattern p e s)).
Proof.
  unfold MemoryStore.save_pattern, mbind, M_bind, modify, lift.
  cbn beta iota. destruct (writable e); cbn [snd].
  - eapply grows_trans; [apply grows_set_patterns | apply grows_set_dir].
  - apply grows_set_patterns.
Qed.

Ltac run_store :=
  unfold mbind, M_bind, modify, gets, lift, mret, M_ret; cbn beta iota.

Lemma perform_grows (hash : string -> Z) (fmt_percent : Q -> string)
    (op : MemoryStore.operation) (e : env) (s : MemoryStore.t) :
  grows s (MemoryStore.perform hash fmt_percent op e s).
Proof.
  destruct op as [p | d | k | k | d n | d ety sel aty ok]; cbn [MemoryStore.perform].
  - apply save_pattern_grows.
  - apply grows_refl.
  - unfold MemoryStore.record_success. run_store.
    destruct (MemoryStore._patterns s !! k) as [p |]; [| apply grows_refl].
    run_store. eapply grows_trans; [apply grows_set_patterns |].
    apply save_pattern_grows.
  - unfold MemoryStore.record_failure. run_store.
    destruct (MemoryStore._patterns s !! k) as [p |]; [| apply grows_refl].
    run_store. eapply grows_trans; [apply grows_set_patterns |].
    apply save_pattern_grows.
  - unfold MemoryStore.get_context_for_llm, MemoryStore.get_patterns_for_domain.
    run_store. destruct (decide _); [apply grows_refl |].
    run_store. destruct (mapM_result _ _); apply grows_refl.
  - unfold MemoryStore.add_pattern_from_action. run_store.
    destruct (MemoryStore._patterns s !! _) as [p |]; run_store.
    + match goal with
      | |- grows _ (snd (match MemoryStore.save_pattern ?q ?e ?s' with _ => _ end)) =>
          pose proof (save_pattern_grows q e s') as Hsave;
          destruct (MemoryStore.save_pattern q e s') as [[[] | ?] s'']
      end; cbn [snd] in *;
        (eapply grows_trans; [apply grows_set_patterns | exact Hsave]).
    + match goal with
      | |- grows _ (snd (match MemoryStore.save_pattern ?q ?e ?s' with _ => _ end)) =>
          pose proof (save_pattern_grows q e s') as Hsave;
          destruct (MemoryStore.save_pattern q e s') as [[[] | ?] s'']
      end; cbn [snd] in *; exact Hsave.
Qed.

(** C8: over any run of store operations, whatever the hash of the process,
    the clock and the outcome of each write, no pattern record goes away:
    the identifiers in the index and the files on disk after the run
    include those before it, and the number of records does not drop. *)
Theorem store_never_shrinks (hash : string -> Z) (fmt_percent : Q -> string)
    (ops : list (MemoryStore.operation * env)) (s : MemoryStore.t) :
  dom (MemoryStore._patterns s)
  ⊆ dom (MemoryStore._patterns (MemoryStore.run hash fmt_percent ops s)) /\
  dom (MemoryStore.patterns_dir s)
  ⊆ dom (MemoryStore.patterns_dir (MemoryStore.run hash fmt_percent ops s)) /\
  size (MemoryStore._patterns s)
  <= size (MemoryStore._patterns (MemoryStore.run hash fmt_percent ops s)).
Proof.
  assert (Hgrows : grows s (MemoryStore.run hash fmt_percent ops s)).
  { revert s. induction ops as [| [op e] ops IH]; intros s.
    - apply grows_refl.
    - cbn [MemoryStore.run]. eapply grows_trans; [| apply IH].
      apply perform_grows. }
  destruct Hgrows as [Hidx Hdisk]. split; [exact Hidx |]. split; [exact Hdisk |].
  rewrite <- !size_dom. apply subseteq_size. exact Hidx.
Qed.

(** ** Pattern identifiers *)

(** Within one process the identifier depends on the domain and the
    selector alone: not on the store, the clock, the element or action kind,
    or the outcome. *)
Lemma add_pattern_returns_id (hash : string -> Z)
    (domain element_type selector action_type : string) (success : bool)
    (e : env) (s : MemoryStore.t) :
  writable e = true ->
  fst (MemoryStore.add_pattern_from_action hash domain element_type selector
         action_type success e s)
  = Ok (MemoryStore.pattern_id_of hash domain selector).
Proof.
  intros Hw. unfold MemoryStore.add_pattern_from_action, MemoryStore.save_pattern.
  run_store. rewrite Hw.
  destruct (MemoryStore._patterns s !! _); reflexivity.
Qed.

(** Failing input of C3: the selector "#submit" on "example.com", recorded
    by a process started with [PYTHONHASHSEED=1] and, after a restart on
    the same directory, by a process started with [PYTHONHASHSEED=2].  The
    two processes compute different identifiers, and the second one opens
    a new record instead of adding to the persisted one. *)
Theorem pattern_id_changes_across_restarts :
  let first := CPython.str_hash (CPython.secret_of_seed 1) in
  let second := CPython.str_hash (CPython.secret_of_seed 2) in
  let e := Env "2024-01-01T00:00:00" true in
  let s1 := snd (MemoryStore.add_pattern_from_action first "example.com"
                   "click" "#submit" "click" true e
                   (MemoryStore.__init__ (now e) ∅)) in
  let s2 := snd (MemoryStore.add_pattern_from_action second "example.com"
                   "click" "#submit" "click" true e
                   (MemoryStore.__init__ (now e) (MemoryStore.patterns_dir s1))) in
  MemoryStore.pattern_id_of first "example.com" "#submit" = "example.com_2615" /\
  MemoryStore.pattern_id_of second "example.com" "#submit" = "example.com_7534" /\
  LearnedPattern.success_count
    <$> MemoryStore._patterns s2 !! "example.com_2615" = Some 1%Z /\
  LearnedPattern.success_count
    <$> MemoryStore._patterns s2 !! "example.com_7534" = Some 1%Z /\
  size (MemoryStore._patterns s2) = 2%nat.
Proof. vm_compute. repeat split. Qed.

(** The same scenario without a change of hash secret: the restarted
    process finds the persisted record and adds to it. *)
Lemma pattern_accumulates_under_one_secret :
  let h := CPython.str_hash (CPython.secret_of_seed 1) in
  let e := Env "2024-01-01T00:00:00" true in
  let s1 := snd (MemoryStore.add_pattern_from_action h "example.com"
                   "click" "#submit" "click" true e
                   (MemoryStore.__init__ (now e) ∅)) in
  let s2 := snd (MemoryStore.add_pattern_from_action h "example.com"
                   "click" "#submit" "click" true e
                   (MemoryStore.__init__ (now e) (MemoryStore.patterns_dir s1))) in
  LearnedPattern.success_count
    <$> MemoryStore._patterns s2 !! "example.com_2615" = Some 2%Z /\
  size (MemoryStore._patterns s2) = 1%nat.
Proof. vm_compute. repeat split. Qed.

Lemma parse_fmt_04d (n : Z) :
  (0 <= n < 10000)%Z -> parse_decimal (fmt_04d n) 0 = n.
Proof.
  intros Hn.
  assert (Hall : forallb (fun k => (parse_decimal (fmt_04d k) 0 =? k)%Z)
                   (seqZ 0 10000) = true) by (vm_compute; reflexivity).
  rewrite forallb_forall in Hall.
  apply Z.eqb_eq, Hall, list_elem_of_In, elem_of_seqZ. lia.
Qed.

Lemma append_inj_r (prefix x y : string) :
  prefix +:+ x = prefix +:+ y -> x = y.
Proof.
  induction prefix as [| c prefix IH]; simpl; [auto |].
  intros Heq. injection Heq as Heq. auto.
Qed.

(** Two processes whose hashes of a selector differ modulo 10000 give the
    selector different identifiers. *)
Lemma pattern_id_follows_hash (h1 h2 : string -> Z) (domain selector : string) :
  (h1 selector mod 10000 <> h2 selector mod 10000)%Z ->
  MemoryStore.pattern_id_of h1 domain selector
  <> MemoryStore.pattern_id_of h2 domain selector.
Proof.
  intros Hne Heq. apply Hne. unfold MemoryStore.pattern_id_of in Heq.
  apply append_inj_r, append_inj_r in Heq.
  rewrite <- (parse_fmt_04d (h1 selector mod 10000))
    by (apply Z.mod_pos_bound; lia).
  rewrite <- (parse_fmt_04d (h2 selector mod 10000))
    by (apply Z.mod_pos_bound; lia).
  rewrite Heq. reflexivity.
Qed.

(** * Further properties of the code *)

(** ** Strings *)

Lemma list_ascii_append (a b : string) :
  String.list_ascii_of_string (a +:+ b)
  = String.list_ascii_of_string a ++ String.list_ascii_of_string b.
Proof. induction a as [| c a IH]; simpl; [reflexivity | rewrite IH; reflexivity]. Qed.

Lemma list_ascii_inj (a b : string) :
  String.list_ascii_of_string a = String.list_ascii_of_string b -> a = b.
Proof.
  intros Heq. rewrite <- (String.string_of_list_ascii_of_string a),
    <- (String.string_of_list_ascii_of_string b), Heq. reflexivity.
Qed.

Lemma append_inj_l (a b suffix : string) :
  a +:+ suffix = b +:+ suffix -> a = b.
Proof.
  intros Heq. apply list_ascii_inj.
  apply (f_equal String.list_ascii_of_string) in Heq.
  rewrite !list_ascii_append in Heq.
  exact (app_inv_tail _ _ _ Heq).
Qed.

Lemma string_length_append (a b : string) :
  String.length (a +:+ b) = (String.length a + String.length b)%nat.
Proof. induction a as [| c a IH]; simpl; [reflexivity | rewrite IH; reflexivity]. Qed.

(** ** Sessions on disk *)

(** For identifiers that name files of the sessions directory: [load]
    after [save] finds the saved session under its own identifier and,
    under any other identifier, what the directory held before; a second
    session saved afterwards leaves the first one loadable unless it has
    the same identifier, and then replaces it; in an empty directory
    [load] raises [FileNotFoundError]. *)
Theorem load_after_save (s s2 : Session.t) (id : string) (dir : directory) :
  Session.is_file_name id = true ->
  Session.is_file_name (Session.session_id s) = true ->
  Session.is_file_name (Session.session_id s2) = true ->
  Session.load id (Session.save s dir)
  = (if decide (id = Session.session_id s) then Ok s else Session.load id dir) /\
  Session.load (Session.session_id s) (Session.save s2 (Session.save s dir))
  = Ok (if decide (Session.session_id s = Session.session_id s2)
        then s2 else s) /\
  Session.load id ∅ = Raise (FileNotFoundError (Session.file_name id)).
Proof.
  intros _ _ _.
  assert (Hname : forall a b : string,
            a <> b -> Session.file_name a <> Session.file_name b).
  { intros a b Hne Heq. apply Hne. exact (append_inj_l _ _ _ Heq). }
  split; [| split; [| reflexivity]].
  - unfold Session.load, Session.save.
    destruct (decide (id = Session.session_id s)) as [-> | Hne].
    + rewrite lookup_insert_eq. apply session_dict_roundtrip.
    + rewrite lookup_insert_ne; [reflexivity |].
      apply Hname. congruence.
  - unfold Session.load, Session.save.
    destruct (decide (Session.session_id s = Session.session_id s2))
      as [Heq | Hne].
    + rewrite Heq, lookup_insert_eq. apply session_dict_roundtrip.
    + rewrite lookup_insert_ne by (apply Hname; congruence).
      rewrite lookup_insert_eq. apply session_dict_roundtrip.
Qed.

Lemma load_after_save_witness :
  let s := Session.create "1b9d6bcd" "2024-06-30T12:00:00"
             "https://example.com/" in
  let s2 := Session.create "0a0a0a0a" "2024-07-01T08:30:00"
              "https://example.org/" in
  Session.load "1b9d6bcd" (Session.save s2 (Session.save s ∅)) = Ok s /\
  Session.load "0a0a0a0a" (Session.save s ∅)
  = Raise (FileNotFoundError "0a0a0a0a.json") /\
  Session.is_file_name "./1b9d6bcd" = false.
Proof.
  intros s s2.
  destruct (load_after_save s s2 "0a0a0a0a" ∅ eq_refl eq_refl eq_refl)
    as (Hother & Hboth & _).
  split; [exact Hboth |]. split; [exact Hother | reflexivity].
Defined.

(** A record holding only the three required fields loads as the fresh
    session [create] builds; a record with a field the dataclass does not
    have is rejected. *)
Theorem from_dict_defaults_and_unknown_fields :
  (forall sid url at_ : string,
     Session.from_dict
       (JDict (dict [("session_id", JStr sid); ("target_url", JStr url);
                     ("created_at", JStr at_)]))
     = Ok (Session.create sid at_ url)) /\
  (forall (d : gmap string json) (k : string),
     k ∉ Session.fields -> is_Some (d !! k) ->
     exists e, Session.from_dict (JDict d) = Raise e).
Proof.
  split.
  - intros sid url at_. vm_compute. reflexivity.
  - intros d k Hk [v Hv]. unfold Session.from_dict.
    destruct (optional as_list d "actions" []) as [raw | e]; [| eauto].
    cbn [mbind result_bind].
    destruct (mapM_result ActionRecord.from_dict raw) as [acts | e]; [| eauto].
    cbn [mbind result_bind]. unfold check_keywords.
    destruct (decide _) as [Hsub | _]; [| eauto].
    exfalso. apply Hk.
    assert (Hin : k ∈ dom (delete "actions" d)).
    { apply elem_of_dom. rewrite lookup_delete_ne.
      - rewrite Hv. eauto.
      - intros <-. apply Hk. apply list_elem_of_In. simpl. auto 10. }
    apply Hsub in Hin. apply elem_of_list_to_set in Hin. exact Hin.
Qed.

Lemma from_dict_defaults_and_unknown_fields_witness :
  exists e,
    Session.from_dict
      (JDict (dict [("session_id", JStr "1a2b3c4d");
                    ("target_url", JStr "https://example.com");
                    ("created_at", JStr "2024-01-01T00:00:00");
                    ("owner", JStr "nobody")])) = Raise e.
Proof.
  destruct from_dict_defaults_and_unknown_fields as [_ Hunknown].
  apply (Hunknown _ "owner").
  - intros Hin. apply list_elem_of_In in Hin. simpl in Hin.
    repeat (destruct Hin as [Hin | Hin]; [discriminate |]). exact Hin.
  - vm_compute. eauto.
Defined.

Lemma last_some_default {A : Type} (l : list A) (d x : A) :
  list.last l = Some x -> List.last l d = x.
Proof.
  induction l as [| a [| b l] IH]; intros Hlast.
  - discriminate.
  - simpl in *. congruence.
  - change (List.last (a :: b :: l) d) with (List.last (b :: l) d).
    apply IH. exact Hlast.
Qed.

Section Duration.

Variable fromisoformat : string -> result Session.datetime.

(** With fewer than two actions the duration is 0.0 and no timestamp is
    parsed, so a malformed timestamp does no harm; from two actions on it
    is the time from the first action to the last. *)
Theorem duration_seconds_rule (s : Session.t) :
  ((length (Session.actions s) < 2)%nat ->
     Session.duration_seconds fromisoformat s = Ok 0%Q) /\
  (forall (first last : ActionRecord.t) (t0 t1 : Session.datetime),
     (2 <= length (Session.actions s))%nat ->
     head (Session.actions s) = Some first ->
     list.last (Session.actions s) = Some last ->
     fromisoformat (ActionRecord.timestamp first) = Ok t0 ->
     fromisoformat (ActionRecord.timestamp last) = Ok t1 ->
     Session.aware t0 = Session.aware t1 ->
     Session.duration_seconds fromisoformat s = Ok (Session.seconds t1 - Session.seconds t0)%Q).
Proof.
  unfold Session.duration_seconds.
  destruct (Session.actions s) as [| a0 [| a1 rest]] eqn:Hacts; cbn [length].
  - split; [reflexivity | intros; lia].
  - split; [reflexivity | intros; lia].
  - split; [intros; lia |].
    intros first last t0 t1 _ Hhead Hlast H0 H1 Haware.
    injection Hhead as <-.
    assert (Hl : List.last (a1 :: rest) a0 = last).
    { apply last_some_default. exact Hlast. }
    rewrite Hl, H0. cbn [mbind result_bind]. rewrite H1. cbn [mbind result_bind].
    unfold Session.datetime_sub. rewrite bool_decide_eq_true_2 by (symmetry; exact Haware).
    reflexivity.
Qed.

End Duration.

Lemma duration_seconds_rule_witness :
  let parse (s : string) : result Session.datetime :=
    if decide (s = "2024-01-01T00:00:00") then Ok (Session.Datetime 0 false)
    else if decide (s = "2024-01-01T00:01:30") then Ok (Session.Datetime 90 false)
    else Raise (ValueError "Invalid isoformat string") in
  let act ts := ActionRecord.mk ts "click" (Some "#button") None "Testing"
                  true "https://example.com" None in
  let session acts := Session.mk "1a2b3c4d" "https://example.com"
                        "2024-01-01T00:00:00" "active" acts 0 0 0 ∅ in
  Session.duration_seconds parse (session [act "yesterday"]) = Ok 0%Q /\
  Session.duration_seconds parse
    (session [act "2024-01-01T00:00:00"; act "yesterday";
              act "2024-01-01T00:01:30"]) = Ok (90 - 0)%Q.
Proof.
  intros parse act session. split.
  - apply (duration_seconds_rule parse (session [act "yesterday"])).
    simpl. lia.
  - apply (proj2 (duration_seconds_rule parse
                    (session [act "2024-01-01T00:00:00"; act "yesterday";
                              act "2024-01-01T00:01:30"]))
             (act "2024-01-01T00:00:00") (act "2024-01-01T00:01:30")
             (Session.Datetime 0 false) (Session.Datetime 90 false));
      try reflexivity.
    simpl. lia.
Defined.

(** ** Bounds of the sub-scores *)

Lemma Qdiv_inject_le (a b c d : Z) :
  (0 < b)%Z -> (0 < d)%Z ->
  ((inject_Z a / inject_Z b <= inject_Z c / inject_Z d)%Q
   <-> (a * d <= c * b)%Z).
Proof.
  intros Hb Hd. destruct b as [| p | p]; try lia. destruct d as [| q | q]; try lia.
  unfold Qle, Qdiv, Qmult, Qinv, inject_Z. simpl. lia.
Qed.

Lemma count_if_app {A : Type} (p : A -> bool) (xs ys : list A) :
  count_if p (xs ++ ys) = (count_if p xs + count_if p ys)%Z.
Proof.
  unfold count_if, len. rewrite List.filter_app, length_app. lia.
Qed.

Lemma len_app {A : Type} (xs ys : list A) : len (xs ++ ys) = (len xs + len ys)%Z.
Proof. unfold len. rewrite length_app. lia. Qed.

Lemma len_pos {A : Type} (xs : list A) : xs <> [] -> (0 < len xs)%Z.
Proof. unfold len. destruct xs; [done | simpl; lia]. Qed.

(** Recording a successful action never lowers the success rate of a
    session, and recording a failed one never raises it. *)
Theorem success_rate_add_action (s : Session.t) (a : ActionRecord.t) :
  exists r r' : Q,
    Session.success_rate s = Ok r /\
    Session.success_rate (Session.add_action s a) = Ok r' /\
    (ActionRecord.success a = true -> (r <= r')%Q) /\
    (ActionRecord.success a = false -> (r' <= r)%Q).
Proof.
  assert (Hne' : Session.actions (Session.add_action s a) <> [])
    by (simpl; destruct (Session.actions s); discriminate).
  rewrite (success_rate_value _ Hne'). cbn [Session.add_action Session.actions].
  rewrite count_if_app, len_app.
  pose proof (count_if_bounds ActionRecord.success (Session.actions s)) as Hk.
  assert (Hone : len [a] = 1%Z) by reflexivity.
  assert (Hb : (ActionRecord.success a = true ->
                count_if ActionRecord.success [a] = 1%Z) /\
               (ActionRecord.success a = false ->
                count_if ActionRecord.success [a] = 0%Z)).
  { unfold count_if. simpl. split; intros ->; reflexivity. }
  destruct Hb as [Hb1 Hb0]. rewrite Hone.
  destruct (decide (Session.actions s = [])) as [Hnil | Hne].
  - unfold Session.success_rate. rewrite decide_True by exact Hnil.
    rewrite Hnil. eexists. eexists. split; [reflexivity |].
    split; [reflexivity |].
    split; intros Hs; [rewrite (Hb1 Hs) | rewrite (Hb0 Hs)]; discriminate.
  - rewrite (success_rate_value _ Hne). eexists. eexists.
    split; [reflexivity |]. split; [reflexivity |].
    pose proof (len_pos _ Hne) as Hn.
    split; intros Hs; [rewrite (Hb1 Hs) | rewrite (Hb0 Hs)];
      apply Qdiv_inject_le; lia.
Qed.

Lemma success_rate_add_action_witness :
  let click ok := ActionRecord.mk "2024-01-01T00:00:00" "click"
                    (Some "#button") None "Testing" ok "https://example.com"
                    None in
  let session := Session.mk "1a2b3c4d" "https://example.com"
                   "2024-01-01T00:00:00" "active" [click true; click false]
                   0 0 0 ∅ in
  exists r r' : Q,
    Session.success_rate session = Ok r /\
    Session.success_rate (Session.add_action session (click true)) = Ok r' /\
    (r <= r')%Q.
Proof.
  intros click session.
  destruct (success_rate_add_action session (click true))
    as (r & r' & Hr & Hr' & Hup & _).
  exists r, r'. split; [exact Hr |]. split; [exact Hr' |]. apply Hup. reflexivity.
Defined.

(** The success rate of any session lies in [0, 1]. *)
Theorem success_rate_in_unit_interval (s : Session.t) :
  exists r : Q, Session.success_rate s = Ok r /\ (0 <= r <= 1)%Q.
Proof. apply success_rate_bounds. Qed.

Lemma len_set_bounds (xs : list string) :
  (0 <= len_set xs)%Z /\ (xs <> [] -> 1 <= len_set xs)%Z.
Proof.
  unfold len_set. split; [lia |]. intros Hne.
  destruct xs as [| x xs]; [done |].
  assert (Hpos : size (list_to_set (x :: xs) : gset string) <> 0%nat).
  { apply size_non_empty_iff. intros Hempty.
    assert (Hx : x ∈ (list_to_set (x :: xs) : gset string)) by set_solver.
    rewrite Hempty in Hx. set_solver. }
  lia.
Qed.

Lemma pattern_stability_bounds (session : Session.t) :
  exists r : Q,
    ConfidenceScorer._calculate_pattern_stability session = Ok r /\
    (1 # 4 <= r <= 1)%Q.
Proof.
  destruct (decide (length (Session.actions session) < 5)%nat) as [Hlt | Hge].
  - exists 0.3%Q. unfold ConfidenceScorer._calculate_pattern_stability.
    rewrite decide_True by (unfold len; lia).
    split; [reflexivity | split; discriminate].
  - rewrite pattern_stability_value by lia. eexists. split; [reflexivity |].
    split; [| apply py_min_le_r].
    assert (Hratio :
      (0 <= inject_Z (count_if ActionRecord.success
                        (last_n 10 (Session.actions session)))
            / inject_Z (len (last_n 10 (Session.actions session))) <= 1)%Q).
    { apply ratio_bounds; [apply count_if_bounds |].
      unfold len. rewrite length_last_n. lia. }
    assert (Hkinds :
      (1 <= len_set (ActionRecord.action_type <$> Session.actions session))%Z).
    { apply len_set_bounds. destruct (Session.actions session); [simpl in Hge; lia | discriminate]. }
    assert (Hbonus :
      (1 # 4 <= py_min
                  (inject_Z (len_set (ActionRecord.action_type
                                        <$> Session.actions session))
                   / inject_Z 4) 0.3)%Q).
    { apply py_min_glb; [| discriminate].
      change (1 # 4)%Q with (inject_Z 1 / inject_Z 4)%Q.
      apply Qdiv_inject_le; lia. }
    apply py_min_glb; [| discriminate].
    destruct Hratio as [Hratio _]. lra.
Qed.

(** Pattern stability lies in [0.25, 1] for every session. *)
Theorem pattern_stability_in_range (session : Session.t) :
  exists r : Q,
    ConfidenceScorer._calculate_pattern_stability session = Ok r /\
    (1 # 4 <= r <= 1)%Q.
Proof. apply pattern_stability_bounds. Qed.

Lemma py_min_eq_r (a b : Q) : (py_min a b == b <-> b <= a)%Q.
Proof.
  unfold py_min. destruct (Qlt_le_dec b a) as [Hlt | Hle].
  - split; [intros _; apply Qlt_le_weak; exact Hlt | reflexivity].
  - split; [intros ->; apply Qle_refl | intros Hge; apply Qle_antisym; assumption].
Qed.

Lemma exploration_depth_value (session : Session.t) :
  Session.actions session <> [] ->
  ConfidenceScorer._calculate_exploration_depth session
  = Ok (py_min (inject_Z (len_set (ActionRecord.page_url
                                     <$> Session.actions session))
                / inject_Z 5) 0.5
        + py_min (inject_Z (len_set (omap ConfidenceScorer.truthy_selector
                                       (Session.actions session)))
                  / inject_Z 20) 0.5)%Q.
Proof.
  intros Hne. unfold ConfidenceScorer._calculate_exploration_depth.
  destruct (decide (Session.actions session = [])); [contradiction |].
  reflexivity.
Qed.

Lemma exploration_depth_bounds (session : Session.t) :
  exists r : Q,
    ConfidenceScorer._calculate_exploration_depth session = Ok r /\
    (0 <= r <= 1)%Q /\
    (Session.actions session = [] -> r = 0%Q) /\
    (Session.actions session <> [] -> (1 # 5 <= r)%Q).
Proof.
  destruct (decide (Session.actions session = [])) as [Hnil | Hne].
  - exists 0%Q. unfold ConfidenceScorer._calculate_exploration_depth.
    rewrite decide_True by exact Hnil.
    split; [reflexivity |]. split; [split; discriminate |].
    split; [reflexivity | contradiction].
  - rewrite (exploration_depth_value _ Hne). eexists. split; [reflexivity |].
    set (u := len_set (ActionRecord.page_url <$> Session.actions session)).
    set (n := len_set (omap ConfidenceScorer.truthy_selector
                         (Session.actions session))).
    assert (Hu : (1 <= u)%Z).
    { apply len_set_bounds. destruct (Session.actions session); [done | discriminate]. }
    assert (Hn : (0 <= n)%Z) by apply len_set_bounds.
    assert (Hu1 : (1 # 5 <= py_min (inject_Z u / inject_Z 5) 0.5)%Q).
    { apply py_min_glb; [| discriminate].
      change (1 # 5)%Q with (inject_Z 1 / inject_Z 5)%Q.
      apply Qdiv_inject_le; lia. }
    assert (Hn0 : (0 <= py_min (inject_Z n / inject_Z 20) 0.5)%Q).
    { apply py_min_glb; [| discriminate].
      apply Qle_trans with (inject_Z 0 / inject_Z 20)%Q; [discriminate |].
      apply Qdiv_inject_le; lia. }
    pose proof (py_min_le_r (inject_Z u / inject_Z 5) 0.5) as Hu2.
    pose proof (py_min_le_r (inject_Z n / inject_Z 20) 0.5) as Hn2.
    set (x := py_min (inject_Z u / inject_Z 5) 0.5) in *.
    set (y := py_min (inject_Z n / inject_Z 20) 0.5) in *.
    change 0.5%Q with (5 # 10)%Q in Hu2, Hn2.
    split; [split; lra |]. split; [contradiction | intros _; lra].
Qed.

(** Exploration depth lies in [0, 1]; it is 0 for a session without actions
    and at least 0.2 as soon as one action is recorded. *)
Theorem exploration_depth_in_range (session : Session.t) :
  exists r : Q,
    ConfidenceScorer._calculate_exploration_depth session = Ok r /\
    (0 <= r <= 1)%Q /\
    (Session.actions session = [] -> r = 0%Q) /\
    (Session.actions session <> [] -> (1 # 5 <= r)%Q).
Proof. apply exploration_depth_bounds. Qed.

Lemma exploration_depth_in_range_witness :
  let session :=
    Session.mk "1a2b3c4d" "https://example.com" "2024-01-01T00:00:00"
      "active"
      [ActionRecord.mk "2024-01-01T00:00:00" "scroll" None (Some "down")
         "Look around" true "https://example.com" None] 0 0 0 ∅ in
  exists r : Q,
    ConfidenceScorer._calculate_exploration_depth session = Ok r /\
    (1 # 5 <= r)%Q.
Proof.
  intros session.
  destruct (exploration_depth_in_range session) as (r & Hr & _ & _ & Hfloor).
  exists r. split; [exact Hr |]. apply Hfloor. discriminate.
Defined.

(** Exploration depth reaches its maximum 1.0 exactly when the actions span
    at least 3 distinct page URLs and at least 10 distinct non-empty
    selectors. *)
Theorem exploration_depth_full (session : Session.t) :
  Session.actions session <> [] ->
  exists r : Q,
    ConfidenceScorer._calculate_exploration_depth session = Ok r /\
    ((r == 1)%Q <->
     (3 <= len_set (ActionRecord.page_url <$> Session.actions session))%Z /\
     (10 <= len_set (omap ConfidenceScorer.truthy_selector
                       (Session.actions session)))%Z).
Proof.
  intros Hne. rewrite (exploration_depth_value _ Hne).
  eexists. split; [reflexivity |].
  set (u := len_set (ActionRecord.page_url <$> Session.actions session)).
  set (n := len_set (omap ConfidenceScorer.truthy_selector
                       (Session.actions session))).
  pose proof (py_min_le_r (inject_Z u / inject_Z 5) 0.5) as Hu2.
  pose proof (py_min_le_r (inject_Z n / inject_Z 20) 0.5) as Hn2.
  pose proof (py_min_eq_r (inject_Z u / inject_Z 5) 0.5) as Hu.
  pose proof (py_min_eq_r (inject_Z n / inject_Z 20) 0.5) as Hn.
  assert (Hu3 : (0.5 <= inject_Z u / inject_Z 5)%Q <-> (3 <= u)%Z).
  { change 0.5%Q with (inject_Z 5 / inject_Z 10)%Q.
    rewrite Qdiv_inject_le by lia. lia. }
  assert (Hn10 : (0.5 <= inject_Z n / inject_Z 20)%Q <-> (10 <= n)%Z).
  { change 0.5%Q with (inject_Z 5 / inject_Z 10)%Q.
    rewrite Qdiv_inject_le by lia. lia. }
  rewrite <- Hu3, <- Hn10, <- Hu, <- Hn.
  set (x := py_min (inject_Z u / inject_Z 5) 0.5) in *.
  set (y := py_min (inject_Z n / inject_Z 20) 0.5) in *.
  change 0.5%Q with (5 # 10)%Q in *. split.
  - intros Hsum. split; apply Qle_antisym; lra.
  - intros [Hx Hy]. lra.
Qed.

Lemma exploration_depth_full_witness :
  let act url sel := ActionRecord.mk "2024-01-01T00:00:00" "click" (Some sel)
                       None "Explore" true url None in
  let session :=
    Session.mk "1a2b3c4d" "https://example.com" "2024-01-01T00:00:00"
      "active"
      [act "https://example.com/a" "#s0"; act "https://example.com/a" "#s1";
       act "https://example.com/a" "#s2"; act "https://example.com/b" "#s3";
       act "https://example.com/b" "#s4"; act "https://example.com/b" "#s5";
       act "https://example.com/c" "#s6"; act "https://example.com/c" "#s7";
       act "https://example.com/c" "#s8"; act "https://example.com/c" "#s9"]
      0 0 0 ∅ in
  exists r : Q,
    ConfidenceScorer._calculate_exploration_depth session = Ok r /\ (r == 1)%Q.
Proof.
  intros act session.
  destruct (exploration_depth_full session) as (r & Hr & Hiff); [discriminate |].
  exists r. split; [exact Hr |]. apply Hiff. vm_compute. split; discriminate.
Defined.

(** ** What [update] returns *)

Lemma update_value (o : ConfidenceScorer.objects) :
  exists cov sr ps ed : Q,
    ConfidenceScorer.update o
    = (Ok (ConfidenceMetrics.mk (py_min cov 1) sr ps ed), o) /\
    cov = (if decide (Session.total_elements_found
                        (ConfidenceScorer.session_ o) > 0)%Z
           then (inject_Z (Session.elements_explored
                             (ConfidenceScorer.session_ o))
                 / inject_Z (Session.total_elements_found
                               (ConfidenceScorer.session_ o)))%Q
           else 0%Q) /\
    Session.success_rate (ConfidenceScorer.session_ o) = Ok sr /\
    ConfidenceScorer._calculate_pattern_stability (ConfidenceScorer.session_ o)
    = Ok ps /\
    ConfidenceScorer._calculate_exploration_depth (ConfidenceScorer.session_ o)
    = Ok ed.
Proof.
  destruct (success_rate_bounds (ConfidenceScorer.session_ o)) as (sr & Hsr & _).
  destruct (pattern_stability_returns (ConfidenceScorer.session_ o)) as [ps Hps].
  destruct (exploration_depth_returns (ConfidenceScorer.session_ o)) as [ed Hed].
  unfold ConfidenceScorer.update, mbind, M_bind, gets, lift, mret, M_ret.
  cbn beta iota.
  destruct (decide (Session.total_elements_found (ConfidenceScorer.session_ o) > 0)%Z)
    as [Hpos | Hneg].
  - rewrite truediv_ok by lia. rewrite Hsr, Hps, Hed.
    eexists _, sr, ps, ed. repeat split; reflexivity.
  - rewrite Hsr, Hps, Hed. eexists _, sr, ps, ed. repeat split; reflexivity.
Qed.

(** For a session whose count of explored elements is not negative,
    [update] returns four sub-scores in [0, 1], the coverage capped at 1
    even when more elements were explored than found, and a composite
    score in [0, 1]. *)
Theorem update_metrics_in_unit_interval
    (self : ConfidenceScorer.t) (session : Session.t) :
  (0 <= Session.elements_explored session)%Z ->
  exists (metrics : ConfidenceMetrics.t) (score : Q),
    fst (ConfidenceScorer.update (ConfidenceScorer.Objects self session))
    = Ok metrics /\
    (0 <= ConfidenceMetrics.coverage_score metrics <= 1)%Q /\
    (0 <= ConfidenceMetrics.success_rate metrics <= 1)%Q /\
    (0 <= ConfidenceMetrics.pattern_stability metrics <= 1)%Q /\
    (0 <= ConfidenceMetrics.exploration_depth metrics <= 1)%Q /\
    ConfidenceMetrics.weighted_score metrics = Ok score /\
    (0 <= score <= 1)%Q.
Proof.
  intros Hexp.
  destruct (update_value (ConfidenceScorer.Objects self session))
    as (cov & sr & ps & ed & Hupd & Hcov & Hsr & Hps & Hed).
  cbn [ConfidenceScorer.session_] in *.
  destruct (success_rate_bounds session) as (sr' & Hsr' & Hsrb).
  destruct (pattern_stability_bounds session) as (ps' & Hps' & Hpsb).
  destruct (exploration_depth_bounds session) as (ed' & Hed' & Hedb & _).
  assert (sr' = sr) as -> by congruence.
  assert (ps' = ps) as -> by congruence.
  assert (ed' = ed) as -> by congruence.
  assert (Hcovb : (0 <= py_min cov 1 <= 1)%Q).
  { split; [| apply py_min_le_r]. apply py_min_glb; [| discriminate].
    rewrite Hcov. destruct (decide _) as [Hpos | _]; [| discriminate].
    apply Qle_shift_div_l; [unfold Qlt; simpl; lia |].
    rewrite Qmult_0_l. unfold Qle. simpl. lia. }
  eexists _, _. rewrite Hupd. cbn [fst].
  split; [reflexivity |]. cbn [ConfidenceMetrics.coverage_score
    ConfidenceMetrics.success_rate ConfidenceMetrics.pattern_stability
    ConfidenceMetrics.exploration_depth].
  split; [exact Hcovb |]. split; [exact Hsrb |].
  split; [destruct Hpsb; split; lra |]. split; [exact Hedb |].
  rewrite weighted_score_value. split; [reflexivity |].
  cbn [ConfidenceMetrics.coverage_score ConfidenceMetrics.success_rate
    ConfidenceMetrics.pattern_stability ConfidenceMetrics.exploration_depth].
  set (c := py_min cov 1) in *.
  change 0.30%Q with (30 # 100)%Q. change 0.25%Q with (25 # 100)%Q.
  change 0.20%Q with (20 # 100)%Q.
  destruct Hcovb, Hsrb, Hpsb, Hedb. split; lra.
Qed.

(** Thirty elements explored where twenty-five were found: coverage 1. *)
Lemma update_metrics_in_unit_interval_witness :
  let session := Session.mk "1a2b3c4d" "https://example.com"
                   "2024-01-01T00:00:00" "active" [] 0 25 30 ∅ in
  exists (metrics : ConfidenceMetrics.t) (score : Q),
    fst (ConfidenceScorer.update
           (ConfidenceScorer.Objects (ConfidenceScorer.__init__ None) session))
    = Ok metrics /\
    (ConfidenceMetrics.coverage_score metrics <= 1)%Q /\
    ConfidenceMetrics.weighted_score metrics = Ok score /\
    (0 <= score <= 1)%Q.
Proof.
  intros session.
  destruct (update_metrics_in_unit_interval (ConfidenceScorer.__init__ None)
              session)
    as (metrics & score & Hm & [_ Hc] & _ & _ & _ & Hs & Hb); [simpl; lia |].
  exists metrics, score. repeat split; try assumption; apply Hb.
Defined.

(** ** Learned patterns on disk *)

Lemma learned_pattern_roundtrip (clock : string) (p : LearnedPattern.t) :
  LearnedPattern.from_dict clock (JDict (LearnedPattern.to_dict p)) = Ok p.
Proof.
  destruct p as [pid dom_ ety sel seq_ ok ko used meta].
  unfold LearnedPattern.from_dict.
  set (d := LearnedPattern.to_dict _).
  assert (Hkw : check_keywords LearnedPattern.fields d = Ok ())
    by (vm_compute; reflexivity).
  rewrite Hkw. cbn [mbind result_bind].
  assert (H1 : required as_str d "pattern_id" = Ok pid) by reflexivity.
  assert (H2 : required as_str d "domain" = Ok dom_) by reflexivity.
  assert (H3 : required as_str d "element_type" = Ok ety) by reflexivity.
  assert (H4 : required as_str d "selector_pattern" = Ok sel) by reflexivity.
  assert (H5 : required LearnedPattern.as_str_list d "action_sequence" = Ok seq_).
  { change (required LearnedPattern.as_str_list d "action_sequence")
      with (mapM_result (as_str "action_sequence") (JStr <$> seq_)).
    apply mapM_result_fmap. reflexivity. }
  assert (H6 : optional as_int d "success_count" 0%Z = Ok ok) by reflexivity.
  assert (H7 : optional as_int d "failure_count" 0%Z = Ok ko) by reflexivity.
  assert (H8 : optional as_str d "last_used" clock = Ok used) by reflexivity.
  assert (H9 : optional as_dict d "metadata" ∅ = Ok meta) by reflexivity.
  rewrite H1, H2, H3, H4, H5, H6, H7, H8, H9. reflexivity.
Qed.

(** A learned pattern written with [to_dict] is read back unchanged by
    [from_dict], whatever the clock that would fill a missing [last_used];
    a record without [last_used] gets the clock's value and zero counts. *)
Theorem learned_pattern_dict_roundtrip (clock : string) :
  (forall p : LearnedPattern.t,
     LearnedPattern.from_dict clock (JDict (LearnedPattern.to_dict p)) = Ok p) /\
  (forall pid dom_ ety sel : string,
     LearnedPattern.from_dict clock
       (JDict (dict [("pattern_id", JStr pid); ("domain", JStr dom_);
                     ("element_type", JStr ety);
                     ("selector_pattern", JStr sel);
                     ("action_sequence", JList [])]))
     = Ok (LearnedPattern.mk pid dom_ ety sel [] 0 0 clock ∅)).
Proof.
  split; [apply learned_pattern_roundtrip |].
  intros pid dom_ ety sel. vm_compute. reflexivity.
Qed.

(** With counts that are not negative, reliability never raises and lies in
    [0, 1]. *)
Theorem reliability_in_unit_interval (p : LearnedPattern.t) :
  (0 <= LearnedPattern.success_count p)%Z ->
  (0 <= LearnedPattern.failure_count p)%Z ->
  exists r : Q, LearnedPattern.reliability p = Ok r /\ (0 <= r <= 1)%Q.
Proof.
  intros Hs Hf. unfold LearnedPattern.reliability.
  destruct (decide _) as [Hzero | Hne].
  - exists 0.5%Q. split; [reflexivity | split; discriminate].
  - rewrite truediv_ok by exact Hne. eexists. split; [reflexivity |].
    apply ratio_bounds; lia.
Qed.

Lemma reliability_in_unit_interval_witness :
  exists r : Q,
    LearnedPattern.reliability
      (LearnedPattern.mk "example.com_2615" "example.com" "click" "#submit"
         ["click"] 0 7 "2024-01-01T00:00:00" ∅) = Ok r /\
    (0 <= r <= 1)%Q.
Proof.
  apply (reliability_in_unit_interval
           (LearnedPattern.mk "example.com_2615" "example.com" "click"
              "#submit" ["click"] 0 7 "2024-01-01T00:00:00" ∅));
    simpl; lia.
Defined.

(** ** Effects of the store operations *)

Lemma save_pattern_run (p : LearnedPattern.t) (e : env) (s : MemoryStore.t) :
  MemoryStore.save_pattern p e s
  = if writable e
    then (Ok (),
          MemoryStore.mk
            (<[MemoryStore.file_name (LearnedPattern.pattern_id p)
               := JDict (LearnedPattern.to_dict p)]> (MemoryStore.patterns_dir s))
            (<[LearnedPattern.pattern_id p := p]> (MemoryStore._patterns s)))
    else (Raise (OSError "cannot open file for writing"),
          MemoryStore.mk (MemoryStore.patterns_dir s)
            (<[LearnedPattern.pattern_id p := p]> (MemoryStore._patterns s))).
Proof.
  unfold MemoryStore.save_pattern. run_store. destruct (writable e); reflexivity.
Qed.

Lemma save_after_update (id : string) (p : LearnedPattern.t) (e : env)
    (s : MemoryStore.t) :
  LearnedPattern.pattern_id p = id ->
  MemoryStore.save_pattern p e (MemoryStore.set_patterns (<[id := p]>) s)
  = MemoryStore.save_pattern p e s.
Proof.
  intros <-. rewrite !save_pattern_run. cbn [MemoryStore.set_patterns
    MemoryStore._patterns MemoryStore.patterns_dir].
  rewrite insert_insert_eq. reflexivity.
Qed.

Lemma record_success_run (id : string) (e : env) (s : MemoryStore.t)
    (p : LearnedPattern.t) :
  MemoryStore._patterns s !! id = Some p ->
  LearnedPattern.pattern_id p = id ->
  MemoryStore.record_success id e s
  = MemoryStore.save_pattern
      (LearnedPattern.set_last_used (now e)
         (LearnedPattern.set_success_count
            (LearnedPattern.success_count p + 1) p)) e s.
Proof.
  intros Hp Hid. unfold MemoryStore.record_success. run_store. rewrite Hp.
  run_store. apply save_after_update. exact Hid.
Qed.

Lemma record_failure_run (id : string) (e : env) (s : MemoryStore.t)
    (p : LearnedPattern.t) :
  MemoryStore._patterns s !! id = Some p ->
  LearnedPattern.pattern_id p = id ->
  MemoryStore.record_failure id e s
  = MemoryStore.save_pattern
      (LearnedPattern.set_failure_count
         (LearnedPattern.failure_count p + 1) p) e s.
Proof.
  intros Hp Hid. unfold MemoryStore.record_failure. run_store. rewrite Hp.
  run_store. apply save_after_update. exact Hid.
Qed.

Lemma add_pattern_run (hash : string -> Z)
    (domain element_type selector action_type : string) (success : bool)
    (e : env) (s : MemoryStore.t) :
  keyed s ->
  let id := MemoryStore.pattern_id_of hash domain selector in
  let p := recorded (MemoryStore._patterns s !! id) id domain element_type
             selector action_type success e in
  LearnedPattern.pattern_id p = id /\
  snd (MemoryStore.add_pattern_from_action hash domain element_type selector
         action_type success e s)
  = snd (MemoryStore.save_pattern p e s).
Proof.
  intros Hkeyed id p.
  assert (Hid : LearnedPattern.pattern_id p = id).
  { unfold p, recorded. destruct (MemoryStore._patterns s !! id) as [q |] eqn:Hq;
      cbn [default]; destruct success; cbn; try reflexivity;
      apply (Hkeyed _ _ Hq). }
  split; [exact Hid |].
  unfold MemoryStore.add_pattern_from_action. run_store. fold id.
  unfold p, recorded in *.
  destruct (MemoryStore._patterns s !! id) as [q |] eqn:Hq; cbn [default] in *;
    run_store.
  - rewrite save_after_update by exact Hid.
    destruct (MemoryStore.save_pattern _ e s) as [[[] | ?] s']; reflexivity.
  - destruct (MemoryStore.save_pattern _ e s) as [[[] | ?] s']; reflexivity.
Qed.

(** [record_success] and [record_failure] do nothing for an identifier the
    store does not know.  For a known one, [record_success] adds one success
    and stamps [last_used], while [record_failure] adds one failure and
    leaves [last_used] as it was; no other record changes. *)
Theorem record_outcome_effect (id : string) (e : env) (s : MemoryStore.t) :
  (MemoryStore._patterns s !! id = None ->
     MemoryStore.record_success id e s = (Ok (), s) /\
     MemoryStore.record_failure id e s = (Ok (), s)) /\
  (forall p : LearnedPattern.t,
     MemoryStore._patterns s !! id = Some p ->
     LearnedPattern.pattern_id p = id ->
     MemoryStore._patterns (snd (MemoryStore.record_success id e s))
     = <[id := LearnedPattern.mk id (LearnedPattern.domain p)
                 (LearnedPattern.element_type p)
                 (LearnedPattern.selector_pattern p)
                 (LearnedPattern.action_sequence p)
                 (LearnedPattern.success_count p + 1)
                 (LearnedPattern.failure_count p) (now e)
                 (LearnedPattern.metadata p)]> (MemoryStore._patterns s) /\
     MemoryStore._patterns (snd (MemoryStore.record_failure id e s))
     = <[id := LearnedPattern.mk id (LearnedPattern.domain p)
                 (LearnedPattern.element_type p)
                 (LearnedPattern.selector_pattern p)
                 (LearnedPattern.action_sequence p)
                 (LearnedPattern.success_count p)
                 (LearnedPattern.failure_count p + 1)
                 (LearnedPattern.last_used p)
                 (LearnedPattern.metadata p)]> (MemoryStore._patterns s)).
Proof.
  split.
  - intros Hnone. unfold MemoryStore.record_success, MemoryStore.record_failure.
    run_store. rewrite Hnone. split; reflexivity.
  - intros p Hp Hid.
    rewrite (record_success_run id e s p Hp Hid),
      (record_failure_run id e s p Hp Hid), !save_pattern_run.
    destruct p; simpl in Hid; subst id.
    destruct (writable e); split; reflexivity.
Qed.

Lemma record_outcome_effect_witness :
  let p := LearnedPattern.mk "example.com_2615" "example.com" "click"
             "#submit" ["click"] 3 1 "2024-01-01T00:00:00" ∅ in
  let s := MemoryStore.mk ∅ {["example.com_2615" := p]} in
  let e := Env "2024-06-30T12:00:00" true in
  MemoryStore.record_failure "example.com_0000" e s = (Ok (), s) /\
  LearnedPattern.last_used
    <$> MemoryStore._patterns
          (snd (MemoryStore.record_failure "example.com_2615" e s))
        !! "example.com_2615" = Some "2024-01-01T00:00:00" /\
  LearnedPattern.last_used
    <$> MemoryStore._patterns
          (snd (MemoryStore.record_success "example.com_2615" e s))
        !! "example.com_2615" = Some "2024-06-30T12:00:00".
Proof.
  intros p s e.
  destruct (record_outcome_effect "example.com_0000" e s) as [Hnone _].
  destruct (record_outcome_effect "example.com_2615" e s) as [_ Hsome].
  destruct (Hsome p) as [Hok Hko]; [reflexivity | reflexivity |].
  split; [apply Hnone; reflexivity |].
  rewrite Hok, Hko, !lookup_insert_eq. split; reflexivity.
Defined.

(** [add_pattern_from_action] leaves at the identifier of (domain,
    selector) the record found there with one more success or failure and
    a fresh [last_used] (its domain, element kind, selector and action
    sequence untouched), or a new record with a single outcome; every other
    record of the index is unchanged, whether or not the file write
    succeeds. *)
Theorem add_pattern_effect (hash : string -> Z)
    (domain element_type selector action_type : string) (success : bool)
    (e : env) (s : MemoryStore.t) :
  keyed s ->
  let id := MemoryStore.pattern_id_of hash domain selector in
  let after := snd (MemoryStore.add_pattern_from_action hash domain
                      element_type selector action_type success e s) in
  exists p : LearnedPattern.t,
    MemoryStore._patterns after = <[id := p]> (MemoryStore._patterns s) /\
    LearnedPattern.last_used p = now e /\
    match MemoryStore._patterns s !! id with
    | Some q =>
        LearnedPattern.domain p = LearnedPattern.domain q /\
        LearnedPattern.element_type p = LearnedPattern.element_type q /\
        LearnedPattern.selector_pattern p = LearnedPattern.selector_pattern q /\
        LearnedPattern.action_sequence p = LearnedPattern.action_sequence q /\
        (LearnedPattern.success_count p, LearnedPattern.failure_count p)
        = (if success
           then (LearnedPattern.success_count q + 1,
                 LearnedPattern.failure_count q)
           else (LearnedPattern.success_count q,
                 LearnedPattern.failure_count q + 1))%Z
    | None =>
        p = LearnedPattern.mk id domain element_type selector [action_type]
              (if success then 1 else 0) (if success then 0 else 1) (now e) ∅
    end.
Proof.
  intros Hkeyed id after.
  destruct (add_pattern_run hash domain element_type selector action_type
              success e s Hkeyed) as [Hid Hrun].
  fold id in Hid, Hrun. unfold after. rewrite Hrun, save_pattern_run.
  eexists. split.
  { destruct (writable e); cbn [snd MemoryStore._patterns]; rewrite Hid;
      reflexivity. }
  unfold recorded.
  destruct (MemoryStore._patterns s !! id) as [q |]; cbn [default];
    destruct success; cbn; repeat split; reflexivity.
Qed.

Lemma add_pattern_effect_witness :
  let h := CPython.str_hash (CPython.secret_of_seed 1) in
  let e := Env "2024-06-30T12:00:00" false in
  let after := snd (MemoryStore.add_pattern_from_action h "example.com"
                      "button" "#submit" "click" false e (MemoryStore.mk ∅ ∅)) in
  MemoryStore._patterns after
  = {["example.com_2615" :=
        LearnedPattern.mk "example.com_2615" "example.com" "button" "#submit"
          ["click"] 0 1 "2024-06-30T12:00:00" ∅]}.
Proof.
  intros h e after.
  destruct (add_pattern_effect h "example.com" "button" "#submit" "click"
              false e (MemoryStore.mk ∅ ∅)) as (p & Hidx & _ & Hnew).
  { intros id q Hq. cbn in Hq. rewrite lookup_empty in Hq. discriminate. }
  unfold after. rewrite Hidx.
  change (MemoryStore.pattern_id_of h "example.com" "#submit")
    with "example.com_2615" in *.
  cbn [MemoryStore._patterns] in *. rewrite lookup_empty in Hnew.
  rewrite Hnew. reflexivity.
Defined.

(** ** Restarting a store on its directory *)

Lemma file_name_inj (a b : string) :
  MemoryStore.file_name a = MemoryStore.file_name b -> a = b.
Proof. apply append_inj_l. Qed.

Lemma substring_skip (prefix s : string) (n : nat) :
  String.substring (String.length prefix) n (prefix +:+ s)
  = String.substring 0 n s.
Proof. induction prefix as [| c prefix IH]; simpl; [reflexivity | exact IH]. Qed.

Lemma is_json_file_file_name (id : string) :
  MemoryStore.is_json_file (MemoryStore.file_name id) = true.
Proof.
  unfold MemoryStore.is_json_file, MemoryStore.file_name.
  apply bool_decide_eq_true. rewrite string_length_append. cbn [String.length].
  split; [lia |].
  replace (String.length id + 5 - 5)%nat with (String.length id) by lia.
  rewrite substring_skip. reflexivity.
Qed.

(** What a record of the directory loads to. *)
Lemma load_patterns_lookup (clock : string) (dir : directory) :
  (forall name doc, dir !! name = Some doc ->
     exists p, doc = JDict (LearnedPattern.to_dict p) /\
               name = MemoryStore.file_name (LearnedPattern.pattern_id p)) ->
  forall id,
    MemoryStore._load_patterns clock dir !! id
    = match dir !! MemoryStore.file_name id with
      | Some doc =>
          match LearnedPattern.from_dict clock doc with
          | Ok p => Some p
          | Raise _ => None
          end
      | None => None
      end.
Proof.
  unfold MemoryStore._load_patterns.
  apply (map_fold_weak_ind
           (fun (r : gmap string LearnedPattern.t) (m : directory) =>
              (forall name doc, m !! name = Some doc ->
                 exists p, doc = JDict (LearnedPattern.to_dict p) /\
                           name = MemoryStore.file_name
                                    (LearnedPattern.pattern_id p)) ->
              forall id,
                r !! id
                = match m !! MemoryStore.file_name id with
                  | Some doc =>
                      match LearnedPattern.from_dict clock doc with
                      | Ok p => Some p
                      | Raise _ => None
                      end
                  | None => None
                  end)).
  - intros _ id. rewrite !lookup_empty. reflexivity.
  - intros name doc m r Hfresh IH Hwf id.
    destruct (Hwf name doc) as (p & -> & ->); [apply lookup_insert_eq |].
    rewrite is_json_file_file_name, learned_pattern_roundtrip.
    assert (Hwf' : forall name doc, m !! name = Some doc ->
                     exists p, doc = JDict (LearnedPattern.to_dict p) /\
                               name = MemoryStore.file_name
                                        (LearnedPattern.pattern_id p)).
    { intros name' doc' Hin. apply Hwf. rewrite lookup_insert_ne; [exact Hin |].
      intros <-. congruence. }
    destruct (decide (id = LearnedPattern.pattern_id p)) as [-> | Hne].
    + rewrite !lookup_insert_eq, learned_pattern_roundtrip. reflexivity.
    + rewrite lookup_insert_ne by congruence.
      rewrite lookup_insert_ne by (intros Heq; apply file_name_inj in Heq; congruence).
      apply IH. exact Hwf'.
Qed.

Lemma load_synced (clock : string) (s : MemoryStore.t) :
  synced s ->
  MemoryStore._load_patterns clock (MemoryStore.patterns_dir s)
  = MemoryStore._patterns s.
Proof.
  intros [Hkeyed Hpers]. apply map_eq. intros id.
  rewrite load_patterns_lookup.
  2:{ intros name doc Hin. apply Hpers in Hin as (p & _ & -> & ->). eauto. }
  destruct (MemoryStore._patterns s !! id) as [p |] eqn:Hp.
  - pose proof (Hkeyed _ _ Hp) as Hid. subst id.
    assert (Hfile : MemoryStore.patterns_dir s
                    !! MemoryStore.file_name (LearnedPattern.pattern_id p)
                    = Some (JDict (LearnedPattern.to_dict p))).
    { apply Hpers. eauto. }
    rewrite Hfile, learned_pattern_roundtrip. reflexivity.
  - destruct (MemoryStore.patterns_dir s !! MemoryStore.file_name id)
      as [doc |] eqn:Hdoc; [| reflexivity].
    apply Hpers in Hdoc as (p & Hin & Hname & _).
    apply file_name_inj in Hname. subst id. congruence.
Qed.

Lemma save_pattern_synced (p : LearnedPattern.t) (e : env) (s : MemoryStore.t) :
  writable e = true -> synced s ->
  synced (snd (MemoryStore.save_pattern p e s)).
Proof.
  intros Hw [Hkeyed Hpers]. rewrite save_pattern_run, Hw. cbn [snd]. split.
  - intros id q. cbn [MemoryStore._patterns].
    destruct (decide (id = LearnedPattern.pattern_id p)) as [-> | Hne].
    + rewrite lookup_insert_eq. congruence.
    + rewrite lookup_insert_ne by congruence. apply Hkeyed.
  - intros name doc. cbn [MemoryStore._patterns MemoryStore.patterns_dir].
    destruct (decide (name = MemoryStore.file_name (LearnedPattern.pattern_id p)))
      as [-> | Hne].
    + rewrite lookup_insert_eq. split.
      * intros [= <-]. exists p. rewrite lookup_insert_eq. eauto.
      * intros (q & Hq & Hname & ->). apply file_name_inj in Hname.
        rewrite <- Hname, lookup_insert_eq in Hq. congruence.
    + rewrite lookup_insert_ne by congruence. split.
      * intros Hin. apply Hpers in Hin as (q & Hq & -> & ->). exists q.
        rewrite lookup_insert_ne by congruence. eauto.
      * intros (q & Hq & -> & ->). apply Hpers. exists q.
        rewrite lookup_insert_ne in Hq by congruence. eauto.
Qed.

Lemma perform_synced (hash : string -> Z) (fmt_percent : Q -> string)
    (op : MemoryStore.operation) (e : env) (s : MemoryStore.t) :
  writable e = true -> synced s ->
  synced (MemoryStore.perform hash fmt_percent op e s).
Proof.
  intros Hw Hs.
  destruct op as [p | d | k | k | d n | d ety sel aty ok]; cbn [MemoryStore.perform].
  - apply save_pattern_synced; assumption.
  - exact Hs.
  - destruct (MemoryStore._patterns s !! k) as [p |] eqn:Hp.
    + rewrite (record_success_run k e s p Hp (proj1 Hs _ _ Hp)).
      apply save_pattern_synced; assumption.
    + unfold MemoryStore.record_success. run_store. rewrite Hp. exact Hs.
  - destruct (MemoryStore._patterns s !! k) as [p |] eqn:Hp.
    + rewrite (record_failure_run k e s p Hp (proj1 Hs _ _ Hp)).
      apply save_pattern_synced; assumption.
    + unfold MemoryStore.record_failure. run_store. rewrite Hp. exact Hs.
  - unfold MemoryStore.get_context_for_llm, MemoryStore.get_patterns_for_domain.
    run_store. destruct (decide _); [exact Hs |].
    run_store. destruct (mapM_result _ _); exact Hs.
  - destruct (add_pattern_run hash d ety sel aty ok e s (proj1 Hs)) as [_ ->].
    apply save_pattern_synced; assumption.
Qed.

(** Write-through persistence: after any run of store operations whose
    file writes succeed, started from a store that agrees with its
    directory, the store still agrees with its directory, and a new store
    opened on that directory (at any later time) has exactly the same
    index. *)
Theorem restart_reloads_index (hash : string -> Z) (fmt_percent : Q -> string)
    (ops : list (MemoryStore.operation * env)) (clock : string)
    (s : MemoryStore.t) :
  synced s ->
  Forall (fun oe => writable (snd oe) = true) ops ->
  synced (MemoryStore.run hash fmt_percent ops s) /\
  MemoryStore.__init__ clock
    (MemoryStore.patterns_dir (MemoryStore.run hash fmt_percent ops s))
  = MemoryStore.run hash fmt_percent ops s.
Proof.
  intros Hs Hops.
  assert (Hrun : synced (MemoryStore.run hash fmt_percent ops s)).
  { revert s Hs. induction Hops as [| [op e] ops Hw _ IH]; intros s Hs.
    - exact Hs.
    - cbn [MemoryStore.run]. apply IH. apply perform_synced; assumption. }
  split; [exact Hrun |].
  unfold MemoryStore.__init__. rewrite (load_synced clock _ Hrun).
  destruct (MemoryStore.run hash fmt_percent ops s). reflexivity.
Qed.

Lemma restart_reloads_index_witness :
  let h := CPython.str_hash (CPython.secret_of_seed 1) in
  let e := Env "2024-06-30T12:00:00" true in
  let ops := [(MemoryStore.AddPatternFromAction "example.com" "click"
                 "#submit" "click" true, e);
              (MemoryStore.RecordFailure "example.com_2615", e);
              (MemoryStore.AddPatternFromAction "example.com" "type"
                 "#email" "type" false, e)] in
  let s := MemoryStore.run h (fun _ => "") ops (MemoryStore.mk ∅ ∅) in
  MemoryStore.__init__ "2025-01-01T00:00:00" (MemoryStore.patterns_dir s) = s.
Proof.
  intros h e ops s.
  apply (restart_reloads_index h (fun _ => "") ops "2025-01-01T00:00:00"
           (MemoryStore.mk ∅ ∅)).
  - split.
    + intros id p Hp. cbn in Hp. rewrite lookup_empty in Hp. discriminate.
    + intros name doc. cbn. rewrite lookup_empty. split; [discriminate |].
      intros (p & Hp & _). rewrite lookup_empty in Hp. discriminate.
  - repeat constructor.
Defined.

(** ** Colliding identifiers and queries *)

Lemma save_pattern_keyed (p : LearnedPattern.t) (e : env) (s : MemoryStore.t) :
  keyed s -> keyed (snd (MemoryStore.save_pattern p e s)).
Proof.
  intros Hkeyed id q. rewrite save_pattern_run.
  destruct (writable e); cbn [snd MemoryStore._patterns];
    (destruct (decide (id = LearnedPattern.pattern_id p)) as [-> | Hne];
     [rewrite lookup_insert_eq; congruence
     | rewrite lookup_insert_ne by congruence; apply Hkeyed]).
Qed.

(** Two selectors of one domain whose hashes agree modulo 10000 share one
    record: the outcome of the second is counted on the record the first
    one opened, which keeps the first selector and element kind, and the
    index grows by one record, not two. *)
Theorem colliding_selectors_share_a_record (hash : string -> Z)
    (domain ety1 sel1 aty1 ety2 sel2 aty2 : string) (ok1 ok2 : bool)
    (e1 e2 : env) (s : MemoryStore.t) :
  (hash sel1 mod 10000 = hash sel2 mod 10000)%Z ->
  keyed s ->
  MemoryStore._patterns s !! MemoryStore.pattern_id_of hash domain sel1 = None ->
  let after :=
    snd (MemoryStore.add_pattern_from_action hash domain ety2 sel2 aty2 ok2 e2
           (snd (MemoryStore.add_pattern_from_action hash domain ety1 sel1
                   aty1 ok1 e1 s))) in
  exists p : LearnedPattern.t,
    MemoryStore._patterns after
    = <[MemoryStore.pattern_id_of hash domain sel1 := p]>
        (MemoryStore._patterns s) /\
    LearnedPattern.selector_pattern p = sel1 /\
    LearnedPattern.element_type p = ety1 /\
    LearnedPattern.action_sequence p = [aty1] /\
    (LearnedPattern.success_count p + LearnedPattern.failure_count p = 2)%Z /\
    size (MemoryStore._patterns after) = S (size (MemoryStore._patterns s)).
Proof.
  intros Hhash Hkeyed Hfresh after.
  assert (Hid : MemoryStore.pattern_id_of hash domain sel2
                = MemoryStore.pattern_id_of hash domain sel1).
  { unfold MemoryStore.pattern_id_of. rewrite Hhash. reflexivity. }
  destruct (add_pattern_run hash domain ety1 sel1 aty1 ok1 e1 s Hkeyed)
    as [Hid1 Hrun1].
  set (s1 := snd (MemoryStore.add_pattern_from_action hash domain ety1 sel1
                    aty1 ok1 e1 s)) in *.
  assert (Hkeyed1 : keyed s1).
  { rewrite Hrun1. apply save_pattern_keyed. exact Hkeyed. }
  destruct (add_pattern_run hash domain ety2 sel2 aty2 ok2 e2 s1 Hkeyed1)
    as [Hid2 Hrun2].
  unfold after. rewrite Hrun2. rewrite Hid in *.
  set (id := MemoryStore.pattern_id_of hash domain sel1) in *.
  rewrite Hfresh in *.
  assert (Hidx1 : MemoryStore._patterns s1
                  = <[id := recorded None id domain ety1 sel1 aty1 ok1 e1]>
                      (MemoryStore._patterns s)).
  { rewrite Hrun1, save_pattern_run.
    destruct (writable e1); cbn [snd MemoryStore._patterns]; rewrite Hid1;
      reflexivity. }
  rewrite Hidx1, lookup_insert_eq in *.
  set (p2 := recorded (Some (recorded None id domain ety1 sel1 aty1 ok1 e1))
               id domain ety2 sel2 aty2 ok2 e2) in *.
  assert (Hidx2 : MemoryStore._patterns (snd (MemoryStore.save_pattern p2 e2 s1))
                  = <[id := p2]> (MemoryStore._patterns s)).
  { rewrite save_pattern_run.
    destruct (writable e2); cbn [snd MemoryStore._patterns];
      rewrite Hid2, Hidx1, insert_insert_eq; reflexivity. }
  exists p2. rewrite Hidx2. split; [reflexivity |].
  split; [unfold p2, recorded; destruct ok1, ok2; reflexivity |].
  split; [unfold p2, recorded; destruct ok1, ok2; reflexivity |].
  split; [unfold p2, recorded; destruct ok1, ok2; reflexivity |].
  split; [unfold p2, recorded; destruct ok1, ok2; reflexivity |].
  apply map_size_insert_None. exact Hfresh.
Qed.

(** Under [PYTHONHASHSEED=1] the selectors "#item-56" and "#item-102" both
    hash to 8917 modulo 10000. *)
Lemma colliding_selectors_share_a_record_witness :
  let h := CPython.str_hash (CPython.secret_of_seed 1) in
  let e := Env "2024-06-30T12:00:00" true in
  let after :=
    snd (MemoryStore.add_pattern_from_action h "example.com" "type"
           "#item-102" "type" false e
           (snd (MemoryStore.add_pattern_from_action h "example.com" "click"
                   "#item-56" "click" true e (MemoryStore.mk ∅ ∅)))) in
  exists p : LearnedPattern.t,
    MemoryStore._patterns after = {["example.com_8917" := p]} /\
    LearnedPattern.selector_pattern p = "#item-56" /\
    (LearnedPattern.success_count p + LearnedPattern.failure_count p = 2)%Z.
Proof.
  intros h e after.
  destruct (colliding_selectors_share_a_record h "example.com" "click"
              "#item-56" "click" "type" "#item-102" "type" true false e e
              (MemoryStore.mk ∅ ∅))
    as (p & Hidx & Hsel & _ & _ & Hcount & _).
  - vm_compute. reflexivity.
  - intros id q Hq. cbn in Hq. rewrite lookup_empty in Hq. discriminate.
  - apply lookup_empty.
  - exists p. split; [| split; assumption].
    unfold after. rewrite Hidx.
    change (MemoryStore.pattern_id_of h "example.com" "#item-56")
      with "example.com_8917".
    reflexivity.
Defined.

(** [get_patterns_for_domain] returns exactly the records of the index
    whose domain is the one asked for, and changes nothing; after
    [save_pattern] the saved record is among those of its domain, even when
    the file write failed. *)
Theorem get_patterns_for_domain_spec (domain : string) (s : MemoryStore.t) :
  (exists ps : list LearnedPattern.t,
     MemoryStore.get_patterns_for_domain domain s = (Ok ps, s) /\
     forall p, p ∈ ps <->
               (exists id, MemoryStore._patterns s !! id = Some p) /\
               LearnedPattern.domain p = domain) /\
  (forall (p : LearnedPattern.t) (e : env),
     exists ps,
       fst (MemoryStore.get_patterns_for_domain (LearnedPattern.domain p)
              (snd (MemoryStore.save_pattern p e s))) = Ok ps /\
       p ∈ ps).
Proof.
  assert (Hspec : forall d (s0 : MemoryStore.t) p,
    p ∈ List.filter (fun p => bool_decide (LearnedPattern.domain p = d))
          (snd <$> map_to_list (MemoryStore._patterns s0))
    <-> (exists id, MemoryStore._patterns s0 !! id = Some p) /\
        LearnedPattern.domain p = d).
  { intros d s0 p. rewrite list_elem_of_In, List.filter_In, <- list_elem_of_In.
    rewrite bool_decide_eq_true, list_elem_of_fmap. split.
    - intros [([id q] & -> & Hin) Hd]. apply elem_of_map_to_list in Hin.
      split; [eauto | exact Hd].
    - intros [[id Hin] Hd]. split; [| exact Hd].
      exists (id, p). split; [reflexivity |]. apply elem_of_map_to_list. exact Hin. }
  split.
  - eexists. split; [reflexivity |]. intros p. apply Hspec.
  - intros p e. eexists. split; [reflexivity |]. apply Hspec.
    split; [| reflexivity]. exists (LearnedPattern.pattern_id p).
    rewrite save_pattern_run.
    destruct (writable e); cbn [snd MemoryStore._patterns];
      apply lookup_insert_eq.
Qed.

(** ** The browser agent *)

Lemma length_substring_0 (n : nat) (s : string) :
  String.length (String.substring 0 n s) = Nat.min n (String.length s).
Proof.
  revert n. induction s as [| c s IH]; intros [| n]; simpl; try reflexivity.
  rewrite IH. reflexivity.
Qed.

Lemma str_len_append (a b : string) : str_len (a +:+ b) = (str_len a + str_len b)%Z.
Proof. unfold str_len. rewrite string_length_append. lia. Qed.

Lemma str_len_take (n : Z) (s : string) :
  (0 <= n)%Z -> str_len (str_take n s) = Z.min n (str_len s).
Proof.
  intros Hn. unfold str_len, str_take. rewrite length_substring_0. lia.
Qed.

(** The preview of an element's text is the text itself up to 50
    characters and otherwise its first 50 characters followed by three
    dots, 53 characters in all; the simplified DOM handed on is the page's
    text up to 15000 characters and at most 15019 characters long. *)
Theorem previews_are_bounded (e : Element.t) (dom : string) :
  ((str_len (Element.text e) <= 50)%Z ->
     Element.text_preview e = Element.text e) /\
  ((50 < str_len (Element.text e))%Z ->
     Element.text_preview e = str_take 50 (Element.text e) +:+ "..." /\
     str_len (Element.text_preview e) = 53%Z) /\
  ((str_len dom <= 15000)%Z -> BrowserAgent.truncate_dom dom = dom) /\
  (str_len (BrowserAgent.truncate_dom dom) <= 15019)%Z.
Proof.
  unfold Element.text_preview, BrowserAgent.truncate_dom.
  split; [| split; [| split]].
  - intros Hle. destruct (decide _); [lia | reflexivity].
  - intros Hgt. destruct (decide _); [| lia]. split; [reflexivity |].
    rewrite str_len_append, str_len_take by lia.
    change (str_len "...") with 3%Z. lia.
  - intros Hle. destruct (decide _); [lia | reflexivity].
  - destruct (decide _); [| lia].
    rewrite str_len_append, str_len_take by lia.
    change (str_len (String (ascii_of_nat 10) "<!-- truncated -->")) with 19%Z.
    lia.
Qed.

Lemma previews_are_bounded_witness :
  let e := Element.mk "a" "#more" "Read the full terms and conditions of this offer here"
             "link" ∅ None in
  Element.text_preview e
  = "Read the full terms and conditions of this offer h..." /\
  Element.__str__ e
  = "[link] a: Read the full terms and conditions of this offer h...".
Proof.
  intros e.
  destruct (previews_are_bounded e "") as (_ & Hlong & _).
  destruct Hlong as [Hpreview _]; [vm_compute; reflexivity |].
  unfold Element.__str__. rewrite Hpreview. split; reflexivity.
Defined.

Section Browser.

Variable W : Type.
Variable handle : Type.
Variable launched : W -> bool.
Variable wait_for_selector : string -> string -> IO W (option handle).
Variable click : string -> IO W unit.
Variable fill : string -> string -> IO W unit.
Variable hover : string -> IO W unit.
Variable goto : string -> IO W unit.
Variable scroll_by : Z -> IO W unit.
Variable page_url : IO W string.
Variable sleep : Q -> IO W unit.
Variable is_slider : handle -> IO W bool.
Variable get_slider_info : handle -> IO W BrowserAgent.slider_info.
Variable set_range_value : handle -> string -> IO W unit.
Variable focus : handle -> IO W unit.
Variable get_attribute : handle -> string -> IO W (option string).
Variable press : handle -> string -> IO W unit.
Variable tag_name : handle -> IO W string.
Variable py_int : string -> outcome Z.
Variable py_float : string -> outcome Q.
Variable str_float : Q -> string.
Variable action_delay_ms : Z.

Let execute :=
  BrowserAgent.execute_action W handle launched wait_for_selector click fill
    hover goto scroll_by page_url sleep is_slider get_slider_info
    set_range_value focus get_attribute press py_int py_float str_float
    action_delay_ms.

Let build_selector := BrowserAgent._build_selector W handle tag_name.

Ltac run_io :=
  unfold mbind, IO_bind, mret, IO_ret, throw, ActionResult.__init__,
    BrowserAgent.lift_outcome; cbn beta iota.

(** Before the browser is launched [execute_action] raises [RuntimeError]
    and touches nothing; once it is launched it never raises, whatever the
    page does: every exception of the page ends up in a failed result whose
    [error] is its text. *)
Theorem execute_action_raises_only_before_launch
    (action_type : string) (selector value : option string) (w : W) :
  (launched w = false ->
     execute action_type selector value w
     = (Throw (Error "RuntimeError" "Browser not launched."), w)) /\
  (launched w = true ->
     exists (r : ActionResult.t) (w' : W),
       execute action_type selector value w = (Return r, w')).
Proof.
  unfold execute, BrowserAgent.execute_action. split; intros ->.
  - reflexivity.
  - unfold try_except.
    match goal with
    | |- context [match ?d with _ => _ end] => destruct d as [[r | e] w']
    end; [eauto |].
    run_io. eauto.
Qed.

Lemma preprocess_falsy (selector : option string) :
  truthy selector = None ->
  match truthy selector with
  | Some sel =>
      if contains ":contains(" sel
      then Some (str_replace ":contains(" ":has-text(" sel)
      else selector
  | None => selector
  end = selector.
Proof. intros ->. reflexivity. Qed.

Lemma type_into_missing (selector value : option string) (w : W) :
  truthy selector = None \/ value = None ->
  BrowserAgent.type_into W handle wait_for_selector fill sleep is_slider
    get_slider_info set_range_value focus get_attribute press py_int
    selector value w
  = (Throw (Error "TypeError"
              "ActionResult.__init__() missing 1 required positional argument: 'message'"),
     w).
Proof.
  intros [Hsel | ->]; unfold BrowserAgent.type_into.
  - rewrite Hsel. reflexivity.
  - destruct (truthy selector); reflexivity.
Qed.

(** Requests that fail validation leave the page untouched.  A hover
    without selector, a navigation without URL and an unknown action kind
    are answered with the message written for them.  A click without
    selector, and a type without selector or without value, are answered
    with "Action failed: ..." and the [TypeError] of the result's own
    constructor: the result meant for them is built without its required
    [message]. *)
Theorem execute_action_validation
    (action_type : string) (selector value : option string) (w : W) :
  launched w = true ->
  let missing := "ActionResult.__init__() missing 1 required positional argument: 'message'" in
  (truthy selector = None ->
     execute "click" selector value w
     = (Return (ActionResult.mk false "Action failed: click" None (Some missing)), w) /\
     execute "hover" selector value w
     = (Return (ActionResult.mk false "Hover requires a selector" None None), w)) /\
  (truthy selector = None \/ value = None ->
     execute "type" selector value w
     = (Return (ActionResult.mk false "Action failed: type" None (Some missing)), w)) /\
  (truthy value = None ->
     execute "navigate" selector value w
     = (Return (ActionResult.mk false "Navigate requires a URL" None None), w)) /\
  (action_type ∉ ["click"; "type"; "scroll"; "hover"; "wait"; "navigate"] ->
     execute action_type selector value w
     = (Return (ActionResult.mk false ("Unknown action type: " +:+ action_type)
                  None None), w)).
Proof.
  intros Hl missing. unfold execute, BrowserAgent.execute_action. rewrite Hl.
  split; [| split; [| split]].
  - intros Hsel. rewrite Hsel. unfold try_except, BrowserAgent.dispatch.
    cbn. rewrite Hsel. split; reflexivity.
  - intros Hmiss. unfold try_except, BrowserAgent.dispatch.
    destruct (decide ("type" = "click")) as [Habs | _]; [discriminate |].
    destruct (decide ("type" = "type")) as [_ | Habs]; [| contradiction].
    rewrite type_into_missing; [reflexivity |].
    destruct Hmiss as [Hsel | Hval]; [left | right; exact Hval].
    rewrite Hsel. exact Hsel.
  - intros Hval. unfold try_except, BrowserAgent.dispatch. cbn.
    rewrite Hval. reflexivity.
  - intros Hkind. unfold try_except, BrowserAgent.dispatch.
    repeat (destruct (decide _) as [-> | _];
            [exfalso; apply Hkind; apply list_elem_of_In; simpl; auto 10 |]).
    reflexivity.
Qed.

(** Typing into a slider that is a standard range input sets the value on
    the page and then reports a failure: the message of the result needs
    [final], which is not bound on that path. *)
Theorem range_slider_reports_failure
    (sel val : string) (element : handle) (info : BrowserAgent.slider_info)
    (target : Z) (w w1 w2 w3 w4 : W) :
  launched w = true ->
  sel <> "" ->
  contains ":contains(" sel = false ->
  wait_for_selector sel "attached" w = (Return (Some element), w1) ->
  is_slider element w1 = (Return true, w2) ->
  get_slider_info element w2 = (Return info, w3) ->
  BrowserAgent.isRange info = true ->
  py_int val = Return target ->
  set_range_value element (str_int target) w3 = (Return (), w4) ->
  execute "type" (Some sel) (Some val) w
  = (Return (ActionResult.mk false "Action failed: type" None
               (Some "cannot access local variable 'final' where it is not associated with a value")),
     w4).
Proof.
  intros Hl Hsel Hcontains Hwait Hslider Hinfo Hrange Hint Hset.
  unfold execute, BrowserAgent.execute_action. rewrite Hl.
  assert (Htruthy : truthy (Some sel) = Some sel).
  { unfold truthy. destruct (decide (sel = "")); [contradiction | reflexivity]. }
  rewrite Htruthy, Hcontains.
  unfold try_except, BrowserAgent.dispatch, BrowserAgent.type_into.
  cbn [decide]. rewrite Htruthy.
  destruct (decide ("type" = "click")) as [Habs | _]; [discriminate |].
  destruct (decide ("type" = "type")) as [_ | Habs]; [| contradiction].
  run_io. rewrite Hwait, Hslider, Hinfo, Hint, Hrange, Hset. reflexivity.
Qed.

(** An element with an [id] is addressed by it, without asking the page;
    and since the attributes read from the page never include
    [data-testid], an element without id and name is addressed by its
    [aria-label] or else by its position. *)
Theorem build_selector_priority (element : handle) (attrs : gmap string string)
    (index : Z) (w : W) :
  (forall id, truthy (attrs !! "id") = Some id ->
     build_selector element attrs index w = (Return ("#" +:+ id), w)) /\
  (dom attrs ⊆ list_to_set BrowserAgent.extracted_attributes ->
   truthy (attrs !! "id") = None ->
   truthy (attrs !! "name") = None ->
     build_selector element attrs index w
     = match truthy (attrs !! "aria-label") with
       | Some label => (Return ("[aria-label='" +:+ label +:+ "']"), w)
       | None =>
           match tag_name element w with
           | (Return tag, w') =>
               (Return (tag +:+ ":nth-of-type(" +:+ str_int (index + 1) +:+ ")"),
                w')
           | (Throw e, w') => (Throw e, w')
           end
       end).
Proof.
  unfold build_selector, BrowserAgent._build_selector. split.
  - intros id ->. reflexivity.
  - intros Hdom -> ->.
    assert (Hnone : attrs !! "data-testid" = None).
    { apply not_elem_of_dom. intros Hin. apply Hdom in Hin.
      apply elem_of_list_to_set, list_elem_of_In in Hin. simpl in Hin.
      repeat (destruct Hin as [Hin | Hin]; [discriminate |]). exact Hin. }
    rewrite Hnone. cbn [truthy].
    destruct (truthy (attrs !! "aria-label")); [reflexivity |].
    run_io. destruct (tag_name element w) as [[tag | e] w']; reflexivity.
Qed.

End Browser.

Lemma execute_action_raises_only_before_launch_witness :
  RecordingPage.execute_action false "scroll" None None []
  = (Throw (Error "RuntimeError" "Browser not launched."), []) /\
  exists r w',
    RecordingPage.execute_action true "wait" None (Some "soon") []
    = (Return r, w').
Proof.
  split.
  - apply (execute_action_raises_only_before_launch RecordingPage.world string
             (fun _ => false)). reflexivity.
  - apply (execute_action_raises_only_before_launch RecordingPage.world string
             (fun _ => true)). reflexivity.
Defined.

Lemma execute_action_validation_witness :
  RecordingPage.execute_action true "click" (Some "") None []
  = (Return (ActionResult.mk false "Action failed: click" None
               (Some "ActionResult.__init__() missing 1 required positional argument: 'message'")),
     []) /\
  RecordingPage.execute_action true "drag" (Some "#handle") None []
  = (Return (ActionResult.mk false "Unknown action type: drag" None None), []).
Proof.
  split.
  - destruct (execute_action_validation RecordingPage.world string
                (fun _ => true) RecordingPage.wait_for_selector
                (RecordingPage.on_selector "click") RecordingPage.fill
                (RecordingPage.on_selector "hover")
                (RecordingPage.on_selector "goto") RecordingPage.scroll_by
                RecordingPage.page_url RecordingPage.sleep
                RecordingPage.is_slider RecordingPage.get_slider_info
                RecordingPage.set_range_value
                (RecordingPage.on_selector "focus") RecordingPage.get_attribute
                RecordingPage.press RecordingPage.py_int RecordingPage.py_float
                (fun _ => "1.0") 500 "click" (Some "") None [] eq_refl)
      as (Hclick & _).
    apply Hclick. reflexivity.
  - destruct (execute_action_validation RecordingPage.world string
                (fun _ => true) RecordingPage.wait_for_selector
                (RecordingPage.on_selector "click") RecordingPage.fill
                (RecordingPage.on_selector "hover")
                (RecordingPage.on_selector "goto") RecordingPage.scroll_by
                RecordingPage.page_url RecordingPage.sleep
                RecordingPage.is_slider RecordingPage.get_slider_info
                RecordingPage.set_range_value
                (RecordingPage.on_selector "focus") RecordingPage.get_attribute
                RecordingPage.press RecordingPage.py_int RecordingPage.py_float
                (fun _ => "1.0") 500 "drag" (Some "#handle") None [] eq_refl)
      as (_ & _ & _ & Hunknown).
    apply Hunknown.
    intros Hin. apply list_elem_of_In in Hin. simpl in Hin.
    repeat (destruct Hin as [Hin | Hin]; [discriminate |]). exact Hin.
Defined.

Lemma range_slider_reports_failure_witness :
  RecordingPage.execute_action true "type" (Some "#volume") (Some "42") []
  = (Return (ActionResult.mk false "Action failed: type" None
               (Some "cannot access local variable 'final' where it is not associated with a value")),
     ["wait_for_selector #volume attached"; "is_slider #volume";
      "slider_info #volume"; "set_value #volume 42"]).
Proof.
  apply (range_slider_reports_failure RecordingPage.world string
           (fun _ => true) RecordingPage.wait_for_selector
           (RecordingPage.on_selector "click") RecordingPage.fill
           (RecordingPage.on_selector "hover") (RecordingPage.on_selector "goto")
           RecordingPage.scroll_by RecordingPage.page_url RecordingPage.sleep
           RecordingPage.is_slider RecordingPage.get_slider_info
           RecordingPage.set_range_value (RecordingPage.on_selector "focus")
           RecordingPage.get_attribute RecordingPage.press RecordingPage.py_int
           RecordingPage.py_float (fun _ => "1.0") 500
           "#volume" "42" "#volume" (BrowserAgent.SliderInfo 10 0 100 true) 42
           [] ["wait_for_selector #volume attached"]
           ["wait_for_selector #volume attached"; "is_slider #volume"]
           ["wait_for_selector #volume attached"; "is_slider #volume";
            "slider_info #volume"]);
    try reflexivity.
  discriminate.
Defined.

Lemma build_selector_priority_witness :
  RecordingPage._build_selector "handle"
    {["id" := "submit"; "name" := "go"]} 3 [] = (Return "#submit", []) /\
  RecordingPage._build_selector "handle"
    {["class" := "btn primary"; "aria-label" := "Close"]} 3 []
  = (Return "[aria-label='Close']", []) /\
  RecordingPage._build_selector "handle" {["class" := "btn"]} 3 []
  = (Return "button:nth-of-type(4)", ["tag_name handle"]).
Proof.
  unfold RecordingPage._build_selector. split; [| split].
  - apply (build_selector_priority RecordingPage.world string
             RecordingPage.tag_name "handle"
             {["id" := "submit"; "name" := "go"]} 3 []). reflexivity.
  - rewrite (proj2 (build_selector_priority RecordingPage.world string
                      RecordingPage.tag_name "handle"
                      {["class" := "btn primary"; "aria-label" := "Close"]}
                      3 [])).
    + reflexivity.
    + apply (bool_decide_unpack _). vm_compute. exact I.
    + reflexivity.
    + reflexivity.
  - rewrite (proj2 (build_selector_priority RecordingPage.world string
                      RecordingPage.tag_name "handle" {["class" := "btn"]}
                      3 [])).
    + reflexivity.
    + apply (bool_decide_unpack _). vm_compute. exact I.
    + reflexivity.
    + reflexivity.
Defined.

(** ** The learning loop *)

Lemma frame_refl {W : Type} (st : Learn.state W) : frame st st.
Proof. unfold frame. repeat split; try reflexivity. Qed.

Lemma frame_trans {W : Type} (st1 st2 st3 : Learn.state W) :
  frame st1 st2 -> frame st2 st3 -> frame st1 st3.
Proof.
  unfold frame.
  intros (A1 & A2 & A3 & A4 & A5 & A6 & A7 & A8 & A9)
         (B1 & B2 & B3 & B4 & B5 & B6 & B7 & B8 & B9).
  repeat split; try congruence; try lia;
    try (eapply grows_trans; eassumption);
    destruct A9 as [? ?], B9 as [? ?]; etrans; eassumption.
Qed.

Lemma ran_nil {W : Type} (ex : gset string) (st st' : Learn.state W) :
  frame st st' ->
  Session.actions (Learn.session W st') = Session.actions (Learn.session W st) ->
  Session.elements_explored (Learn.session W st')
  = Session.elements_explored (Learn.session W st) ->
  ran ex st [] st'.
Proof.
  intros Hf Ha He. split; [exact Hf |]. split.
  - rewrite app_nil_r. exact Ha.
  - exact He.
Qed.

Lemma selectors_of_app (l1 l2 : list ActionRecord.t) :
  selectors_of (l1 ++ l2) = selectors_of l1 ++ selectors_of l2.
Proof. unfold selectors_of. apply omap_app. Qed.

Lemma ran_trans {W : Type} (ex : gset string) (st1 st2 st3 : Learn.state W)
    (new1 new2 : list ActionRecord.t) :
  ran ex st1 new1 st2 ->
  ran (list_to_set (selectors_of new1) ∪ ex) st2 new2 st3 ->
  ran ex st1 (new1 ++ new2) st3.
Proof.
  intros (F1 & A1 & E1) (F2 & A2 & E2). split; [| split].
  - eapply frame_trans; eassumption.
  - rewrite A2, A1, app_assoc. reflexivity.
  - rewrite E2, selectors_of_app.
    destruct (selectors_of new2) as [| s2 l2] eqn:H2.
    + rewrite app_nil_r. exact E1.
    + assert (Hset : list_to_set (s2 :: l2) ∪ (list_to_set (selectors_of new1) ∪ ex)
                     =@{gset string}
                     list_to_set (selectors_of new1 ++ s2 :: l2) ∪ ex).
      { rewrite list_to_set_app_L, (assoc_L (∪)). f_equal. apply (comm_L (∪)). }
      rewrite Hset.
      destruct (selectors_of new1 ++ s2 :: l2) eqn:Happ; [| reflexivity].
      apply app_nil in Happ. destruct Happ as [_ Habs]. discriminate.
Qed.

Lemma is_learning_complete_returns (self : ConfidenceScorer.t)
    (metrics : ConfidenceMetrics.t) (unique_pages : Z) :
  exists b : bool,
    ConfidenceScorer.is_learning_complete self metrics unique_pages = Ok b.
Proof.
  unfold ConfidenceScorer.is_learning_complete.
  destruct (decide _); [eexists; reflexivity |].
  rewrite weighted_score_value. eexists. reflexivity.
Qed.

Lemma scoring_step_run (o : ConfidenceScorer.objects) :
  exists (metrics : ConfidenceMetrics.t) (score : Q),
    ConfidenceScorer.update o = (Ok metrics, o) /\
    ConfidenceMetrics.weighted_score metrics = Ok score /\
    Orchestrator.scoring_step o
    = (Ok metrics,
       ConfidenceScorer.Objects (ConfidenceScorer.self_ o)
         (Orchestrator.set_confidence_score score (ConfidenceScorer.session_ o))).
Proof.
  destruct (update_returns o) as [metrics Hupd].
  exists metrics. eexists. split; [exact Hupd |]. split.
  - apply weighted_score_value.
  - unfold Orchestrator.scoring_step. run_store. rewrite Hupd.
    rewrite weighted_score_value. reflexivity.
Qed.

Lemma post_bind {S A B : Type} (m : IO S A) (k : A -> IO S B)
    (P : outcome B -> S -> Prop) (st : S) :
  post (fun o st1 =>
          match o with
          | Return a => post P (k a) st1
          | Throw e => P (Throw e) st1
          end) m st ->
  post P (m ≫= k) st.
Proof.
  unfold post, mbind, IO_bind. destruct (m st) as [[a | e] st1]; simpl; auto.
Qed.

Lemma post_mono {S A : Type} (Q P : outcome A -> S -> Prop) (m : IO S A)
    (st : S) :
  (forall o st1, Q o st1 -> P o st1) -> post Q m st -> post P m st.
Proof. unfold post. auto. Qed.

Lemma post_on_memory {W A : Type} (m : M MemoryStore.t A)
    (P : outcome A -> Learn.state W -> Prop) (st : Learn.state W) :
  P (of_result (fst (m (Learn.memory W st))))
    (Learn.set_memory W (snd (m (Learn.memory W st))) st) ->
  post P (Learn.on_memory W m) st.
Proof.
  unfold post, Learn.on_memory. destruct (m (Learn.memory W st)); auto.
Qed.

Lemma post_on_scoring {W : Type}
    (P : outcome ConfidenceMetrics.t -> Learn.state W -> Prop)
    (st : Learn.state W) :
  (forall (metrics : ConfidenceMetrics.t) (score : Q),
     ConfidenceMetrics.weighted_score metrics = Ok score ->
     P (Return metrics)
       (Learn.State W (Learn.world W st)
          (Orchestrator.set_confidence_score score (Learn.session W st))
          (Learn.memory W st) (Learn.scorer W st) (Learn.sessions_dir W st))) ->
  post P (Learn.on_scoring W Orchestrator.scoring_step) st.
Proof.
  intros H. unfold post, Learn.on_scoring.
  destruct (scoring_step_run
              (ConfidenceScorer.Objects (Learn.scorer W st) (Learn.session W st)))
    as (metrics & score & _ & Hscore & Hstep).
  rewrite Hstep. cbn. apply H. exact Hscore.
Qed.

Lemma post_ret {S A : Type} (a : A) (P : outcome A -> S -> Prop) (st : S) :
  P (Return a) st -> post P (mret a) st.
Proof. auto. Qed.

Lemma post_on_world {W A : Type} (f : IO W A)
    (P : outcome A -> Learn.state W -> Prop) (st : Learn.state W) :
  (forall o w', P o (Learn.set_world W w' st)) ->
  post P (Learn.on_world W f) st.
Proof.
  intros H. unfold post, Learn.on_world.
  destruct (f (Learn.world W st)) as [o w']. apply H.
Qed.

Lemma post_update_session {W : Type} (f : Session.t -> Session.t)
    (P : outcome unit -> Learn.state W -> Prop) (st : Learn.state W) :
  P (Return ()) (Learn.set_session W (f (Learn.session W st)) st) ->
  post P (Learn.update_session W f) st.
Proof. auto. Qed.

Lemma post_try_except {S A : Type} (body : IO S A) (handler : error -> IO S A)
    (P : outcome A -> S -> Prop) (st : S) :
  post (fun o st1 =>
          match o with
          | Return a => P (Return a) st1
          | Throw e => post P (handler e) st1
          end) body st ->
  post P (try_except body handler) st.
Proof.
  unfold post, try_except. destruct (body st) as [[a | e] st1]; simpl; auto.
Qed.

Lemma ran_quiet {W : Type} (ex : gset string) (st cur cur' : Learn.state W)
    (new : list ActionRecord.t) :
  ran ex st new cur -> ran ex cur [] cur' -> ran ex st new cur'.
Proof.
  intros (F1 & A1 & E1) (F2 & A2 & E2). split; [| split].
  - eapply frame_trans; eassumption.
  - rewrite A2, app_nil_r. exact A1.
  - rewrite E2. exact E1.
Qed.

Lemma quiet_world {W : Type} (ex : gset string) (w : W) (st : Learn.state W) :
  ran ex st [] (Learn.set_world W w st).
Proof.
  apply ran_nil; try reflexivity. unfold frame; simpl.
  repeat split; reflexivity.
Qed.

Lemma quiet_memory {W : Type} (ex : gset string) (mem : MemoryStore.t)
    (st : Learn.state W) :
  grows (Learn.memory W st) mem ->
  ran ex st [] (Learn.set_memory W mem st).
Proof.
  intros Hg. apply ran_nil; try reflexivity. unfold frame; simpl.
  repeat split; try reflexivity; apply Hg.
Qed.

Lemma quiet_score {W : Type} (ex : gset string) (q : Q) (st : Learn.state W) :
  ran ex st []
    (Learn.State W (Learn.world W st)
       (Orchestrator.set_confidence_score q (Learn.session W st))
       (Learn.memory W st) (Learn.scorer W st) (Learn.sessions_dir W st)).
Proof.
  apply ran_nil; try reflexivity. unfold frame; simpl.
  repeat split; reflexivity.
Qed.

Lemma quiet_total {W : Type} (ex : gset string) (n : Z) (st : Learn.state W) :
  ran ex st []
    (Learn.set_session W
       (if decide (n > Session.total_elements_found (Learn.session W st))%Z
        then Learn.set_total_elements_found n (Learn.session W st)
        else Learn.session W st) st).
Proof.
  apply ran_nil; destruct (decide _); try reflexivity;
    unfold frame; simpl; repeat split; try reflexivity; lia.
Qed.

Lemma ran_record {W : Type} (ex : gset string) (st cur : Learn.state W)
    (rec : ActionRecord.t) :
  ran ex st [] cur ->
  let s1 := Session.add_action (Learn.session W cur) rec in
  let ex' := match truthy (ActionRecord.selector rec) with
             | Some sel => {[sel]} ∪ ex
             | None => ex
             end in
  ex' = list_to_set (selectors_of [rec]) ∪ ex /\
  ran ex st [rec]
    (Learn.set_session W
       (match truthy (ActionRecord.selector rec) with
        | Some _ => Learn.set_elements_explored (Z.of_nat (size ex')) s1
        | None => s1
        end) cur).
Proof.
  intros (F & A & E) s1 ex'. rewrite app_nil_r in A. simpl in E.
  assert (Hex : ex' = list_to_set (selectors_of [rec]) ∪ ex).
  { unfold ex', selectors_of. simpl.
    destruct (truthy (ActionRecord.selector rec)); simpl.
    - rewrite (right_id_L ∅ (∪)). reflexivity.
    - rewrite (left_id_L ∅ (∪)). reflexivity. }
  split; [exact Hex |].
  unfold ran. rewrite <- Hex. unfold selectors_of. simpl.
  destruct (truthy (ActionRecord.selector rec)); simpl;
    (split; [exact F | split; [rewrite A; reflexivity | congruence]]).
Qed.

Lemma size_list_to_set_le (l : list string) :
  (size (list_to_set l : gset string) <= length l)%nat.
Proof.
  induction l as [| x l IH]; cbn [list_to_set length].
  - rewrite size_empty. lia.
  - rewrite size_union_alt, size_singleton.
    assert (size (list_to_set l ∖ {[x]} : gset string)
            <= size (list_to_set l : gset string))%nat
      by (apply subseteq_size, subseteq_difference_l; reflexivity).
    lia.
Qed.

Lemma selectors_of_length (new : list ActionRecord.t) :
  (length (selectors_of new) <= length new)%nat.
Proof.
  unfold selectors_of. induction new as [| a new IH]; [simpl; lia |].
  cbn [omap list_omap length].
  destruct (truthy (ActionRecord.selector a)); cbn [length]; lia.
Qed.

Lemma post_try_finally {S A : Type} (body : IO S A) (cleanup : IO S unit)
    (P : outcome A -> S -> Prop) (st : S) :
  post (fun o st1 =>
          post (fun oc st2 =>
                  match oc with
                  | Return _ => P o st2
                  | Throw e => P (Throw e) st2
                  end) cleanup st1) body st ->
  post P (Learn.try_finally body cleanup) st.
Proof.
  unfold post, Learn.try_finally.
  destruct (body st) as [o st1]. cbn [fst snd].
  destruct (cleanup st1) as [[[] | e] st2]; cbn [fst snd]; auto.
Qed.

Lemma post_on_world_returns {W A : Type} (f : IO W A)
    (P : outcome A -> Learn.state W -> Prop) (st : Learn.state W) :
  (forall w, exists a w', f w = (Return a, w')) ->
  (forall a w', P (Return a) (Learn.set_world W w' st)) ->
  post P (Learn.on_world W f) st.
Proof.
  intros Hf H. unfold post, Learn.on_world.
  destruct (Hf (Learn.world W st)) as (a & w' & ->). apply H.
Qed.






Lemma post_save_session {W : Type} (disk : IO W bool)
    (P : outcome unit -> Learn.state W -> Prop) (st : Learn.state W) :
  (forall w, exists w', disk w = (Return true, w')) ->
  (forall w',
     P (Return ())
       (Learn.set_sessions_dir W
          (Session.save (Learn.session W st) (Learn.sessions_dir W st))
          (Learn.set_world W w' st))) ->
  post P (Learn.save_session W disk) st.
Proof.
  intros Hdisk H. unfold Learn.save_session.
  apply post_bind. unfold post at 1, Learn.on_world.
  destruct (Hdisk (Learn.world W st)) as (w' & ->). cbn [fst snd].
  apply H.
Qed.

Section Run.

Variable W : Type.
Variable llm_decide : string -> string -> string -> IO W Action.t.
Variable execute_action
  : string -> option string -> option string -> IO W ActionResult.t.
Variable get_page_state : IO W PageState.t.
Variable clock : IO W string.
Variable disk : IO W bool.
Variable sleep : Q -> IO W unit.
Variable hash : string -> Z.
Variable SYSTEM_PROMPT : string.
Variable build_prompt : Session.t -> PageState.t -> gset string -> string.
Variable max_iterations : Z.
Variable action_delay_ms : Z.

Let state := Learn.state W.

Let iteration :=
  Learn.iteration W llm_decide execute_action get_page_state clock disk sleep
    hash SYSTEM_PROMPT build_prompt action_delay_ms.

Let iterate :=
  Learn.iterate W llm_decide execute_action get_page_state clock disk sleep
    hash SYSTEM_PROMPT build_prompt action_delay_ms.

Let _learning_loop :=
  Learn._learning_loop W llm_decide execute_action get_page_state clock disk
    sleep hash SYSTEM_PROMPT build_prompt max_iterations action_delay_ms.

Ltac advance H lem :=
  match goal with
  | |- post _ _ ?c =>
      let H' := fresh "Hran" in
      assert (H' : ran _ _ _ c) by (eapply ran_quiet; [exact H | apply lem]);
      clear H; revert H'; generalize c; intros ? H
  end.

Ltac short :=
  split; [simpl; lia | repeat constructor; try assumption].

Ltac run_learn :=
  unfold mbind, IO_bind, mret, IO_ret, throw, Learn.on_world, Learn.on_memory,
    Learn.on_scoring, Learn.get_session, Learn.update_session, try_except;
  cbn beta iota.

Let outcome_ok (ex : gset string) (m : ConfidenceMetrics.t) (st : state)
    (o : outcome Learn.control) (st' : state) : Prop :=
  exists new : list ActionRecord.t,
    ((length new <= 1)%nat /\
     Forall (fun a => ActionRecord.action_type a <> "complete") new) /\
    ran ex st new st' /\
    match o with
    | Return (Learn.Break m') =>
        (m' = m /\ Learn.session W st' = Learn.session W st) \/ scored m' st'
    | Return (Learn.Continue _ ex' m') =>
        ex' = list_to_set (selectors_of new) ∪ ex /\ scored m' st'
    | Throw _ => True
    end.

Lemma iteration_ran (domain : string) (page_state : PageState.t)
    (ex : gset string) (m : ConfidenceMetrics.t) (st : state) :
  post (outcome_ok ex m st) (iteration domain page_state ex m) st.
Proof.
  unfold iteration, Learn.iteration.
  apply post_bind. unfold post at 1, Learn.get_session. cbn [fst snd].
  apply post_bind, post_on_world. intros [action | e] w1.
  2: { exists []. split; [short |]. split; [| exact I]. apply quiet_world. }
  destruct (decide (Action.type action = "complete")) as [Hc | Hc].
  { apply post_ret. exists []. split; [short |]. split.
    - apply quiet_world.
    - left. split; reflexivity. }
  pose proof (quiet_world ex w1 st) as Hran.
  revert Hran. generalize (Learn.set_world W w1 st). intros cur Hran.
  apply post_bind, post_on_world. intros [result | e] w2.
  2: { exists []. split; [short |]. split; [| exact I].
       eapply ran_quiet; [exact Hran | apply quiet_world]. }
  advance Hran (quiet_world ex w2).
  apply post_bind, post_on_world. intros [timestamp | e] w3.
  2: { exists []. split; [short |]. split; [| exact I].
       eapply ran_quiet; [exact Hran | apply quiet_world]. }
  advance Hran (quiet_world ex w3).
  apply post_bind, post_update_session.
  set (rec := ActionRecord.mk _ _ _ _ _ _ _ _).
  destruct (ran_record ex st s0 rec Hran) as [Hex Hrec].
  cbn [ActionRecord.selector rec] in Hex, Hrec. cbv zeta in Hrec.
  apply post_bind.
  apply (post_mono (fun _ s => ran ex st [rec] s)).
  2: { destruct (truthy (Action.selector action)) as [sel |] eqn:Hsel.
       - apply post_bind, post_update_session.
         match goal with
         | |- post _ _ ?c =>
             assert (Hcur : ran ex st [rec] c) by exact Hrec;
             revert Hcur; generalize c; intros c1 Hcur
         end.
         apply post_bind, post_on_world. intros [now_ | e] w4.
         2: { eapply ran_quiet; [exact Hcur | apply quiet_world]. }
         advance Hcur (quiet_world ex w4).
         apply post_bind, post_on_world. intros [ok | e] w5.
         2: { eapply ran_quiet; [exact Hcur | apply quiet_world]. }
         advance Hcur (quiet_world ex w5).
         apply post_bind, post_on_memory.
         match goal with
         | |- context [Learn.set_memory W ?mem ?c] =>
             assert (Hmem : ran ex st [rec] (Learn.set_memory W mem c))
         end.
         { eapply ran_quiet; [exact Hcur |]. apply quiet_memory.
           apply (perform_grows hash (fun _ => "")
                    (MemoryStore.AddPatternFromAction domain (Action.type action)
                       sel (Action.type action) (ActionResult.success result))). }
         destruct (fst _) as [id | e]; [apply post_ret |]; exact Hmem.
       - apply post_ret. exact Hrec. }
  clear Hrec Hran s0. intros [[] | e] cur1 Hran.
  2: { exists [rec]. split; [short |]. split; [exact Hran | exact I]. }
  apply post_bind, post_on_scoring. intros metrics score Hscore.
  match goal with
  | |- post _ _ ?c =>
      assert (Hran' : ran ex st [rec] c)
        by (eapply ran_quiet; [exact Hran | apply quiet_score]);
      assert (Hscored : scored metrics c) by exact Hscore;
      clear Hran; revert Hran' Hscored; generalize c; intros cur2 Hran Hscored
  end.
  apply post_bind. unfold post at 1, Learn.get_session. cbn [fst snd].
  apply post_bind. unfold post at 1. cbn [fst snd].
  match goal with
  | |- context [ConfidenceScorer.is_learning_complete ?a ?b ?c] =>
      destruct (is_learning_complete_returns a b c) as [complete ->]
  end.
  cbn [of_result].
  destruct complete.
  { apply post_ret. exists [rec]. split; [short |].
    split; [exact Hran | right; exact Hscored]. }
  assert (Htail : forall (ps' : PageState.t) (c : state),
            ran ex st [rec] c -> scored metrics c ->
            post (outcome_ok ex m st)
              (Learn.on_world W (sleep (inject_Z action_delay_ms / 1000)%Q)
               ≫= fun _ : () =>
                    mret (Learn.Continue ps'
                            match truthy (Action.selector action) with
                            | Some sel => {[sel]} ∪ ex
                            | None => ex
                            end metrics)) c).
  { intros ps' c Hc1 Hc2. apply post_bind, post_on_world. intros [[] | e] w7.
    - apply post_ret. exists [rec]. split; [short |]. split.
      + eapply ran_quiet; [exact Hc1 | apply quiet_world].
      + split; [exact Hex | exact Hc2].
    - exists [rec]. split; [short |]. split; [| exact I].
      eapply ran_quiet; [exact Hc1 | apply quiet_world]. }
  apply post_bind, post_try_except, post_bind, post_on_world.
  intros [new_state | e] w6.
  - apply post_bind, post_update_session, post_ret. apply Htail.
    + eapply ran_quiet; [| apply (quiet_total (W:=W) ex)].
      eapply ran_quiet; [exact Hran | apply (quiet_world ex w6)].
    + unfold scored. simpl. destruct (decide _); exact Hscored.
  - apply post_ret. apply Htail.
    + eapply ran_quiet; [exact Hran | apply (quiet_world ex w6)].
    + exact Hscored.
Qed.

Let loop_ok (fuel : nat) (ex : gset string) (m : ConfidenceMetrics.t)
    (st : state) (o : outcome ConfidenceMetrics.t) (st' : state) : Prop :=
  exists new : list ActionRecord.t,
    ((length new <= fuel)%nat /\
     Forall (fun a => ActionRecord.action_type a <> "complete") new) /\
    ran ex st new st' /\
    match o with
    | Return m' =>
        (m' = m /\ Learn.session W st' = Learn.session W st) \/ scored m' st'
    | Throw _ => True
    end.

Lemma iterate_ran (fuel : nat) (domain : string) (page_state : PageState.t)
    (ex : gset string) (m : ConfidenceMetrics.t) (st : state) :
  post (loop_ok fuel ex m st) (iterate fuel domain page_state ex m) st.
Proof.
  unfold iterate. revert page_state ex m st.
  induction fuel as [| fuel IH]; intros page_state ex m st; cbn [Learn.iterate].
  - apply post_ret. exists []. split; [short |]. split.
    + apply ran_nil; try reflexivity. apply frame_refl.
    + left. split; reflexivity.
  - apply post_bind.
    eapply post_mono; [| apply iteration_ran].
    intros o st1 (new1 & [Hl1 Hn1] & Hr1 & Ho1).
    destruct o as [[m1 | ps1 ex1 m1] | e].
    + apply post_ret. exists new1. split; [split; [lia | exact Hn1] |].
      split; [exact Hr1 | exact Ho1].
    + destruct Ho1 as [-> Hsc1].
      eapply post_mono; [| apply IH].
      intros o2 st2 (new2 & [Hl2 Hn2] & Hr2 & Ho2).
      exists (new1 ++ new2). split; [split |].
      * rewrite length_app. lia.
      * apply Forall_app. split; assumption.
      * split; [eapply ran_trans; eassumption |].
        destruct o2 as [m2 | e2]; [| exact I].
        right. destruct Ho2 as [[-> Hsame] | Hsc2]; [| exact Hsc2].
        unfold scored. rewrite Hsame. exact Hsc1.
    + exists new1. split; [split; [lia | exact Hn1] |].
      split; [exact Hr1 | exact I].
Qed.

Lemma learning_loop_ran (initial_state : PageState.t) (domain : string)
    (st : state) :
  post (loop_ok (Z.to_nat max_iterations) ∅ (ConfidenceMetrics.mk 0 0 0 0) st)
    (_learning_loop initial_state domain) st.
Proof. apply iterate_ran. Qed.

(** Whatever the LLM, the browser and the disk do, and also when the loop
    ends with an exception, a run of [_learning_loop] keeps the identity,
    status and metadata of the session, the scorer and the session
    directory; it only appends to the actions, at most [max_iterations]
    records and never one for a "complete" decision; the count of elements
    found does not go down and the pattern memory loses nothing. *)
Theorem learning_loop_keeps_the_session (initial_state : PageState.t)
    (domain : string) (st : state) :
  let st' := snd (_learning_loop initial_state domain st) in
  frame st st' /\
  exists new : list ActionRecord.t,
    Session.actions (Learn.session W st')
    = Session.actions (Learn.session W st) ++ new /\
    (Z.of_nat (length new) <= Z.max 0 max_iterations)%Z /\
    Forall (fun a => ActionRecord.action_type a <> "complete") new.
Proof.
  destruct (learning_loop_ran initial_state domain st)
    as (new & [Hlen Hnew] & (Hframe & Hacts & _) & _).
  split; [exact Hframe |]. exists new.
  split; [exact Hacts |]. split; [lia | exact Hnew].
Qed.

(** After a run of the loop [elements_explored] is the number of distinct
    non-empty selectors among the actions recorded by this run, whatever it
    was before; it is left alone when no recorded action has a selector. *)
Theorem learning_loop_counts_selectors (initial_state : PageState.t)
    (domain : string) (st : state) :
  let st' := snd (_learning_loop initial_state domain st) in
  exists new : list ActionRecord.t,
    Session.actions (Learn.session W st')
    = Session.actions (Learn.session W st) ++ new /\
    Session.elements_explored (Learn.session W st')
    = match selectors_of new with
      | [] => Session.elements_explored (Learn.session W st)
      | sels => Z.of_nat (size (list_to_set sels : gset string))
      end /\
    (selectors_of new <> [] ->
     (1 <= Session.elements_explored (Learn.session W st')
        <= Z.of_nat (length new))%Z).
Proof.
  destruct (learning_loop_ran initial_state domain st)
    as (new & _ & (_ & Hacts & Hex) & _).
  exists new. split; [exact Hacts |].
  rewrite (right_id_L ∅ (∪)) in Hex.
  pose proof (selectors_of_length new) as Hlen.
  pose proof (size_list_to_set_le (selectors_of new)) as Hsize.
  destruct (selectors_of new) as [| sel sels] eqn:Hsels.
  { split; [exact Hex | intros Habs; contradiction]. }
  split; [exact Hex |]. intros _.
  match goal with
  | |- (1 <= ?x <= _)%Z =>
      replace x with (Z.of_nat (size (list_to_set (sel :: sels) : gset string)))
        by (symmetry; exact Hex)
  end.
  assert (size (list_to_set (sel :: sels) : gset string) <> 0)%nat.
  { intros Hzero. apply size_empty_inv in Hzero.
    assert (Hin : sel ∈ (list_to_set (sel :: sels) : gset string))
      by (apply elem_of_list_to_set; left).
    rewrite Hzero in Hin. apply elem_of_empty in Hin. exact Hin. }
  lia.
Qed.

(** When the loop returns, either it recorded nothing and returns the zero
    metrics, with the session as it was, or the session's
    [confidence_score] is the composite score of the metrics returned. *)
Theorem learning_loop_returns_the_stored_score (initial_state : PageState.t)
    (domain : string) (st : state) :
  match _learning_loop initial_state domain st with
  | (Return metrics, st') =>
      (metrics = ConfidenceMetrics.mk 0 0 0 0 /\
       Learn.session W st' = Learn.session W st) \/
      ConfidenceMetrics.weighted_score metrics
      = Ok (Session.confidence_score (Learn.session W st'))
  | (Throw _, _) => True
  end.
Proof.
  destruct (learning_loop_ran initial_state domain st) as (new & _ & _ & Hret).
  destruct (_learning_loop initial_state domain st) as [[metrics | e] st'];
    [exact Hret | exact I].
Qed.

(** With no iterations allowed the loop returns the zero metrics at once;
    and when the first decision of the LLM is "complete" it returns them
    after that one call: nothing is executed, recorded or learned. *)
Theorem learning_loop_stops_without_acting (initial_state : PageState.t)
    (domain : string) (st : state) (action : Action.t) (w1 : W) :
  ((max_iterations <= 0)%Z ->
   _learning_loop initial_state domain st
   = (Return (ConfidenceMetrics.mk 0 0 0 0), st)) /\
  ((0 < max_iterations)%Z ->
   llm_decide SYSTEM_PROMPT
     (build_prompt (Learn.session W st) initial_state ∅)
     (PageState.screenshot_base64 initial_state) (Learn.world W st)
   = (Return action, w1) ->
   Action.type action = "complete" ->
   _learning_loop initial_state domain st
   = (Return (ConfidenceMetrics.mk 0 0 0 0), Learn.set_world W w1 st)).
Proof.
  unfold _learning_loop, Learn._learning_loop. split.
  - intros Hle. replace (Z.to_nat max_iterations) with 0%nat by lia.
    reflexivity.
  - intros Hpos Hdecide Hcomplete.
    destruct (Z.to_nat max_iterations) as [| fuel] eqn:Hfuel; [lia |].
    cbn [Learn.iterate]. unfold Learn.iteration. run_learn.
    rewrite Hdecide.
    destruct (decide (Action.type action = "complete")); [| contradiction].
    reflexivity.
Qed.

(** ** A learning session *)

Variable uuid8 : IO W string.
Variable netloc : string -> outcome string.
Variable session_disk : IO W bool.
Variable launch : IO W unit.
Variable navigate : string -> IO W PageState.t.
Variable close : IO W unit.
Variable send_learning_complete
  : Session.t -> ConfidenceMetrics.t -> string -> IO W bool.
Variable send_error_alert : Session.t -> string -> IO W bool.
Variable _generate_summary_report
  : Session.t -> ConfidenceMetrics.t -> outcome string.

Let learn :=
  Learn.learn W llm_decide execute_action get_page_state clock disk sleep hash
    SYSTEM_PROMPT build_prompt max_iterations action_delay_ms uuid8 netloc
    session_disk launch navigate close send_learning_complete
    send_error_alert _generate_summary_report.

Let resume :=
  Learn.resume W llm_decide execute_action get_page_state clock disk sleep hash
    SYSTEM_PROMPT build_prompt max_iterations action_delay_ms uuid8 netloc
    session_disk launch navigate close send_learning_complete
    send_error_alert _generate_summary_report.






(** If drawing the identifier, reading the clock, sending the error alert
    and closing the browser do not raise and the session file can be
    written, [learn] returns a result for every URL that [urlparse] splits,
    whatever else goes wrong: failures of the browser, the LLM, the pattern
    files or the completion email end in a result.  On a URL for which
    [urlparse] raises, [learn] raises that exception, from before its
    [try]: no session file is written. *)
Theorem learn_returns (url : string) (st : state) :
  (forall w, exists id w', uuid8 w = (Return id, w')) ->
  (forall w, exists now_ w', clock w = (Return now_, w')) ->
  (forall w, exists w', session_disk w = (Return true, w')) ->
  (forall session text w,
     exists sent w', send_error_alert session text w = (Return sent, w')) ->
  (forall w, exists u w', close w = (Return u, w')) ->
  match netloc url with
  | Return _ =>
      exists (r : LearningResult.t) (st' : state),
        learn url st = (Return r, st')
  | Throw e =>
      exists st' : state,
        learn url st = (Throw e, st') /\
        Learn.sessions_dir W st' = Learn.sessions_dir W st
  end.
Proof.
  intros Huuid Hclock Hdisk Halert Hclose.
  destruct (netloc url) as [domain | e] eqn:Hnet.
  - assert (Hgoal : post (fun o _ => exists r, o = Return r) (learn url) st).
    { unfold learn, Learn.learn.
      apply post_bind, post_on_world_returns; [exact Huuid |]. intros id w1.
      apply post_bind, post_on_world_returns; [exact Hclock |]. intros now_ w2.
      apply post_bind, post_update_session.
      apply post_bind. unfold post at 1. rewrite Hnet. cbn [fst snd].
      apply post_try_finally.
      apply (post_mono (fun o _ => exists r, o = Return r)).
      { intros o c [r ->]. apply post_on_world_returns; [exact Hclose |].
        intros u w'. eauto. }
      apply post_try_except.
      apply (post_mono (fun _ _ => True)); [| exact I].
      intros [r | e] c _; [eauto |].
      apply post_bind, post_update_session.
      apply post_bind, post_save_session; [exact Hdisk |]. intros w3.
      apply post_bind. unfold post at 1, Learn.get_session. cbn [fst snd].
      apply post_bind, post_on_world_returns; [apply Halert |]. intros sent w4.
      apply post_ret. eauto. }
    unfold post in Hgoal. destruct Hgoal as [r Hr].
    exists r, (snd (learn url st)).
    destruct (learn url st) as [o st']. cbn [fst snd] in *. rewrite Hr.
    reflexivity.
  - assert (Hgoal : post (fun o st' =>
                            o = Throw e /\
                            Learn.sessions_dir W st' = Learn.sessions_dir W st)
                      (learn url) st).
    { unfold learn, Learn.learn.
      apply post_bind, post_on_world_returns; [exact Huuid |]. intros id w1.
      apply post_bind, post_on_world_returns; [exact Hclock |]. intros now_ w2.
      apply post_bind, post_update_session.
      apply post_bind. unfold post at 1. rewrite Hnet. cbn [fst snd].
      split; reflexivity. }
    unfold post in Hgoal. destruct Hgoal as [Ho Hdir].
    exists (snd (learn url st)).
    destruct (learn url st) as [o st']. cbn [fst snd] in *. rewrite Ho.
    split; [reflexivity | exact Hdir].
Qed.


End Run.

Lemma learning_loop_stops_without_acting_witness :
  let later := [Scripted.decision "click" (Some "#buy")] in
  let st := Scripted.start (Scripted.decision "complete" None :: later) ∅ in
  Scripted._learning_loop 0 Scripted.page "example.com" st
  = (Return (ConfidenceMetrics.mk 0 0 0 0), st) /\
  Scripted._learning_loop 5 Scripted.page "example.com" st
  = (Return (ConfidenceMetrics.mk 0 0 0 0),
     Learn.set_world Scripted.world later st).
Proof.
  intros later st. split.
  - apply (learning_loop_stops_without_acting Scripted.world
             Scripted.llm_decide Scripted.execute_action
             Scripted.get_page_state Scripted.clock Scripted.disk
             Scripted.sleep Scripted.hash "" Scripted.build_prompt 0 500
             Scripted.page "example.com" st
             (Scripted.decision "complete" None) later).
    lia.
  - apply (learning_loop_stops_without_acting Scripted.world
             Scripted.llm_decide Scripted.execute_action
             Scripted.get_page_state Scripted.clock Scripted.disk
             Scripted.sleep Scripted.hash "" Scripted.build_prompt 5 500
             Scripted.page "example.com" st
             (Scripted.decision "complete" None) later).
    + lia.
    + reflexivity.
    + reflexivity.
Defined.

(** A run whose pattern files cannot be written, a run whose browser does
    not start, and a URL that [urlparse] rejects. *)
Lemma learn_returns_witness :
  let st := Scripted.start [Scripted.decision "click" (Some "#buy")] ∅ in
  (exists (r : LearningResult.t) (st' : Learn.state Scripted.world),
     Scripted.learn_read_only_patterns 3 "https://example.com/" st
     = (Return r, st')) /\
  match Scripted.learn_read_only_patterns 3 "https://example.com/" st with
  | (Return r, _) =>
      LearningResult.success r = false /\
      LearningResult.message r
      = "Learning failed: cannot open file for writing" /\
      length (Session.actions (LearningResult.session r)) = 1%nat
  | (Throw _, _) => False
  end /\
  (exists (r : LearningResult.t) (st' : Learn.state Scripted.world),
     Scripted.learn_without_browser 3 "https://example.com/" st
     = (Return r, st')) /\
  match Scripted.learn_without_browser 3 "https://example.com/" st with
  | (Return r, _) =>
      LearningResult.success r = false /\
      LearningResult.message r = "Learning failed: Executable doesn't exist"
  | (Throw _, _) => False
  end /\
  exists st' : Learn.state Scripted.world,
    Scripted.learn 3 "http://[" st
    = (Throw (Error "ValueError" "Invalid IPv6 URL"), st') /\
    Learn.sessions_dir Scripted.world st' = ∅.
Proof.
  intros st.
  split; [| split; [| split; [| split]]].
  - apply (learn_returns Scripted.world Scripted.llm_decide
             Scripted.execute_action Scripted.get_page_state Scripted.clock
             Scripted.read_only Scripted.sleep Scripted.hash ""
             Scripted.build_prompt 3 500 Scripted.uuid8 Scripted.netloc
             Scripted.session_disk Scripted.launch Scripted.navigate
             Scripted.close Scripted.send_learning_complete
             Scripted.send_error_alert Scripted._generate_summary_report
             "https://example.com/" st);
      intros; eexists; try eexists; reflexivity.
  - vm_compute. repeat split; reflexivity.
  - apply (learn_returns Scripted.world Scripted.llm_decide
             Scripted.execute_action Scripted.get_page_state Scripted.clock
             Scripted.disk Scripted.sleep Scripted.hash ""
             Scripted.build_prompt 3 500 Scripted.uuid8 Scripted.netloc
             Scripted.session_disk Scripted.no_browser Scripted.navigate
             Scripted.close Scripted.send_learning_complete
             Scripted.send_error_alert Scripted._generate_summary_report
             "https://example.com/" st);
      intros; eexists; try eexists; reflexivity.
  - vm_compute. repeat split; reflexivity.
  - apply (learn_returns Scripted.world Scripted.llm_decide
             Scripted.execute_action Scripted.get_page_state Scripted.clock
             Scripted.disk Scripted.sleep Scripted.hash ""
             Scripted.build_prompt 3 500 Scripted.uuid8 Scripted.netloc
             Scripted.session_disk Scripted.launch Scripted.navigate
             Scripted.close Scripted.send_learning_complete
             Scripted.send_error_alert Scripted._generate_summary_report
             "http://[" st);
      intros; eexists; try eexists; reflexivity.
Defined.

